(** * device-query.py: session orchestration and fact extraction

    A shallow embedding of [src/device-query.py] and the properties of its
    registry, backup-path, fact-extractor and device-processor functions.

    Python [str] values are lists of code points; the development keeps to
    code points below 256, so a character is an [ascii].  Python [int] is
    [Z].  A [csv.DictReader] row is a finite map from column names to cell
    texts.  Calls that leave the program (netmiko, [os], [open], [print],
    [time.sleep], the clock) are answered by an environment and recorded in
    a trace; exceptions are values of an error monad.  The environment also
    fixes the platform, on which depends whether [os.path] is [posixpath]
    or [ntpath]. *)

From Stdlib Require Import ZArith Ascii String DecimalString.
From stdpp Require Import base option list gmap strings.

Local Open Scope Z_scope.

(** ** Python strings *)

Abbreviation pystr := (list ascii).

Definition py (s : string) : pystr := list_ascii_of_string s.
Arguments py s%_string.

Definition LF : ascii := "010"%char.
Definition CR : ascii := "013"%char.
Definition SP : ascii := " "%char.
Definition DQUOTE : ascii := "034"%char.
Definition BACKSLASH : ascii := "092"%char.

(** [str(n)] for an [int]. *)
Definition str_of_int (n : Z) : pystr := py (NilZero.string_of_int (Z.to_int n)).

(** [s.startswith(pre)]. *)
Fixpoint startswith (s pre : pystr) {struct pre} : bool :=
  match pre, s with
  | [], _ => true
  | _ :: _, [] => false
  | a :: pre', b :: s' => if Ascii.eqb a b then startswith s' pre' else false
  end.

(** Index of the first occurrence of [sub] in [s], if any. *)
Fixpoint find_nat (s sub : pystr) {struct s} : option nat :=
  if startswith s sub then Some 0%nat
  else match s with
       | [] => None
       | _ :: t => S <$> find_nat t sub
       end.

(** [s.find(sub)]: the lowest index where [sub] occurs, [-1] when absent. *)
Definition find (s sub : pystr) : Z :=
  match find_nat s sub with
  | Some i => Z.of_nat i
  | None => -1
  end.

(** Python's normalisation of a slice bound against a length. *)
Definition slice_bound (len i : Z) : Z :=
  if i <? 0 then Z.max 0 (i + len) else Z.min i len.

(** [s.find(sub, start)]. *)
Definition find_from (s sub : pystr) (start : Z) : Z :=
  let len := Z.of_nat (length s) in
  if len <? start then -1
  else
    let st := slice_bound len start in
    match find_nat (drop (Z.to_nat st) s) sub with
    | Some i => st + Z.of_nat i
    | None => -1
    end.

(** [s[lo:hi]]. *)
Definition slice (s : pystr) (lo hi : Z) : pystr :=
  let len := Z.of_nat (length s) in
  let l := slice_bound len lo in
  let h := slice_bound len hi in
  take (Z.to_nat (h - l)) (drop (Z.to_nat l) s).

(** [s[lo:]]. *)
Definition slice_from (s : pystr) (lo : Z) : pystr :=
  drop (Z.to_nat (slice_bound (Z.of_nat (length s)) lo)) s.

(** [c.isspace()] on code points below 256. *)
Definition isspace (c : ascii) : bool :=
  let n := nat_of_ascii c in
  ((9 <=? n) && (n <=? 13))%nat || ((28 <=? n) && (n <=? 32))%nat
  || (n =? 133)%nat || (n =? 160)%nat.

Fixpoint lstrip (s : pystr) : pystr :=
  match s with
  | [] => []
  | c :: t => if isspace c then lstrip t else s
  end.

Definition rstrip (s : pystr) : pystr := rev (lstrip (rev s)).

(** [s.strip()]. *)
Definition strip (s : pystr) : pystr := rstrip (lstrip s).

(** [s.replace(c, '')] for a one-character [c]. *)
Definition remove_char (c : ascii) (s : pystr) : pystr :=
  filter (λ x, x ≠ c) s.

(** [s.endswith(suf)]. *)
Definition endswith (s suf : pystr) : bool := startswith (rev s) (rev suf).

(** [re.sub(r"\.bin$", "", s)].  [$] matches at the end of the text and
    just before a line feed that ends the text. *)
Definition re_sub_bin_end (s : pystr) : pystr :=
  if endswith s (py ".bin") then take (length s - 4) s
  else if endswith s (py ".bin" ++ [LF]) then take (length s - 5) s ++ [LF]
  else s.

(** [s.split(sep)] for a one-character [sep]. *)
Fixpoint split (s : pystr) (sep : ascii) : list pystr :=
  match s with
  | [] => [[]]
  | c :: t =>
      if Ascii.eqb c sep then [] :: split t sep
      else match split t sep with
           | l :: ls => (c :: l) :: ls
           | [] => [[c]]
           end
  end.

(** [c.lower()] on code points below 256. *)
Definition lower_char (c : ascii) : ascii :=
  let n := nat_of_ascii c in
  if ((65 <=? n) && (n <=? 90))%nat
     || ((192 <=? n) && (n <=? 222) && negb (n =? 215))%nat
  then ascii_of_nat (n + 32) else c.

Definition lower (s : pystr) : pystr := map lower_char s.

(** The characters at which [splitlines] ends a line. *)
Definition is_linebreak (c : ascii) : bool :=
  let n := nat_of_ascii c in
  ((10 <=? n) && (n <=? 13))%nat || ((28 <=? n) && (n <=? 30))%nat
  || (n =? 133)%nat.

(** [s.splitlines()]: a carriage return followed by a line feed is one
    break, and a break that ends the text opens no further line. *)
Fixpoint splitlines (s : pystr) : list pystr :=
  match s with
  | [] => []
  | c :: t =>
      if is_linebreak c then
        match t with
        | c' :: t' =>
            if Ascii.eqb c CR && Ascii.eqb c' LF then [] :: splitlines t'
            else [] :: splitlines t
        | [] => [[]]
        end
      else match splitlines t with
           | l :: ls => (c :: l) :: ls
           | [] => [[c]]
           end
  end.

(** [c.upper()] on code points below 256.  The three code points whose
    upper-case form lies above 255 or has two letters (181, 223 and 255)
    are left as they are: [upper] is only compared with a text of ASCII
    characters, which none of these forms contains. *)
Definition upper_char (c : ascii) : ascii :=
  let n := nat_of_ascii c in
  if ((97 <=? n) && (n <=? 122))%nat
     || ((224 <=? n) && (n <=? 254) && negb (n =? 247))%nat
  then ascii_of_nat (n - 32) else c.

Definition upper (s : pystr) : pystr := map upper_char s.

(** ** The two [os.path] modules *)

(** [os.path] is the module [posixpath] or the module [ntpath], by the
    platform on which the program runs.  Their functions are embedded from
    [posixpath.py] and [ntpath.py] of CPython 3.11. *)
Inductive PathModule := posixpath | ntpath.

(** [os.sep]. *)
Definition os_sep (os_path : PathModule) : ascii :=
  match os_path with
  | posixpath => "/"%char
  | ntpath => BACKSLASH
  end.

(** The characters that [os.path.join] takes for separators. *)
Definition seps (os_path : PathModule) : list ascii :=
  match os_path with
  | posixpath => ["/"%char]
  | ntpath => [BACKSLASH; "/"%char]
  end.

(** The body of the loop of [posixpath.join]: a component that starts with
    the separator discards what precedes it, and no separator is added
    after an empty path or after one that already ends with it. *)
Definition posixpath_join_step (path b : pystr) : pystr :=
  if startswith b (py "/") then b
  else if bool_decide (path = []) || endswith path (py "/") then path ++ b
  else path ++ py "/" ++ b.

Definition posixpath_join (a : pystr) (p : list pystr) : pystr :=
  foldl posixpath_join_step a p.

(** [p.replace(altsep, sep)] in [ntpath]. *)
Definition replace_altsep (p : pystr) : pystr :=
  map (λ c, if Ascii.eqb c "/" then BACKSLASH else c) p.

(** The prefix of the long form of a UNC path. *)
Definition unc_prefix : pystr :=
  [BACKSLASH; BACKSLASH] ++ py "?" ++ [BACKSLASH] ++ py "UNC" ++ [BACKSLASH].

(** [ntpath.splitdrive(p)]: the drive, which is a letter with its colon or
    the host and share of a UNC path, and the rest. *)
Definition ntpath_splitdrive (p : pystr) : pystr * pystr :=
  if (2 <=? length p)%nat then
    let normp := replace_altsep p in
    if bool_decide (slice normp 0 2 = [BACKSLASH; BACKSLASH]) then
      let start :=
        if bool_decide (upper (slice normp 0 8) = unc_prefix) then 8 else 2 in
      let index := find_from normp [BACKSLASH] start in
      if bool_decide (index = -1) then (p, [])
      else
        let index2 := find_from normp [BACKSLASH] (index + 1) in
        if bool_decide (index2 = -1) then (p, [])
        else (slice p 0 index2, slice_from p index2)
    else if bool_decide (slice normp 1 2 = py ":") then
      (slice p 0 2, slice_from p 2)
    else ([], p)
  else ([], p).

(** [s and s[0] in seps] and [s and s[-1] not in seps], for [ntpath]. *)
Definition starts_with_sep (s : pystr) : bool :=
  match head s with
  | Some c => bool_decide (c ∈ seps ntpath)
  | None => false
  end.

Definition ends_without_sep (s : pystr) : bool :=
  match last s with
  | Some c => bool_decide (c ∉ seps ntpath)
  | None => false
  end.

(** The body of the loop of [ntpath.join], on the pair of [result_drive]
    and [result_path]: an absolute component replaces the path, a component
    on another drive replaces drive and path, and any other component is
    appended, after a backslash unless the path is empty or ends with a
    separator. *)
Definition ntpath_join_step (result : pystr * pystr) (p : pystr) : pystr * pystr :=
  let '(result_drive, result_path) := result in
  let '(p_drive, p_path) := ntpath_splitdrive p in
  let relative (result_drive : pystr) : pystr * pystr :=
    (result_drive,
     (if ends_without_sep result_path then result_path ++ [BACKSLASH]
      else result_path) ++ p_path) in
  if starts_with_sep p_path then
    (if bool_decide (p_drive ≠ []) || bool_decide (result_drive = [])
     then p_drive else result_drive,
     p_path)
  else if bool_decide (p_drive ≠ []) && bool_decide (p_drive ≠ result_drive) then
    if bool_decide (lower p_drive ≠ lower result_drive) then (p_drive, p_path)
    else relative p_drive
  else relative result_drive.

(** [ntpath.join(path, *paths)]. *)
Definition ntpath_join (path : pystr) (paths : list pystr) : pystr :=
  let '(result_drive, result_path) :=
    foldl ntpath_join_step (ntpath_splitdrive path) paths in
  if bool_decide (result_path ≠ []) && negb (starts_with_sep result_path)
     && bool_decide (result_drive ≠ [])
     && bool_decide (last result_drive ≠ Some ":"%char)
  then result_drive ++ [BACKSLASH] ++ result_path
  else result_drive ++ result_path.

(** [os.path.splitdrive(p)], by the module that [os.path] is; [posixpath]
    knows no drive. *)
Definition splitdrive (os_path : PathModule) (p : pystr) : pystr * pystr :=
  match os_path with
  | posixpath => ([], p)
  | ntpath => ntpath_splitdrive p
  end.

(** [os.path.join(a, *ps)], by the module that [os.path] is. *)
Definition join (os_path : PathModule) (a : pystr) (ps : list pystr) : pystr :=
  match os_path with
  | posixpath => posixpath_join a ps
  | ntpath => ntpath_join a ps
  end.

(** ** Exceptions, calls and the environment *)

Inductive exn :=
| NameError (name : pystr)
| KeyError (key : pystr)
| TypeError (msg : pystr)
| FileExistsError (path : pystr)
| Raised (cls msg : pystr).

Inductive Res (A : Type) :=
| Ok (a : A)
| Exc (e : exn).
Arguments Ok {A} a.
Arguments Exc {A} e.

(** The calls that leave the program.  [Now] is
    [datetime.datetime.now().strftime("%Y_%m_%d-%H_%M_%S")]; [WriteFile] is
    [open(path, 'w')] followed by [file.write(content)]. *)
Inductive Call :=
| Now
| ConnectHandler (host username password device_type secret : pystr)
| Enable
| SendCommand (cmd : pystr)
| SendConfigSet (cmd : pystr)
| Disconnect
| Sleep (seconds : Z)
| Makedirs (path : pystr)
| WriteFile (path content : pystr)
| Print (line : pystr).

Inductive Outcome :=
| Returns (v : pystr)
| Raises (e : exn).

Definition Event : Type := Call * Outcome.

(** The environment is the platform, which decides what [os.path] is, and
    the answers to the calls, each given from the events so far. *)
Record Env := mkEnv {
  os_path : PathModule;
  answer :> list Event → Call → Outcome
}.

(** The trace of events, the paths that exist, and the contents of the
    files written.  Paths are compared as texts. *)
Record World := mkWorld {
  trace : list Event;
  paths : gset pystr;
  files : gmap pystr pystr
}.

Definition log (ev : Event) (w : World) : World :=
  mkWorld (trace w ++ [ev]) (paths w) (files w).

Definition M (A : Type) : Type := World → Res A * World.

Definition ret {A} (a : A) : M A := λ w, (Ok a, w).

Definition raise {A} (e : exn) : M A := λ w, (Exc e, w).

Definition bind {A B} (m : M A) (k : A → M B) : M B := λ w,
  match m w with
  | (Ok a, w') => k a w'
  | (Exc e, w') => (Exc e, w')
  end.

#[global] Instance M_ret : MRet M := @ret.
#[global] Instance M_bind : MBind M := λ A B k m, bind m k.

(** ** Names visible in a function of the module *)

Definition module_globals : list pystr :=
  [py "ConnectHandler"; py "sys"; py "csv"; py "datetime"; py "os";
   py "time"; py "re"; py "DEVICE_FILE_PATH"; py "BACKUP_DIR_PATH";
   py "get_devices_from_file"; py "get_current_date_and_time";
   py "connect_to_device"; py "disconnect_from_device";
   py "get_backup_file_path"; py "create_backup"; py "get_device_inv_info";
   py "get_device_ver_info"; py "get_device_cdp_info";
   py "set_timezone_gmt0"; py "getset_device_ntp_info"; py "process_target";
   py "main"; py "_"; py "script_args"].

(** The built-in exception classes that can catch an [exn] of this model;
    no other built-in name is spelled [Error] or [hostname]. *)
Definition builtin_exception (name : pystr) : option (exn → bool) :=
  if bool_decide (name = py "BaseException") then Some (λ _, true)
  else if bool_decide (name = py "Exception") then Some (λ _, true)
  else if bool_decide (name = py "NameError") then
    Some (λ e, match e with NameError _ => true | _ => false end)
  else if bool_decide (name = py "LookupError") then
    Some (λ e, match e with KeyError _ => true | _ => false end)
  else if bool_decide (name = py "KeyError") then
    Some (λ e, match e with KeyError _ => true | _ => false end)
  else if bool_decide (name = py "TypeError") then
    Some (λ e, match e with TypeError _ => true | _ => false end)
  else if bool_decide (name = py "OSError") then
    Some (λ e, match e with FileExistsError _ => true | _ => false end)
  else if bool_decide (name = py "FileExistsError") then
    Some (λ e, match e with FileExistsError _ => true | _ => false end)
  else None.

Inductive Binding :=
| Unbound
| Object
| ExceptionClass (catches : exn → bool).

(** Look-up of a name that the function does not assign: module globals,
    then built-ins. *)
Definition lookup_global (name : pystr) : Binding :=
  if bool_decide (name ∈ module_globals) then Object
  else match builtin_exception name with
       | Some catches => ExceptionClass catches
       | None => Unbound
       end.

(** Reading such a name as the argument of [str.format]. *)
Definition load_global (name : pystr) : M pystr :=
  match lookup_global name with
  | Unbound => raise (NameError name)
  | _ => ret (py "<" ++ name ++ py ">")
  end.

(** [try: body except cls: handler].  The expression [cls] is evaluated
    only once an exception is in flight. *)
Definition try_except {A} (cls : pystr) (body handler : M A) : M A := λ w,
  match body w with
  | (Ok a, w') => (Ok a, w')
  | (Exc e, w') =>
      match lookup_global cls with
      | Unbound => (Exc (NameError cls), w')
      | Object =>
          (Exc (TypeError (py "catching classes that do not inherit from BaseException is not allowed")), w')
      | ExceptionClass catches =>
          if catches e then handler w' else (Exc e, w')
      end
  end.

(** [d[k]] on a row. *)
Definition getitem (d : gmap pystr pystr) (k : pystr) : M pystr :=
  match d !! k with
  | Some v => ret v
  | None => raise (KeyError k)
  end.

(** [print(line)]. *)
Definition print (line : pystr) : M unit := λ w,
  (Ok (), log (Print line, Returns []) w).

(** [os.path.exists(p)]. *)
Definition os_path_exists (p : pystr) : M bool := λ w,
  (Ok (bool_decide (p ∈ paths w)), w).

Section Program.

Context (env : Env).

(** A call answered by the environment. *)
Definition call (c : Call) : M pystr := λ w,
  let o := env (trace w) c in
  match o with
  | Returns v => (Ok v, log (c, o) w)
  | Raises e => (Exc e, log (c, o) w)
  end.

(** [time.sleep(n)]. *)
Definition sleep (n : Z) : M unit := call (Sleep n);; ret ().

(** [os.makedirs(p)]: refuses an existing leaf. *)
Definition os_makedirs (p : pystr) : M unit := λ w,
  if bool_decide (p ∈ paths w) then
    (Exc (FileExistsError p), log (Makedirs p, Raises (FileExistsError p)) w)
  else
    let o := env (trace w) (Makedirs p) in
    match o with
    | Returns _ =>
        (Ok (), mkWorld (trace w ++ [(Makedirs p, o)]) ({[p]} ∪ paths w) (files w))
    | Raises e => (Exc e, log (Makedirs p, o) w)
    end.

(** [with open(p, 'w') as file: file.write(content)]. *)
Definition write_file (p content : pystr) : M unit := λ w,
  let o := env (trace w) (WriteFile p content) in
  match o with
  | Returns _ =>
      (Ok (), mkWorld (trace w ++ [(WriteFile p content, o)])
                      ({[p]} ∪ paths w) (<[p := content]> (files w)))
  | Raises e => (Exc e, log (WriteFile p content, o) w)
  end.

(** [os.path.join(a, *ps)]. *)
Definition os_path_join (a : pystr) (ps : list pystr) : pystr :=
  join (os_path env) a ps.

(** ** The functions of the module *)

Definition BACKUP_DIR_PATH : pystr := py "C:/Temp/_CiscoDevNet/backup".

(** [get_devices_from_file], inner loop: the accepted records are scanned
    for the hostname of [row]; every match prints a notice and sets [dup]. *)
Fixpoint scan_device_list (device_list : list (gmap pystr pystr))
    (row : gmap pystr pystr) (dup : bool) : M bool :=
  match device_list with
  | [] => mret dup
  | dev :: rest =>
      a ← getitem dev (py "hostname");
      b ← getitem row (py "hostname");
      if bool_decide (a = b) then
        h ← getitem row (py "hostname");
        print (py "Duplicated device '" ++ h ++ py "' - skipped");;
        scan_device_list rest row true
      else scan_device_list rest row dup
  end.

(** [get_devices_from_file], outer loop over the rows still to be read. *)
Fixpoint read_rows (reader : list (gmap pystr pystr))
    (device_list : list (gmap pystr pystr)) : M (list (gmap pystr pystr)) :=
  match reader with
  | [] => mret device_list
  | row :: rest =>
      dup ← scan_device_list device_list row false;
      if negb dup then
        h ← getitem row (py "hostname");
        print (py "Add unique device '" ++ h ++ py "' to device list");;
        read_rows rest (device_list ++ [row])
      else read_rows rest device_list
  end.

(** [reader] is the sequence of rows that [csv.DictReader] yields for the
    device file. *)
Definition get_devices_from_file (reader : list (gmap pystr pystr))
  : M (list (gmap pystr pystr)) :=
  read_rows reader [].

Definition get_current_date_and_time : M pystr := call Now.

Definition connect_to_device (device : gmap pystr pystr) : M unit :=
  host ← getitem device (py "ip");
  username ← getitem device (py "username");
  password ← getitem device (py "password");
  device_type ← getitem device (py "device_type");
  secret ← getitem device (py "secret");
  call (ConnectHandler host username password device_type secret);;
  mret ().

Definition disconnect_from_device (hostname : pystr) : M unit :=
  call Disconnect;; mret ().

Definition get_backup_file_path (hostname timestamp : pystr) : M pystr :=
  present ← os_path_exists (os_path_join BACKUP_DIR_PATH [hostname]);
  (if negb present then os_makedirs (os_path_join BACKUP_DIR_PATH [hostname])
   else mret ());;
  mret (os_path_join BACKUP_DIR_PATH
          [hostname; hostname ++ py "-" ++ timestamp ++ py ".txt"]).

Definition create_backup (backup_file_path hostname : pystr) : M bool :=
  try_except (py "Error")
    (output ← call (SendCommand (py "sh run"));
     write_file backup_file_path output;;
     mret true)
    (print (py "Error! Unable to backup device '" ++ hostname ++ py "'");;
     mret false).

(** Lines 100 to 102: the text after the first [PID:] up to the next comma. *)
Definition inv_parse (output : pystr) : pystr :=
  let output := slice_from output (find output (py "PID:") + 4) in
  let output := slice output 0 (find output (py ",")) in
  strip output.

Definition get_device_inv_info : M pystr :=
  try_except (py "Error")
    (output ← call (SendCommand (py "sh inv"));
     mret (inv_parse output))
    (hostname ← load_global (py "hostname");
     print (py "Error! Unable to get inventory info from '" ++ hostname ++ py "'");;
     mret (py "DEVICE INVENTORY FAILED")).

(** Lines 116 and 117. *)
Definition ver_image_text (output : pystr) : pystr :=
  let idx := find output (py "System image file is")
             + Z.of_nat (length (py "System image file is")) in
  re_sub_bin_end
    (remove_char DQUOTE (strip (slice output idx (find_from output [LF] idx)))).

(** Line 119. *)
Definition ver_after_colon (output : pystr) : pystr :=
  slice_from output (find output (py ":") + 1).

(** Lines 121 and 122. *)
Definition ver_filename (output : pystr) : pystr :=
  let path_items := split output "/" in
  nth (length path_items - 1) path_items [].

(** Lines 110, 124 and 125. *)
Definition ver_pe_npe (output : pystr) : pystr :=
  if bool_decide (find (lower output) (py "npe") ≠ -1) then py "NPE"
  else py "PE ".

Definition ver_parse (output : pystr) : pystr :=
  let output := ver_filename (ver_after_colon (ver_image_text output)) in
  output ++ py " | " ++ ver_pe_npe output.

Definition get_device_ver_info : M pystr :=
  try_except (py "Error")
    (output ← call (SendCommand (py "sh ver"));
     mret (ver_parse output))
    (hostname ← load_global (py "hostname");
     print (py "Error! Unable to get version info from '" ++ hostname ++ py "'");;
     mret (py "DEVICE VERSION FAILED")).

(** Lines 140 and 141. *)
Definition cdp_run_of (output : pystr) : pystr :=
  if bool_decide (find output (py "CDP is not enabled") < 0) then py "ON"
  else py "OFF".

(** Lines 155 to 158, from the counter value [cdp_neighbours]. *)
Definition count_lines (cdp_neighbours : Z) (lines : list pystr) : Z :=
  foldl (λ n str1, if negb (startswith str1 (py " ")) then n + 1 else n)
        cdp_neighbours lines.

(** Line 151. *)
Definition cdp_scanned (output : pystr) : pystr :=
  slice output (find output (py "Device ID")) (Z.of_nat (length output)).

(** Lines 151 to 158, from the initial counter [0]. *)
Definition cdp_count (output : pystr) : Z :=
  count_lines (0 - 1) (splitlines (cdp_scanned output)).

(** Line 163. *)
Definition cdp_summary (cdp_run : pystr) (cdp_neighbours : Z) : pystr :=
  py "CDP is " ++ cdp_run
  ++ (if bool_decide (cdp_run = py "ON")
      then py ", " ++ str_of_int cdp_neighbours ++ py " peers" else []).

(** Each [try] either falls through with a value ([inl]) or returns from
    the function in its handler ([inr]). *)
Definition get_device_cdp_info : M pystr :=
  r ← try_except (py "Error")
        (output ← call (SendCommand (py "sh cdp"));
         mret (inl (cdp_run_of output)))
        (hostname ← load_global (py "hostname");
         print (py "Error! Unable to get CDP info from '" ++ hostname ++ py "'");;
         mret (inr (py "DEVICE CDP RUN FAILED")));
  match r with
  | inr sentinel => mret sentinel
  | inl cdp_run =>
      r ← (if bool_decide (cdp_run = py "ON") then
             try_except (py "Error")
               (output ← call (SendCommand (py "sh cdp nei"));
                mret (inl (cdp_count output)))
               (hostname ← load_global (py "hostname");
                print (py "Error! Unable to get CDP neigbours info from '"
                       ++ hostname ++ py "'");;
                mret (inr (py "DEVICE CDP NEIGHBOURS FAILED")))
           else mret (inl 0));
      match r with
      | inr sentinel => mret sentinel
      | inl cdp_neighbours => mret (cdp_summary cdp_run cdp_neighbours)
      end
  end.

Definition set_timezone_gmt0 : M bool :=
  try_except (py "Error")
    (call (SendConfigSet (py "clock timezone GMT 0 0"));;
     mret true)
    (hostname ← load_global (py "hostname");
     print (py "Error! Unable to set timezone GMT+0 on '" ++ hostname ++ py "'");;
     mret false).

Definition getset_device_ntp_info (ntpserver : pystr) : M pystr :=
  try_except (py "Error")
    (output ← call (SendCommand (py "ping " ++ ntpserver));
     ntp_status ←
       (if bool_decide (find output (py "Success rate is 0") ≠ -1) then
          mret (py "NTP server not reachable, ")
        else
          call (SendConfigSet (py "ntp server " ++ ntpserver));;
          mret []);
     output ← call (SendCommand (py "sh ntp status | i Clock is"));
     if bool_decide (find output (py "Clock is unsynchronized") ≠ -1) then
       mret (ntp_status ++ py "Clock is not sync")
     else mret (ntp_status ++ py "Clock is Sync"))
    (hostname ← load_global (py "hostname");
     print (py "Error! Unable to get NTP info from '" ++ hostname ++ py "'");;
     mret (py "DEVICE NTP FAILED")).

(** Line 233. *)
Definition report_line (hostname device_inv device_ver device_cdp device_ntp : pystr)
  : pystr :=
  hostname ++ py " | " ++ device_inv ++ py " | " ++ device_ver ++ py " | "
  ++ device_cdp ++ py " | " ++ device_ntp.

Definition process_target (device : gmap pystr pystr) : M unit :=
  timestamp ← get_current_date_and_time;
  connect_to_device device;;
  call Enable;;
  call (SendCommand (py "terminal len 0"));;
  sleep 1;;
  call (SendCommand (py "terminal width 511"));;
  sleep 1;;
  hostname ← getitem device (py "hostname");
  backup_file_path ← get_backup_file_path hostname timestamp;
  hostname ← getitem device (py "hostname");
  create_backup backup_file_path hostname;;
  device_inv ← get_device_inv_info;
  device_ver ← get_device_ver_info;
  device_cdp ← get_device_cdp_info;
  ntp ← getitem device (py "ntp");
  device_ntp ← getset_device_ntp_info ntp;
  hostname ← getitem device (py "hostname");
  print (report_line hostname device_inv device_ver device_cdp device_ntp);;
  hostname ← getitem device (py "hostname");
  disconnect_from_device hostname.

(** The [for] loop of [main]. *)
Fixpoint process_all (device_list : list (gmap pystr pystr)) : M unit :=
  match device_list with
  | [] => mret ()
  | dev :: rest => process_target dev;; process_all rest
  end.

Definition main (reader : list (gmap pystr pystr)) : M unit :=
  device_list ← get_devices_from_file reader;
  process_all device_list.

End Program.

(** A run starts from an empty trace, with some paths already present. *)
Definition init_world (existing : gset pystr) : World := mkWorld [] existing ∅.

(** ** Vocabulary of the properties *)

(** [sub] occurs somewhere in [s]. *)
Definition contains (s sub : pystr) : Prop := ∃ pre post, s = pre ++ sub ++ post.

(** [sub] occurs in [s] at index [i] and at no lower index. *)
Definition first_at (s sub : pystr) (i : nat) : Prop :=
  ∃ pre post, s = pre ++ sub ++ post ∧ length pre = i ∧
    ∀ pre' post', s = pre' ++ sub ++ post' → (i ≤ length pre')%nat.

(** The calls that the run of a computation from a fresh world makes, in
    order. *)
Definition calls {A} (m : M A) (existing : gset pystr) : list Call :=
  (trace (m (init_world existing)).2).*1.

(** Follows the wording of the version rule: the portion of [t] after its
    last colon. *)
Fixpoint before_first (c : ascii) (s : pystr) : pystr :=
  match s with
  | [] => []
  | x :: t => if Ascii.eqb x c then [] else x :: before_first c t
  end.

Definition after_last_colon (t : pystr) : pystr :=
  rev (before_first ":" (rev t)).

(** ** Concrete devices and outputs *)

#[global] Instance exn_eq_dec : EqDecision exn.
Proof. solve_decision. Defined.

#[global] Instance Call_eq_dec : EqDecision Call.
Proof. solve_decision. Defined.

Definition quoted (s : pystr) : pystr := [DQUOTE] ++ s ++ [DQUOTE].

(** A session that answers every command through [reply], at a fixed time,
    and in which nothing fails; the program runs on a POSIX host. *)
Definition cli (reply : pystr → pystr) : Env := mkEnv posixpath (λ _ c,
  match c with
  | SendCommand cmd => Returns (reply cmd)
  | Now => Returns (py "2024_01_01-00_00_00")
  | _ => Returns []
  end).

(** The answers of [base], with the program on a Windows host. *)
Definition on_windows (base : Env) : Env := mkEnv ntpath base.

(** [base], except that the call [bad] raises [e]. *)
Definition failing (bad : Call) (e : exn) (base : Env) : Env :=
  mkEnv (os_path base) (λ history c,
    if decide (c = bad) then Raises e else base history c).

Definition version_line : pystr :=
  py "System image file is "
  ++ quoted (py "flash:cat3k_caa-universalk9.SPA.16.06.04.bin").

Definition npe_version_output : pystr :=
  py "Cisco IOS Software" ++ [LF]
  ++ py "System image file is "
  ++ quoted (py "flash0:/c2900-universalk9_NPE-mz.SPA.157-3.M.bin") ++ [LF]
  ++ py "Last reload type: Normal Reload".

Definition two_colon_version_output : pystr :=
  py "System image file is "
  ++ quoted (py "usb0:backup:c2900-universalk9-mz.SPA.bin") ++ [LF].

Definition neighbours_output : pystr :=
  py "Capability Codes: R - Router, T - Trans Bridge" ++ [LF]
  ++ py "Device ID        Local Intrfce     Holdtme    Capability  Platform  Port ID" ++ [LF]
  ++ py "sw1              Gig 1/0/1         150        S I         WS-C2960  Gig 0/1" ++ [LF]
  ++ py "core-switch-with-a-long-name.example.org" ++ [LF]
  ++ py "                 Gig 1/0/2         143        R S I       WS-C3850  Gig 1/0/24" ++ [LF]
  ++ py "sw3.example.org" ++ [LF]
  ++ py "                 Gig 1/0/3         171        S I         WS-C2960  Gig 0/2".

Definition lab_reply (cmd : pystr) : pystr :=
  if bool_decide (cmd = py "sh ver") then
    py "Cisco IOS Software" ++ [LF] ++ version_line ++ [LF]
  else if bool_decide (cmd = py "sh inv") then
    py "NAME: Switch 1, DESCR: WS-C3850-24T" ++ [LF]
    ++ py "PID: WS-C3850-24T, VID: V04, SN: FOC00000000"
  else if bool_decide (cmd = py "sh cdp") then
    py "Global CDP information:" ++ [LF]
    ++ py "        Sending CDP packets every 60 seconds"
  else if bool_decide (cmd = py "sh cdp nei") then neighbours_output
  else if bool_decide (cmd = py "sh ntp status | i Clock is") then
    py "Clock is synchronized, stratum 3, reference is 10.0.0.9"
  else if bool_decide (cmd = py "sh run") then
    py "hostname R1" ++ [LF] ++ py "end"
  else py "Success rate is 100 percent (5/5)".

Definition lab : Env := cli lab_reply.

Definition R1 : gmap pystr pystr :=
  list_to_map
    [(py "hostname", py "R1"); (py "ip", py "10.0.0.1");
     (py "username", py "admin"); (py "password", py "secret1");
     (py "secret", py "secret2"); (py "device_type", py "cisco_ios");
     (py "ntp", py "10.0.0.9")].

Definition no_marker_inventory_output : pystr :=
  py "% Invalid input detected at '^' marker.".

Definition sentinel_spelling_inventory_output : pystr :=
  py "%% DEVICE INVENTORY FAILED, see the system log".

(** A line of a table is free of line breaks; it is indented when it starts
    with a space.  [join_lines] puts a line feed between successive lines. *)
Definition one_line (l : pystr) : Prop := Forall (λ c, is_linebreak c = false) l.

#[global] Instance one_line_dec l : Decision (one_line l).
Proof. unfold one_line. apply _. Defined.

Definition indented (l : pystr) : Prop := head l = Some SP.

#[global] Instance indented_dec l : Decision (indented l).
Proof. unfold indented. apply _. Defined.

Definition join_lines (ls : list pystr) : pystr :=
  match ls with
  | [] => []
  | l :: rest => l ++ flat_map (λ x, LF :: x) rest
  end.

Definition cdp_enabled_output : pystr :=
  py "Global CDP information:" ++ [LF]
  ++ py "        Sending CDP packets every 60 seconds".

Definition cdp_disabled_output : pystr := py "% CDP is not enabled".

(** A session whose [sh cdp] and [sh cdp nei] outputs are given. *)
Definition cdp_cli (sh_cdp sh_cdp_nei : pystr) : Env :=
  cli (λ cmd, if bool_decide (cmd = py "sh cdp") then sh_cdp else sh_cdp_nei).

Definition headerless_neighbours_output : pystr :=
  py "Total cdp entries displayed : 0 ".

(** A session whose ping and clock-status outputs are given. *)
Definition ntp_cli (ping status : pystr) : Env :=
  cli (λ cmd, if bool_decide (cmd = py "sh ntp status | i Clock is") then status
              else ping).

Definition ping_failed_output : pystr :=
  py "Sending 5, 100-byte ICMP Echos to 10.0.0.9, timeout is 2 seconds:" ++ [LF]
  ++ py "....." ++ [LF] ++ py "Success rate is 0 percent (0/5)".

Definition ping_ok_output : pystr :=
  py "Sending 5, 100-byte ICMP Echos to 10.0.0.9, timeout is 2 seconds:" ++ [LF]
  ++ py "!!!!!" ++ [LF] ++ py "Success rate is 100 percent (5/5)".

Definition clock_unsynchronized_output : pystr :=
  py "Clock is unsynchronized, stratum 16, no reference clock".

Definition clock_synchronized_output : pystr :=
  py "Clock is synchronized, stratum 3, reference is 10.0.0.9".

(** The number of times a trace records a successful creation of [d]. *)
Definition is_creation (d : pystr) (ev : Event) : bool :=
  match ev with
  | (Makedirs p, Returns _) => bool_decide (p = d)
  | _ => false
  end.

Definition creations (d : pystr) (tr : list Event) : nat :=
  length (List.filter (is_creation d) tr).

(** The hostname cell of a row (the empty text when the column is absent). *)
Definition hostname_of (r : gmap pystr pystr) : pystr :=
  default [] (r !! py "hostname").

(** First-seen order: a row, then the first-seen order of the later rows
    without those that share its hostname. *)
Fixpoint first_seen (rows : list (gmap pystr pystr)) : list (gmap pystr pystr) :=
  match rows with
  | [] => []
  | r :: rest =>
      r :: filter (λ r', hostname_of r' ≠ hostname_of r) (first_seen rest)
  end.

(** The duplicate notice for a hostname, and how often a trace has it. *)
Definition duplicate_notice (h : pystr) : Call :=
  Print (py "Duplicated device '" ++ h ++ py "' - skipped").

Definition notices (h : pystr) (tr : list Event) : nat :=
  length (filter (λ ev : Event, ev.1 = duplicate_notice h) tr).

(** The notices still due for [h] when the rows [reader] remain and the
    records [accepted] are in the list. *)
Definition notices_due (h : pystr) (accepted reader : list (gmap pystr pystr)) : nat :=
  let c := length (filter (λ r, hostname_of r = h) reader) in
  if decide (h ∈ map hostname_of accepted) then c else (c - 1)%nat.

Definition R1_again : gmap pystr pystr := <[py "ip" := py "10.0.0.2"]> R1.

Definition R2 : gmap pystr pystr := <[py "hostname" := py "R2"]> R1.

(** How often a trace records a call of [disconnect]. *)
Definition is_disconnect (ev : Event) : bool :=
  match ev.1 with
  | Disconnect => true
  | _ => false
  end.

Definition disconnects (tr : list Event) : nat :=
  length (List.filter is_disconnect tr).

(** The columns of a device row. *)
Definition device_fields : list pystr :=
  [py "hostname"; py "ip"; py "username"; py "password"; py "secret";
   py "device_type"; py "ntp"].

(** An environment in which no call raises. *)
Definition never_raises (env : Env) : Prop :=
  ∀ history c, ∃ v, env history c = Returns v.

(** [m] extends the trace without a call of [disconnect]. *)
Definition quiet {A} (m : M A) : Prop :=
  ∀ w r w', m w = (r, w') →
    ∃ evs, trace w' = trace w ++ evs ∧ disconnects evs = 0%nat.

(** [m] returns from every world. *)
Definition returns {A} (m : M A) : Prop :=
  ∀ w, ∃ a w', m w = (Ok a, w').

(** [m] extends the trace with at most one call of [disconnect], and when
    it returns, with exactly one, made last. *)
Definition closes {A} (m : M A) : Prop :=
  ∀ w r w', m w = (r, w') →
    ∃ evs, trace w' = trace w ++ evs
           ∧ (disconnects evs ≤ 1)%nat
           ∧ ∀ a, r = Ok a →
               disconnects evs = 1%nat ∧ ∃ o, last evs = Some (Disconnect, o).

Definition sh_ver_failing : Env :=
  failing (SendCommand (py "sh ver"))
          (Raised (py "ReadTimeout") (py "Pattern not detected")) lab.

Definition enable_failing : Env :=
  failing Enable (Raised (py "ValueError") (py "Failed to enter enable mode.")) lab.

(** ** Vocabulary of the further properties *)

(** The image name that the version extractor derives from an output. *)
Definition ver_name (output : pystr) : pystr :=
  ver_filename (ver_after_colon (ver_image_text output)).

(** The two lines that the registry prints about a hostname. *)
Definition added_line (h : pystr) : pystr :=
  py "Add unique device '" ++ h ++ py "' to device list".

Definition skipped_line (h : pystr) : pystr :=
  py "Duplicated device '" ++ h ++ py "' - skipped".

(** A row without the hostname column. *)
Definition nameless_row : gmap pystr pystr := delete (py "hostname") R1.

(** The columns that [connect_to_device] reads, in the order in which the
    keyword arguments are evaluated. *)
Definition connection_keys : list pystr :=
  [py "ip"; py "username"; py "password"; py "device_type"; py "secret"].

(** A session on which the running configuration cannot be written. *)
Definition write_failing : Env := mkEnv (os_path lab) (λ history c,
  match c with
  | WriteFile _ _ => Raises (Raised (py "PermissionError") (py "Permission denied"))
  | _ => lab history c
  end).





(** One element or none. *)
Definition optional {A} (b : bool) (x : A) : list A := if b then [x] else [].

(** A row that has every column. *)
Definition complete (device : gmap pystr pystr) : Prop :=
  ∀ k, k ∈ device_fields → is_Some (device !! k).

(** The states of a session as the calls of a trace drive it: a connection
    opens it, [enable] raises its privilege, commands and configuration
    lines need that privilege, and [disconnect] closes it.  A call that is
    not permitted in the current state has no successor state; a call that
    raises leaves the state as it is. *)
Inductive Session := Closed | Connected | Privileged.

Definition session_target (s : Session) (c : Call) : option Session :=
  match c, s with
  | ConnectHandler _ _ _ _ _, Closed => Some Connected
  | ConnectHandler _ _ _ _ _, _ => None
  | Enable, Connected => Some Privileged
  | Enable, _ => None
  | SendCommand _, Privileged => Some Privileged
  | SendCommand _, _ => None
  | SendConfigSet _, Privileged => Some Privileged
  | SendConfigSet _, _ => None
  | Disconnect, Closed => None
  | Disconnect, _ => Some Closed
  | _, _ => Some s
  end.

Definition session_step (s : Session) (ev : Event) : option Session :=
  match session_target s ev.1, ev.2 with
  | Some s', Returns _ => Some s'
  | Some _, Raises _ => Some s
  | None, _ => None
  end.

Fixpoint session_run (s : Session) (evs : list Event) : option Session :=
  match evs with
  | [] => Some s
  | ev :: rest =>
      match session_step s ev with
      | Some s' => session_run s' rest
      | None => None
      end
  end.

(** The addresses to which a sequence of calls connects, in order. *)
Definition connected_hosts (cs : list Call) : list pystr :=
  omap (λ c, match c with
             | ConnectHandler host _ _ _ _ => Some host
             | _ => None
             end) cs.

(** The address cell of a row. *)
Definition ip_of (r : gmap pystr pystr) : pystr := default [] (r !! py "ip").

(** From a session in state [s], [m] makes only calls that the session
    permits, and when it returns the session is in state [s']. *)
Definition drives (s : Session) {A} (m : M A) (s' : Session) : Prop :=
  ∀ w r w', m w = (r, w') →
    ∃ evs t, trace w' = trace w ++ evs
             ∧ session_run s evs = Some t
             ∧ ∀ a, r = Ok a → t = s'.

Definition R3 : gmap pystr pystr :=
  <[py "ip" := py "10.0.0.3"]> (<[py "hostname" := py "R3"]> R1).

(** A row without the [ntp] column. *)
Definition R1_without_ntp : gmap pystr pystr := delete (py "ntp") R1.

(** * Properties *)

(** ** The string functions on examples *)

Example str_of_int_neg : str_of_int (-1) = py "-1". Proof. reflexivity. Qed.
Example str_of_int_zero : str_of_int 0 = py "0". Proof. reflexivity. Qed.
Example str_of_int_pos : str_of_int 120 = py "120". Proof. reflexivity. Qed.
Example find_ex1 : find (py "abcabc") (py "bc") = 1. Proof. reflexivity. Qed.
Example find_ex2 : find (py "abcabc") (py "x") = -1. Proof. reflexivity. Qed.
Example find_from_ex : find_from (py "abcabc") (py "bc") 2 = 4. Proof. reflexivity. Qed.
Example slice_ex1 : slice (py "abcdef") 3 (-1) = py "de". Proof. reflexivity. Qed.
Example slice_ex2 : slice (py "abcdef") (-1) 6 = py "f". Proof. reflexivity. Qed.
Example slice_ex3 : slice (py "abcdef") 19 (-1) = py "". Proof. reflexivity. Qed.
Example strip_ex : strip (py "  a b  ") = py "a b". Proof. reflexivity. Qed.
Example split_ex : split (py "/a//b") "/" = [py ""; py "a"; py ""; py "b"].
Proof. reflexivity. Qed.
Example splitlines_ex :
  splitlines (py "a" ++ [CR; LF] ++ py "b" ++ [LF; LF] ++ py " c" ++ [LF])
  = [py "a"; py "b"; py ""; py " c"].
Proof. reflexivity. Qed.
Example re_sub_ex : re_sub_bin_end (py "x.bin.bin") = py "x.bin". Proof. reflexivity. Qed.
Example lower_ex : lower (py "NpE-x") = py "npe-x". Proof. reflexivity. Qed.

(** ** Searching and slicing *)

Lemma startswith_true s pre : startswith s pre = true ↔ ∃ post, s = pre ++ post.
Proof.
  revert s. induction pre as [|a pre IH]; intros s; simpl.
  - split; [intros _; by exists s | done].
  - destruct s as [|b s]; simpl.
    + split; [done | intros [post H]; discriminate].
    + destruct (Ascii.eqb a b) eqn:E.
      * apply Ascii.eqb_eq in E as ->. rewrite IH.
        split; intros [post H]; exists post; congruence.
      * apply Ascii.eqb_neq in E.
        split; [done | intros [post H]; congruence].
Qed.

Lemma find_nat_Some s sub i : find_nat s sub = Some i → first_at s sub i.
Proof.
  revert i. induction s as [|c t IH]; intros i; simpl.
  - destruct (startswith [] sub) eqn:E; [|done].
    intros [= <-]. apply startswith_true in E as [post E].
    exists [], post. split_and!; [done | done | intros; lia].
  - destruct (startswith (c :: t) sub) eqn:E.
    + intros [= <-]. apply startswith_true in E as [post E].
      exists [], post. split_and!; [done | done | intros; lia].
    + destruct (find_nat t sub) as [j|] eqn:F; [|done].
      intros [= <-]. destruct (IH j eq_refl) as (pre & post & -> & Hlen & Hmin).
      exists (c :: pre), post. split_and!; [done | simpl; lia |].
      intros [|c' pre'] post' H.
      * assert (startswith (c :: pre ++ sub ++ post) sub = true) as E'
          by (apply startswith_true; exists post'; done).
        congruence.
      * simpl in H. injection H as -> H. apply Hmin in H. simpl. lia.
Qed.

Lemma find_nat_None s sub : find_nat s sub = None → ¬ contains s sub.
Proof.
  induction s as [|c t IH]; simpl.
  - destruct (startswith [] sub) eqn:E; [done|]. intros _ (pre & post & H).
    destruct pre; [|done]. simpl in H.
    assert (startswith [] sub = true) by (apply startswith_true; eauto). congruence.
  - destruct (startswith (c :: t) sub) eqn:E; [done|].
    destruct (find_nat t sub) eqn:F; [done|]. intros _ (pre & post & H).
    destruct pre as [|c' pre].
    + assert (startswith (c :: t) sub = true) by (apply startswith_true; eauto).
      congruence.
    + injection H as -> H. apply IH; [done|]. by exists pre, post.
Qed.

Lemma first_at_contains s sub i : first_at s sub i → contains s sub.
Proof. intros (pre & post & H & _). by exists pre, post. Qed.

Lemma first_at_unique s sub i j : first_at s sub i → first_at s sub j → i = j.
Proof.
  intros (p1 & q1 & H1 & L1 & M1) (p2 & q2 & H2 & L2 & M2).
  apply M1 in H2. apply M2 in H1. lia.
Qed.

Lemma find_nat_first_at s sub i : find_nat s sub = Some i ↔ first_at s sub i.
Proof.
  split; [apply find_nat_Some|]. intros H.
  destruct (find_nat s sub) as [j|] eqn:F.
  - f_equal. eapply first_at_unique; [by apply find_nat_Some | done].
  - apply find_nat_None in F. destruct F. by eapply first_at_contains.
Qed.

Lemma find_nat_contains s sub : is_Some (find_nat s sub) ↔ contains s sub.
Proof.
  split.
  - intros [i H]. apply find_nat_Some in H. by eapply first_at_contains.
  - intros H. destruct (find_nat s sub) eqn:F; [done|].
    by apply find_nat_None in F.
Qed.

Lemma find_first_at s sub i : first_at s sub i → find s sub = Z.of_nat i.
Proof. intros H. unfold find. apply find_nat_first_at in H. by rewrite H. Qed.

Lemma find_absent s sub : ¬ contains s sub → find s sub = -1.
Proof.
  intros H. unfold find. destruct (find_nat s sub) eqn:F; [|done].
  destruct H. apply find_nat_contains. eauto.
Qed.

Lemma find_contains s sub : find s sub ≠ -1 ↔ contains s sub.
Proof.
  unfold find. destruct (find_nat s sub) as [i|] eqn:F.
  - split; [|lia]. intros _. apply find_nat_contains. eauto.
  - split; [done|]. intros H. by apply find_nat_None in F.
Qed.

Lemma find_negative s sub : find s sub < 0 ↔ ¬ contains s sub.
Proof.
  rewrite <- find_contains. unfold find.
  destruct (find_nat s sub); lia.
Qed.

(** A single character that does not occur in [pre] is first found right
    after [pre]. *)
Lemma first_at_char (pre post : pystr) (c : ascii) :
  c ∉ pre → first_at (pre ++ [c] ++ post) [c] (length pre).
Proof.
  intros Hc. exists pre, post. split_and!; [done..|].
  intros pre' post' H.
  destruct (decide (length pre' < length pre)%nat) as [Hlt|]; [|lia].
  destruct Hc.
  assert ((pre ++ [c] ++ post) !! length pre' = Some c) as Hl.
  { rewrite H. by apply (list_lookup_middle pre' post' c). }
  rewrite lookup_app_l in Hl by done.
  by eapply list_elem_of_lookup_2.
Qed.

Lemma not_contains_char (s : pystr) (c : ascii) : c ∉ s ↔ ¬ contains s [c].
Proof.
  split.
  - intros H (pre & post & ->). apply H. set_solver.
  - intros H Hin. apply H. apply list_elem_of_split in Hin as (l1 & l2 & ->).
    by exists l1, l2.
Qed.

Lemma slice_from_nat (s : pystr) (i : nat) : slice_from s (Z.of_nat i) = drop i s.
Proof.
  unfold slice_from, slice_bound.
  destruct (Z.ltb_spec (Z.of_nat i) 0); [lia|].
  destruct (decide (i ≤ length s)%nat).
  - f_equal. lia.
  - rewrite !drop_ge; [done | lia | lia].
Qed.

Lemma slice_to_end (s : pystr) (i : nat) :
  slice s (Z.of_nat i) (Z.of_nat (length s)) = drop i s.
Proof.
  unfold slice, slice_bound.
  destruct (Z.ltb_spec (Z.of_nat i) 0); [lia|].
  destruct (Z.ltb_spec (Z.of_nat (length s)) 0); [lia|].
  destruct (decide (i ≤ length s)%nat).
  - replace (Z.to_nat (Z.of_nat i `min` Z.of_nat (length s))) with i by lia.
    apply take_ge. rewrite length_drop. lia.
  - rewrite (drop_ge s i) by lia.
    rewrite drop_ge by lia. by rewrite take_nil.
Qed.

Lemma slice_last (s : pystr) :
  slice s (-1) (Z.of_nat (length s)) = drop (length s - 1) s.
Proof.
  unfold slice, slice_bound. simpl.
  destruct (Z.ltb_spec (Z.of_nat (length s)) 0); [lia|].
  replace (Z.to_nat (0 `max` (-1 + Z.of_nat (length s)))) with (length s - 1)%nat by lia.
  apply take_ge. rewrite length_drop. lia.
Qed.

Lemma slice_prefix (s : pystr) (j : nat) : slice s 0 (Z.of_nat j) = take j s.
Proof.
  unfold slice, slice_bound. simpl.
  destruct (Z.ltb_spec (Z.of_nat j) 0); [lia|].
  replace (Z.to_nat (0 `min` Z.of_nat (length s))) with 0%nat by lia.
  rewrite drop_0.
  destruct (decide (j ≤ length s)%nat).
  - f_equal. lia.
  - rewrite !take_ge; [done | lia | lia].
Qed.

Lemma slice_drop_last (s : pystr) : slice s 0 (-1) = take (length s - 1) s.
Proof.
  unfold slice, slice_bound. simpl.
  replace (Z.to_nat (0 `min` Z.of_nat (length s))) with 0%nat by lia.
  rewrite drop_0. f_equal. lia.
Qed.

(** ** The error monad and the handlers *)

Lemma Error_unbound : lookup_global (py "Error") = Unbound.
Proof. reflexivity. Qed.

Lemma hostname_unbound : lookup_global (py "hostname") = Unbound.
Proof. reflexivity. Qed.

Lemma try_except_ok {A} cls (body handler : M A) w a w' :
  body w = (Ok a, w') → try_except cls body handler w = (Ok a, w').
Proof. intros H. unfold try_except. by rewrite H. Qed.

(** An exception raised under [except Error] reaches no handler: looking
    [Error] up raises [NameError]. *)
Lemma try_except_Error_raises {A} (body handler : M A) w e w' :
  body w = (Exc e, w') →
  try_except (py "Error") body handler w = (Exc (NameError (py "Error")), w').
Proof. intros H. unfold try_except. by rewrite H, Error_unbound. Qed.

Lemma bind_ok {A B} (m : M A) (k : A → M B) w a w' :
  m w = (Ok a, w') → (m ≫= k) w = k a w'.
Proof. intros H. unfold mbind, M_bind, bind. by rewrite H. Qed.

Lemma bind_exc {A B} (m : M A) (k : A → M B) w e w' :
  m w = (Exc e, w') → (m ≫= k) w = (Exc e, w').
Proof. intros H. unfold mbind, M_bind, bind. by rewrite H. Qed.

Lemma call_returns (env : Env) c w v :
  env (trace w) c = Returns v → call env c w = (Ok v, log (c, Returns v) w).
Proof. intros H. unfold call. by rewrite H. Qed.

Lemma call_raises (env : Env) c w e :
  env (trace w) c = Raises e → call env c w = (Exc e, log (c, Raises e) w).
Proof. intros H. unfold call. by rewrite H. Qed.

(** ** Version extractor *)

Lemma get_device_ver_info_returns (env : Env) w output :
  env (trace w) (SendCommand (py "sh ver")) = Returns output →
  get_device_ver_info env w
  = (Ok (ver_parse output), log (SendCommand (py "sh ver"), Returns output) w).
Proof.
  intros H. unfold get_device_ver_info. apply try_except_ok.
  by rewrite (bind_ok _ _ _ _ _ (call_returns _ _ _ _ H)).
Qed.

Lemma split_nonempty s sep : split s sep ≠ [].
Proof.
  induction s as [|c t IH]; simpl; [done|].
  destruct (Ascii.eqb c sep); [done|]. by destruct (split t sep).
Qed.

Lemma split_no_sep (s : pystr) sep : sep ∉ s → split s sep = [s].
Proof.
  induction s as [|c t IH]; simpl; [done|]. intros H.
  apply not_elem_of_cons in H as [Hc Ht].
  destruct (Ascii.eqb c sep) eqn:E; [apply Ascii.eqb_eq in E; congruence|].
  by rewrite IH.
Qed.

Lemma split_app (a b : pystr) sep :
  split (a ++ sep :: b) sep = split a sep ++ split b sep.
Proof.
  induction a as [|c a IH]; simpl.
  - by rewrite Ascii.eqb_refl.
  - destruct (Ascii.eqb c sep); [by rewrite IH|].
    rewrite IH. pose proof (split_nonempty a sep).
    by destruct (split a sep).
Qed.

(** The file name is the text after the last path separator. *)
Lemma ver_filename_segment (a b : pystr) :
  "/"%char ∉ b → ver_filename (a ++ py "/" ++ b) = b.
Proof.
  intros H. unfold ver_filename. simpl. rewrite split_app, (split_no_sep b) by done.
  rewrite length_app. simpl.
  replace (length (split a "/") + 1 - 1)%nat with (length (split a "/")) by lia.
  apply nth_middle.
Qed.

Lemma ver_filename_plain (b : pystr) : "/"%char ∉ b → ver_filename b = b.
Proof. intros H. unfold ver_filename. by rewrite split_no_sep. Qed.

(** The colon step keeps what follows the first colon. *)
Lemma ver_after_colon_first (pre post : pystr) :
  ":"%char ∉ pre → ver_after_colon (pre ++ py ":" ++ post) = post.
Proof.
  intros H. unfold ver_after_colon.
  rewrite (find_first_at _ _ (length pre)) by by apply first_at_char.
  replace (Z.of_nat (length pre) + 1) with (Z.of_nat (S (length pre))) by lia.
  rewrite slice_from_nat. simpl.
  change (pre ++ ":"%char :: post) with (pre ++ [":"%char] ++ post).
  rewrite app_assoc. apply drop_app_length'. rewrite length_app. simpl. lia.
Qed.

Lemma ver_after_colon_none (t : pystr) : ":"%char ∉ t → ver_after_colon t = t.
Proof.
  intros H. unfold ver_after_colon.
  rewrite find_absent by by apply not_contains_char.
  change (-1 + 1) with (Z.of_nat 0). by rewrite slice_from_nat.
Qed.

Lemma ver_pe_npe_NPE name :
  contains (lower name) (py "npe") → ver_pe_npe name = py "NPE".
Proof.
  intros H. unfold ver_pe_npe. rewrite bool_decide_eq_true_2; [done|].
  by apply find_contains.
Qed.

Lemma ver_pe_npe_PE name :
  ¬ contains (lower name) (py "npe") → ver_pe_npe name = py "PE ".
Proof.
  intros H. unfold ver_pe_npe. rewrite bool_decide_eq_false_2; [done|].
  by rewrite find_contains.
Qed.

(** C7. The version extractor maps the line
    [System image file is "flash:cat3k_caa-universalk9.SPA.16.06.04.bin"]
    to [cat3k_caa-universalk9.SPA.16.06.04 | PE ]; whenever the derived file
    name contains [npe] in any letter case the result is the name followed
    by [ | NPE], and otherwise by [ | PE ]. *)
Theorem C7_version_parsing (env : Env) (w : World) (output : pystr) :
  env (trace w) (SendCommand (py "sh ver")) = Returns output →
  let name := ver_filename (ver_after_colon (ver_image_text output)) in
  (output = version_line →
   (get_device_ver_info env w).1
   = Ok (py "cat3k_caa-universalk9.SPA.16.06.04 | PE "))
  ∧ (contains (lower name) (py "npe") →
     (get_device_ver_info env w).1 = Ok (name ++ py " | " ++ py "NPE"))
  ∧ (¬ contains (lower name) (py "npe") →
     (get_device_ver_info env w).1 = Ok (name ++ py " | " ++ py "PE ")).
Proof.
  intros H name. rewrite (get_device_ver_info_returns _ _ _ H). simpl.
  split_and!.
  - intros ->. reflexivity.
  - intros Hn. unfold ver_parse. fold name. by rewrite ver_pe_npe_NPE.
  - intros Hn. unfold ver_parse. fold name. by rewrite ver_pe_npe_PE.
Qed.

Lemma C7_version_parsing_witness :
  (get_device_ver_info (cli (λ _, version_line)) (init_world ∅)).1
  = Ok (py "cat3k_caa-universalk9.SPA.16.06.04 | PE ")
  ∧ (get_device_ver_info (cli (λ _, npe_version_output)) (init_world ∅)).1
    = Ok (py "c2900-universalk9_NPE-mz.SPA.157-3.M | NPE").
Proof.
  split.
  - destruct (C7_version_parsing (cli (λ _, version_line)) (init_world ∅)
                version_line eq_refl) as (Hline & _ & _).
    by apply Hline.
  - destruct (C7_version_parsing (cli (λ _, npe_version_output)) (init_world ∅)
                npe_version_output eq_refl) as (_ & Hnpe & _).
    apply Hnpe. apply find_contains. vm_compute. discriminate.
Defined.

(** C3, as amended.  When the text derived from the image line contains a
    colon, the colon step keeps the portion after the first colon; the
    result is the last path segment of that portion, followed by the
    classification. *)
Theorem C3_after_first_colon (env : Env) (w : World) (output pre post : pystr) :
  env (trace w) (SendCommand (py "sh ver")) = Returns output →
  ver_image_text output = pre ++ py ":" ++ post →
  ":"%char ∉ pre →
  ver_after_colon (ver_image_text output) = post
  ∧ (get_device_ver_info env w).1
    = Ok (ver_filename post ++ py " | " ++ ver_pe_npe (ver_filename post)).
Proof.
  intros H Ht Hpre.
  assert (ver_after_colon (ver_image_text output) = post) as Hpost
    by (rewrite Ht; by apply ver_after_colon_first).
  split; [done|].
  rewrite (get_device_ver_info_returns _ _ _ H). simpl.
  unfold ver_parse. by rewrite Hpost.
Qed.

Lemma C3_after_first_colon_witness :
  ver_after_colon (ver_image_text two_colon_version_output)
  = py "backup:c2900-universalk9-mz.SPA"
  ∧ (get_device_ver_info (cli (λ _, two_colon_version_output)) (init_world ∅)).1
    = Ok (py "backup:c2900-universalk9-mz.SPA | PE ").
Proof.
  apply (C3_after_first_colon (cli (λ _, two_colon_version_output)) (init_world ∅)
           two_colon_version_output (py "usb0") (py "backup:c2900-universalk9-mz.SPA")).
  - reflexivity.
  - reflexivity.
  - vm_compute. intros H. by repeat (apply elem_of_cons in H as [H|H]; [discriminate H|]);
      apply elem_of_nil in H.
Defined.

(** C3, as stated, fails on an image name with two colons: the text derived
    from the image line contains a colon, and what the colon step keeps is
    not the portion after the last colon. *)
Lemma C3_counterexample :
  contains (ver_image_text two_colon_version_output) (py ":")
  ∧ after_last_colon (ver_image_text two_colon_version_output)
    = py "c2900-universalk9-mz.SPA"
  ∧ ver_after_colon (ver_image_text two_colon_version_output)
    ≠ after_last_colon (ver_image_text two_colon_version_output)
  ∧ (get_device_ver_info (cli (λ _, two_colon_version_output)) (init_world ∅)).1
    = Ok (py "backup:c2900-universalk9-mz.SPA | PE ").
Proof.
  split_and!.
  - apply find_contains. vm_compute. discriminate.
  - reflexivity.
  - vm_compute. discriminate.
  - reflexivity.
Qed.

(** ** Inventory extractor *)

Lemma get_device_inv_info_returns (env : Env) w output :
  env (trace w) (SendCommand (py "sh inv")) = Returns output →
  get_device_inv_info env w
  = (Ok (inv_parse output), log (SendCommand (py "sh inv"), Returns output) w).
Proof.
  intros H. unfold get_device_inv_info. apply try_except_ok.
  by rewrite (bind_ok _ _ _ _ _ (call_returns _ _ _ _ H)).
Qed.

Lemma contains_trans (a b c : pystr) : contains a b → contains b c → contains a c.
Proof.
  intros (p1 & q1 & ->) (p2 & q2 & ->). exists (p1 ++ p2), (q2 ++ q1).
  by rewrite <- !app_assoc.
Qed.

Lemma contains_drop (s : pystr) n : contains s (drop n s).
Proof. exists (take n s), []. by rewrite app_nil_r, take_drop. Qed.

Lemma contains_take (s : pystr) n : contains s (take n s).
Proof. exists [], (drop n s). by rewrite take_drop. Qed.

Lemma lstrip_suffix s : ∃ pre, s = pre ++ lstrip s.
Proof.
  induction s as [|c t [pre IH]]; simpl; [by exists []|].
  destruct (isspace c); [|by exists []].
  exists (c :: pre). simpl. by f_equal.
Qed.

Lemma contains_strip s : contains s (strip s).
Proof.
  unfold strip, rstrip.
  destruct (lstrip_suffix s) as [p Hp].
  destruct (lstrip_suffix (rev (lstrip s))) as [q Hq].
  exists p, (rev q). rewrite Hp at 1. f_equal.
  rewrite <- rev_app_distr, <- Hq. by rewrite rev_involutive.
Qed.

(** The first example of the inventory rule. *)
Example inv_parse_chassis :
  inv_parse (py "NAME: Switch 1, DESCR: x" ++ [LF] ++ py "PID: WS-C3850-24T, VID: V04")
  = py "WS-C3850-24T".
Proof. reflexivity. Qed.

(** Without the marker the search gives [-1], so the text starts at index 3. *)
Lemma inv_parse_no_marker output :
  ¬ contains output (py "PID:") →
  inv_parse output
  = strip (slice (drop 3 output) 0 (find (drop 3 output) (py ","))).
Proof.
  intros H. unfold inv_parse. rewrite (find_absent _ _ H).
  change (-1 + 4) with (Z.of_nat 3). by rewrite slice_from_nat.
Qed.

(** C9, as amended.  When the [sh inv] output lacks the marker [PID:], the
    inventory extractor raises nothing and runs no handler: it returns the
    stripped text from index 3 up to the first comma from there on, and,
    when no comma follows, up to but excluding the last character.  The
    value is a fragment of the raw output. *)
Theorem C9_inventory_without_marker (env : Env) (w : World) (output : pystr) :
  env (trace w) (SendCommand (py "sh inv")) = Returns output →
  ¬ contains output (py "PID:") →
  ∃ value,
    get_device_inv_info env w
    = (Ok value, log (SendCommand (py "sh inv"), Returns output) w)
    ∧ (∀ a b, drop 3 output = a ++ py "," ++ b → ","%char ∉ a → value = strip a)
    ∧ (","%char ∉ drop 3 output →
       value = strip (take (length (drop 3 output) - 1) (drop 3 output)))
    ∧ contains output value.
Proof.
  intros H Hm. exists (inv_parse output).
  rewrite (get_device_inv_info_returns _ _ _ H).
  rewrite (inv_parse_no_marker _ Hm). split_and!.
  - done.
  - intros a b Hab Ha. rewrite Hab.
    rewrite (find_first_at _ _ (length a)) by by apply first_at_char.
    rewrite slice_prefix. by rewrite take_app_length.
  - intros Hc. rewrite find_absent by by apply not_contains_char.
    by rewrite slice_drop_last.
  - eapply contains_trans; [apply (contains_drop _ 3)|].
    eapply contains_trans; [|apply contains_strip].
    unfold find. destruct (find_nat (drop 3 output) (py ",")) as [j|].
    + rewrite slice_prefix. apply contains_take.
    + rewrite slice_drop_last. apply contains_take.
Qed.

Lemma C9_inventory_without_marker_witness :
  ∃ value,
    get_device_inv_info (cli (λ _, no_marker_inventory_output)) (init_world ∅)
    = (Ok value,
       log (SendCommand (py "sh inv"), Returns no_marker_inventory_output)
           (init_world ∅))
    ∧ (∀ a b, drop 3 no_marker_inventory_output = a ++ py "," ++ b →
              ","%char ∉ a → value = strip a)
    ∧ (","%char ∉ drop 3 no_marker_inventory_output →
       value = strip (take (length (drop 3 no_marker_inventory_output) - 1)
                           (drop 3 no_marker_inventory_output)))
    ∧ contains no_marker_inventory_output value.
Proof.
  apply (C9_inventory_without_marker (cli (λ _, no_marker_inventory_output))
           (init_world ∅) no_marker_inventory_output).
  - reflexivity.
  - apply find_negative. vm_compute. reflexivity.
Defined.

(** C9, as stated, fails.  An output without [PID:] and without a comma
    loses its last character, so the value is not the text from index 3
    onward; and an output that spells the sentinel before its first comma
    makes the extractor return the sentinel text. *)
Lemma C9_counterexample :
  (¬ contains no_marker_inventory_output (py "PID:")
   ∧ (get_device_inv_info (cli (λ _, no_marker_inventory_output)) (init_world ∅)).1
     = Ok (py "nvalid input detected at '^' marker")
   ∧ strip (before_first "," (drop 3 no_marker_inventory_output))
     = py "nvalid input detected at '^' marker.")
  ∧ (¬ contains sentinel_spelling_inventory_output (py "PID:")
     ∧ (get_device_inv_info (cli (λ _, sentinel_spelling_inventory_output))
          (init_world ∅)).1
       = Ok (py "DEVICE INVENTORY FAILED")).
Proof.
  split; split_and!; try reflexivity; apply find_negative; vm_compute; reflexivity.
Qed.

(** ** CDP extractor *)

Lemma get_device_cdp_info_off (env : Env) w sh_cdp :
  env (trace w) (SendCommand (py "sh cdp")) = Returns sh_cdp →
  contains sh_cdp (py "CDP is not enabled") →
  get_device_cdp_info env w
  = (Ok (py "CDP is OFF"), log (SendCommand (py "sh cdp"), Returns sh_cdp) w).
Proof.
  intros H Hc. unfold get_device_cdp_info.
  erewrite bind_ok; last first.
  { apply try_except_ok. by rewrite (bind_ok _ _ _ _ _ (call_returns _ _ _ _ H)). }
  unfold cdp_run_of. rewrite bool_decide_eq_false_2; [done|].
  by rewrite find_negative; intros [].
Qed.

Lemma get_device_cdp_info_on (env : Env) w sh_cdp sh_cdp_nei :
  env (trace w) (SendCommand (py "sh cdp")) = Returns sh_cdp →
  ¬ contains sh_cdp (py "CDP is not enabled") →
  env (trace w ++ [(SendCommand (py "sh cdp"), Returns sh_cdp)])
      (SendCommand (py "sh cdp nei")) = Returns sh_cdp_nei →
  get_device_cdp_info env w
  = (Ok (py "CDP is ON, " ++ str_of_int (cdp_count sh_cdp_nei) ++ py " peers"),
     log (SendCommand (py "sh cdp nei"), Returns sh_cdp_nei)
       (log (SendCommand (py "sh cdp"), Returns sh_cdp) w)).
Proof.
  intros H Hc H2. unfold get_device_cdp_info.
  erewrite bind_ok; last first.
  { apply try_except_ok. by rewrite (bind_ok _ _ _ _ _ (call_returns _ _ _ _ H)). }
  unfold cdp_run_of. rewrite bool_decide_eq_true_2 by by apply find_negative.
  rewrite bool_decide_eq_true_2 by done.
  erewrite bind_ok; last first.
  { apply try_except_ok. erewrite bind_ok; [done|]. by apply call_returns. }
  done.
Qed.

Lemma startswith_space (l : pystr) : startswith l (py " ") = true ↔ indented l.
Proof.
  unfold indented. destruct l as [|c l]; [by split|].
  change (startswith (c :: l) (py " ")) with (if Ascii.eqb " " c then true else false).
  change (head (c :: l)) with (Some c).
  destruct (Ascii.eqb " " c) eqn:E.
  - apply Ascii.eqb_eq in E as <-. by split.
  - apply Ascii.eqb_neq in E. split; [done|]. intros [= ->]. done.
Qed.

(** The loop adds one for every line that is not indented. *)
Lemma count_lines_filter n (lines : list pystr) :
  count_lines n lines
  = n + Z.of_nat (length (filter (λ l, ¬ indented l) lines)).
Proof.
  unfold count_lines. revert n. induction lines as [|l ls IH]; intros n.
  - rewrite filter_nil. cbn [foldl length]. lia.
  - cbn [foldl]. rewrite IH. destruct (startswith l (py " ")) eqn:E; cbn [negb].
    + apply startswith_space in E. rewrite filter_cons_False by naive_solver. lia.
    + rewrite filter_cons_True.
      2:{ rewrite <- startswith_space. congruence. }
      cbn [length]. lia.
Qed.

Lemma splitlines_cons_plain c t :
  is_linebreak c = false →
  splitlines (c :: t)
  = match splitlines t with l :: ls => (c :: l) :: ls | [] => [[c]] end.
Proof. intros H. simpl. by rewrite H. Qed.

Lemma splitlines_one_line (l : pystr) : one_line l → l ≠ [] → splitlines l = [l].
Proof.
  induction 1 as [|c t Hc Ht IH]; [done|]. intros _.
  rewrite splitlines_cons_plain by done.
  destruct t as [|c' t']; [done|]. by rewrite IH.
Qed.

Lemma splitlines_LF t : splitlines (LF :: t) = [] :: splitlines t.
Proof. simpl. by destruct t. Qed.

Lemma splitlines_line_LF (l rest : pystr) :
  one_line l → splitlines (l ++ LF :: rest) = l :: splitlines rest.
Proof.
  induction 1 as [|c t Hc Ht IH].
  - apply splitlines_LF.
  - change ((c :: t) ++ LF :: rest) with (c :: (t ++ LF :: rest)).
    rewrite splitlines_cons_plain by done. by rewrite IH.
Qed.

(** Splitting a table of non-empty lines gives the lines back. *)
Lemma splitlines_join_lines (ls : list pystr) :
  Forall one_line ls → Forall (λ l, l ≠ []) ls → splitlines (join_lines ls) = ls.
Proof.
  induction ls as [|l ls IH]; [done|]. intros Hone Hne.
  apply Forall_cons in Hone as [Hl Hone]. apply Forall_cons in Hne as [Hn Hne].
  destruct ls as [|l' ls'].
  - simpl. rewrite app_nil_r. by apply splitlines_one_line.
  - change (join_lines (l :: l' :: ls')) with (l ++ LF :: join_lines (l' :: ls')).
    rewrite splitlines_line_LF by done. by rewrite IH.
Qed.

(** With the header found at index [i], the scanned text starts there. *)
Lemma cdp_scanned_header (output : pystr) i :
  first_at output (py "Device ID") i → cdp_scanned output = drop i output.
Proof.
  intros H. unfold cdp_scanned. rewrite (find_first_at _ _ _ H).
  apply slice_to_end.
Qed.

(** Without the header the search gives [-1]: only the final character is
    scanned. *)
Lemma cdp_scanned_no_header (output : pystr) :
  ¬ contains output (py "Device ID") →
  cdp_scanned output = drop (length output - 1) output.
Proof.
  intros H. unfold cdp_scanned. rewrite (find_absent _ _ H). apply slice_last.
Qed.

Lemma cdp_count_header (output : pystr) i :
  first_at output (py "Device ID") i →
  cdp_count output
  = -1 + Z.of_nat (length (filter (λ l, ¬ indented l) (splitlines (drop i output)))).
Proof.
  intros H. unfold cdp_count. rewrite (cdp_scanned_header _ _ H).
  by rewrite count_lines_filter.
Qed.

(** A table whose header starts the scanned text: the count is the number
    of lines after the header that are not indented. *)
Lemma cdp_count_table (pre columns : pystr) (lines : list pystr) :
  let output := pre ++ join_lines ((py "Device ID" ++ columns) :: lines) in
  first_at output (py "Device ID") (length pre) →
  one_line columns → Forall one_line lines → Forall (λ l, l ≠ []) lines →
  cdp_count output = Z.of_nat (length (filter (λ l, ¬ indented l) lines)).
Proof.
  intros output Hfirst Hcol Hone Hne.
  rewrite (cdp_count_header _ _ Hfirst). unfold output.
  rewrite drop_app_length, splitlines_join_lines.
  - rewrite filter_cons_True by (unfold indented, SP; simpl; discriminate).
    cbn [length]. lia.
  - apply Forall_cons. split; [|done].
    apply Forall_app. split; [|done]. by repeat constructor.
  - apply Forall_cons. split; done.
Qed.

(** C5.  When the [sh cdp] output contains [CDP is not enabled] the result
    is [CDP is OFF] and [sh cdp] is the only command issued.  Otherwise the
    count starts at -1 and every line that is not indented, from the
    [Device ID] header onward, adds one; so a header line followed by
    non-empty lines, three of them not indented and two indented, gives
    [CDP is ON, 3 peers]. *)
Theorem C5_cdp_status (env : Env) (w : World) (sh_cdp : pystr) :
  env (trace w) (SendCommand (py "sh cdp")) = Returns sh_cdp →
  (contains sh_cdp (py "CDP is not enabled") →
   get_device_cdp_info env w
   = (Ok (py "CDP is OFF"), log (SendCommand (py "sh cdp"), Returns sh_cdp) w))
  ∧ (¬ contains sh_cdp (py "CDP is not enabled") →
     ∀ sh_cdp_nei,
       env (trace w ++ [(SendCommand (py "sh cdp"), Returns sh_cdp)])
           (SendCommand (py "sh cdp nei")) = Returns sh_cdp_nei →
       (get_device_cdp_info env w).1
       = Ok (py "CDP is ON, " ++ str_of_int (cdp_count sh_cdp_nei) ++ py " peers")
       ∧ (∀ i, first_at sh_cdp_nei (py "Device ID") i →
            cdp_count sh_cdp_nei
            = -1 + Z.of_nat (length (filter (λ l, ¬ indented l)
                                       (splitlines (drop i sh_cdp_nei)))))
       ∧ (∀ pre columns lines,
            sh_cdp_nei = pre ++ join_lines ((py "Device ID" ++ columns) :: lines) →
            first_at sh_cdp_nei (py "Device ID") (length pre) →
            one_line columns → Forall one_line lines → Forall (λ l, l ≠ []) lines →
            length (filter (λ l, ¬ indented l) lines) = 3%nat →
            length (filter indented lines) = 2%nat →
            (get_device_cdp_info env w).1 = Ok (py "CDP is ON, 3 peers"))).
Proof.
  intros H. split.
  - intros Hc. by apply get_device_cdp_info_off.
  - intros Hc sh_cdp_nei H2.
    rewrite (get_device_cdp_info_on _ _ _ _ H Hc H2). cbn [fst]. split_and!.
    + done.
    + intros i Hi. by apply cdp_count_header.
    + intros pre columns lines -> Hfirst Hcol Hone Hne H3 _.
      rewrite (cdp_count_table pre columns lines Hfirst Hcol Hone Hne), H3.
      reflexivity.
Qed.

Lemma C5_cdp_status_witness :
  get_device_cdp_info (cdp_cli cdp_disabled_output []) (init_world ∅)
  = (Ok (py "CDP is OFF"),
     log (SendCommand (py "sh cdp"), Returns cdp_disabled_output) (init_world ∅))
  ∧ (get_device_cdp_info (cdp_cli cdp_enabled_output neighbours_output)
       (init_world ∅)).1
    = Ok (py "CDP is ON, 3 peers").
Proof.
  split.
  - destruct (C5_cdp_status (cdp_cli cdp_disabled_output []) (init_world ∅)
                cdp_disabled_output eq_refl) as [Hoff _].
    apply Hoff. apply find_contains. vm_compute. discriminate.
  - destruct (C5_cdp_status (cdp_cli cdp_enabled_output neighbours_output)
                (init_world ∅) cdp_enabled_output eq_refl) as [_ Hon].
    assert (¬ contains cdp_enabled_output (py "CDP is not enabled")) as Hc
      by (apply find_negative; vm_compute; reflexivity).
    destruct (Hon Hc neighbours_output eq_refl) as (_ & _ & Htable).
    apply (Htable
             (py "Capability Codes: R - Router, T - Trans Bridge" ++ [LF])
             (py "        Local Intrfce     Holdtme    Capability  Platform  Port ID")
             [py "sw1              Gig 1/0/1         150        S I         WS-C2960  Gig 0/1";
              py "core-switch-with-a-long-name.example.org";
              py "                 Gig 1/0/2         143        R S I       WS-C3850  Gig 1/0/24";
              py "sw3.example.org";
              py "                 Gig 1/0/3         171        S I         WS-C2960  Gig 0/2"]).
    + reflexivity.
    + apply find_nat_first_at. vm_compute. reflexivity.
    + apply (bool_decide_unpack _). vm_compute. exact I.
    + apply (bool_decide_unpack _). vm_compute. exact I.
    + repeat (apply Forall_cons; split; [discriminate|]). apply Forall_nil_2.
    + vm_compute. reflexivity.
    + vm_compute. reflexivity.
Defined.

(** C10.  When CDP is enabled and the [sh cdp nei] output lacks
    [Device ID], only the final character of the output is scanned; if that
    character is a space the result is [CDP is ON, -1 peers]. *)
Theorem C10_negative_peer_count (env : Env) (w : World) (sh_cdp sh_cdp_nei : pystr) :
  env (trace w) (SendCommand (py "sh cdp")) = Returns sh_cdp →
  ¬ contains sh_cdp (py "CDP is not enabled") →
  env (trace w ++ [(SendCommand (py "sh cdp"), Returns sh_cdp)])
      (SendCommand (py "sh cdp nei")) = Returns sh_cdp_nei →
  ¬ contains sh_cdp_nei (py "Device ID") →
  (∀ pre c, sh_cdp_nei = pre ++ [c] → cdp_scanned sh_cdp_nei = [c])
  ∧ (∀ pre, sh_cdp_nei = pre ++ [SP] →
       (get_device_cdp_info env w).1 = Ok (py "CDP is ON, -1 peers")).
Proof.
  intros H Hc H2 Hh.
  assert (∀ pre c, sh_cdp_nei = pre ++ [c] → cdp_scanned sh_cdp_nei = [c]) as Hlast.
  { intros pre c ->. rewrite (cdp_scanned_no_header _ Hh).
    rewrite length_app. cbn [length].
    replace (length pre + 1 - 1)%nat with (length pre) by lia.
    apply drop_app_length. }
  split; [done|]. intros pre Hsp.
  rewrite (get_device_cdp_info_on _ _ _ _ H Hc H2). cbn [fst].
  unfold cdp_count. by rewrite (Hlast pre SP Hsp).
Qed.

Lemma C10_negative_peer_count_witness :
  cdp_scanned headerless_neighbours_output = [SP]
  ∧ (get_device_cdp_info (cdp_cli cdp_enabled_output headerless_neighbours_output)
       (init_world ∅)).1
    = Ok (py "CDP is ON, -1 peers").
Proof.
  destruct (C10_negative_peer_count
              (cdp_cli cdp_enabled_output headerless_neighbours_output)
              (init_world ∅) cdp_enabled_output headerless_neighbours_output)
    as [Hscan Hres].
  - reflexivity.
  - apply find_negative. vm_compute. reflexivity.
  - reflexivity.
  - apply find_negative. vm_compute. reflexivity.
  - split.
    + by apply (Hscan (py "Total cdp entries displayed : 0")).
    + by apply (Hres (py "Total cdp entries displayed : 0")).
Defined.

(** ** NTP extractor *)

Lemma ntp_clock_text (status ntp_status : pystr) :
  ∃ clock,
    (if bool_decide (find status (py "Clock is unsynchronized") ≠ -1)
     then (mret (ntp_status ++ py "Clock is not sync") : M pystr)
     else mret (ntp_status ++ py "Clock is Sync"))
    = mret (ntp_status ++ clock)
    ∧ (contains status (py "Clock is unsynchronized") → clock = py "Clock is not sync")
    ∧ (¬ contains status (py "Clock is unsynchronized") → clock = py "Clock is Sync").
Proof.
  case_bool_decide as Hf.
  - exists (py "Clock is not sync"). split_and!; [done..|].
    intros Hn. destruct Hn. by apply find_contains.
  - exists (py "Clock is Sync"). split_and!; [done| |done].
    intros Hc. apply find_contains in Hc. done.
Qed.

(** C6.  When the ping output contains [Success rate is 0] the result
    starts with [NTP server not reachable, ] and no configuration command
    is issued; otherwise the command [ntp server <address>] is issued
    exactly once, before the clock-status query.  The result ends with
    [Clock is not sync] when the status output contains
    [Clock is unsynchronized], and with [Clock is Sync] otherwise. *)
Theorem C6_ntp_status (env : Env) (w : World) (ntpserver ping : pystr) :
  env (trace w) (SendCommand (py "ping " ++ ntpserver)) = Returns ping →
  let ping_ev := (SendCommand (py "ping " ++ ntpserver), Returns ping) in
  let query := SendCommand (py "sh ntp status | i Clock is") in
  let config := SendConfigSet (py "ntp server " ++ ntpserver) in
  (contains ping (py "Success rate is 0") →
   ∀ status,
     env (trace w ++ [ping_ev]) query = Returns status →
     ∃ clock,
       (getset_device_ntp_info env ntpserver w).1
       = Ok (py "NTP server not reachable, " ++ clock)
       ∧ trace (getset_device_ntp_info env ntpserver w).2
         = trace w ++ [ping_ev; (query, Returns status)]
       ∧ (contains status (py "Clock is unsynchronized") →
          clock = py "Clock is not sync")
       ∧ (¬ contains status (py "Clock is unsynchronized") →
          clock = py "Clock is Sync"))
  ∧ (¬ contains ping (py "Success rate is 0") →
     ∀ configured status,
       env (trace w ++ [ping_ev]) config = Returns configured →
       env (trace w ++ [ping_ev; (config, Returns configured)]) query
       = Returns status →
       ∃ clock,
         (getset_device_ntp_info env ntpserver w).1 = Ok clock
         ∧ trace (getset_device_ntp_info env ntpserver w).2
           = trace w ++ [ping_ev; (config, Returns configured); (query, Returns status)]
         ∧ (contains status (py "Clock is unsynchronized") →
            clock = py "Clock is not sync")
         ∧ (¬ contains status (py "Clock is unsynchronized") →
            clock = py "Clock is Sync")).
Proof.
  intros H ping_ev query config. split.
  - intros Hp status Hs.
    destruct (ntp_clock_text status (py "NTP server not reachable, "))
      as (clock & Hclock & Hu & Hsy).
    exists clock.
    assert (getset_device_ntp_info env ntpserver w
            = (Ok (py "NTP server not reachable, " ++ clock),
               log (query, Returns status) (log ping_ev w))) as ->.
    { unfold getset_device_ntp_info. apply try_except_ok.
      rewrite (bind_ok _ _ _ _ _ (call_returns _ _ _ _ H)).
      rewrite bool_decide_eq_true_2 by by apply find_contains.
      erewrite bind_ok; [|reflexivity].
      erewrite bind_ok; [|by apply call_returns].
      by rewrite Hclock. }
    split_and!; [done| |done..].
    cbn [snd log trace]. by rewrite <- app_assoc.
  - intros Hp configured status Hcfg Hs.
    destruct (ntp_clock_text status []) as (clock & Hclock & Hu & Hsy).
    exists clock.
    assert (getset_device_ntp_info env ntpserver w
            = (Ok clock,
               log (query, Returns status)
                 (log (config, Returns configured) (log ping_ev w)))) as ->.
    { unfold getset_device_ntp_info. apply try_except_ok.
      rewrite (bind_ok _ _ _ _ _ (call_returns _ _ _ _ H)).
      rewrite bool_decide_eq_false_2 by by rewrite find_contains.
      erewrite bind_ok; last first.
      { erewrite bind_ok; [reflexivity|]. by apply call_returns. }
      erewrite bind_ok; last first.
      { apply call_returns. cbn [log trace]. rewrite <- app_assoc. exact Hs. }
      by rewrite Hclock. }
    split_and!; [done| |done..].
    cbn [snd log trace]. by rewrite <- !app_assoc.
Qed.

Lemma C6_ntp_status_witness :
  (getset_device_ntp_info (ntp_cli ping_failed_output clock_unsynchronized_output)
     (py "10.0.0.9") (init_world ∅)).1
  = Ok (py "NTP server not reachable, Clock is not sync")
  ∧ (getset_device_ntp_info (ntp_cli ping_ok_output clock_synchronized_output)
       (py "10.0.0.9") (init_world ∅)).1
    = Ok (py "Clock is Sync").
Proof.
  split.
  - destruct (C6_ntp_status (ntp_cli ping_failed_output clock_unsynchronized_output)
                (init_world ∅) (py "10.0.0.9") ping_failed_output eq_refl)
      as [Hdown _].
    assert (contains ping_failed_output (py "Success rate is 0")) as Hp
      by (apply find_contains; vm_compute; discriminate).
    destruct (Hdown Hp clock_unsynchronized_output eq_refl)
      as (clock & -> & _ & Hu & _).
    rewrite Hu; [reflexivity|]. apply find_contains. vm_compute. discriminate.
  - destruct (C6_ntp_status (ntp_cli ping_ok_output clock_synchronized_output)
                (init_world ∅) (py "10.0.0.9") ping_ok_output eq_refl)
      as [_ Hup].
    assert (¬ contains ping_ok_output (py "Success rate is 0")) as Hp
      by (apply find_negative; vm_compute; reflexivity).
    destruct (Hup Hp [] clock_synchronized_output eq_refl eq_refl)
      as (clock & -> & _ & _ & Hs).
    rewrite Hs; [reflexivity|]. apply find_negative. vm_compute. reflexivity.
Defined.

(** ** Backup path *)

Lemma startswith_char (s : pystr) c : startswith s [c] = true ↔ head s = Some c.
Proof.
  destruct s as [|x s]; [by split|].
  change (startswith (x :: s) [c]) with (if Ascii.eqb c x then true else false).
  change (head (x :: s)) with (Some x).
  destruct (Ascii.eqb c x) eqn:E.
  - apply Ascii.eqb_eq in E as ->. by split.
  - apply Ascii.eqb_neq in E. split; [done|]. intros [= ->]. done.
Qed.

Lemma endswith_char (s : pystr) c : endswith s [c] = true ↔ last s = Some c.
Proof.
  unfold endswith. change (rev [c]) with [c]. rewrite startswith_char.
  destruct s as [|x s _] using rev_ind; [by split|].
  rewrite rev_app_distr, last_snoc. done.
Qed.

(** Joining onto a path that is not empty and does not end with the
    separator a component that does not start with it. *)
Lemma posixpath_join_step_plain (path b : pystr) :
  path ≠ [] → last path ≠ Some "/"%char → head b ≠ Some "/"%char →
  posixpath_join_step path b = path ++ py "/" ++ b.
Proof.
  intros Hne Hlast Hhead. unfold posixpath_join_step.
  destruct (startswith b (py "/")) eqn:E1.
  { by apply startswith_char in E1. }
  rewrite bool_decide_eq_false_2 by done.
  destruct (endswith path (py "/")) eqn:E2.
  { by apply endswith_char in E2. }
  done.
Qed.

Lemma slice_nat (s : pystr) (i j : nat) :
  slice s (Z.of_nat i) (Z.of_nat j) = take (j - i) (drop i s).
Proof.
  unfold slice, slice_bound.
  destruct (Z.ltb_spec (Z.of_nat i) 0); [lia|].
  destruct (Z.ltb_spec (Z.of_nat j) 0); [lia|].
  destruct (decide (i ≤ length s)%nat).
  - replace (Z.to_nat (Z.of_nat i `min` Z.of_nat (length s))) with i by lia.
    destruct (decide (j ≤ length s)%nat).
    + f_equal. lia.
    + rewrite !take_ge; [done | rewrite length_drop; lia..].
  - rewrite (drop_ge s i) by lia. rewrite drop_ge by lia. by rewrite !take_nil.
Qed.

Lemma starts_with_sep_false (s : pystr) :
  starts_with_sep s = false
  ↔ head s ≠ Some BACKSLASH ∧ head s ≠ Some "/"%char.
Proof.
  unfold starts_with_sep. destruct s as [|c s]; cbn [head]; [by split|].
  rewrite bool_decide_eq_false. unfold seps.
  rewrite elem_of_cons, list_elem_of_singleton. split.
  - intros Hc. split; intros [= ->]; tauto.
  - intros [H1 H2] [->| ->]; [by apply H1 | by apply H2].
Qed.

Lemma ends_without_sep_true (s : pystr) :
  ends_without_sep s = true
  ↔ s ≠ [] ∧ last s ≠ Some BACKSLASH ∧ last s ≠ Some "/"%char.
Proof.
  unfold ends_without_sep. destruct s as [|c s _] using rev_ind.
  { split; [done | by intros [? _]]. }
  rewrite last_snoc, bool_decide_eq_true. unfold seps.
  rewrite elem_of_cons, list_elem_of_singleton. split.
  - intros Hc. split_and!; [by destruct s | intros [= ->]; tauto..].
  - intros (_ & H1 & H2) [->| ->]; [by apply H1 | by apply H2].
Qed.

(** [ntpath.splitdrive] on a text that does not start with a separator: the
    drive is the first two characters when the second is a colon, and there
    is none otherwise. *)
Lemma ntpath_splitdrive_letter (p : pystr) :
  starts_with_sep p = false →
  ntpath_splitdrive p
  = if bool_decide (p !! 1%nat = Some ":"%char) then (take 2 p, drop 2 p)
    else ([], p).
Proof.
  intros [Hb Hs]%starts_with_sep_false. unfold ntpath_splitdrive.
  destruct p as [|a [|b t]]; [done..|].
  change (2 <=? length (a :: b :: t))%nat with true. cbv iota.
  assert (∀ s : pystr, slice s 0 2 = take 2 s) as S02
    by (intros s; apply (slice_prefix s 2)).
  assert (∀ s : pystr, slice s 1 2 = take (2 - 1) (drop 1 s)) as S12
    by (intros s; apply (slice_nat s 1 2)).
  assert (∀ s : pystr, slice_from s 2 = drop 2 s) as SF
    by (intros s; apply (slice_from_nat s 2)).
  rewrite !S02, S12, SF.
  change (take 2 (replace_altsep (a :: b :: t)))
    with [if Ascii.eqb a "/" then BACKSLASH else a;
          if Ascii.eqb b "/" then BACKSLASH else b].
  change (take (2 - 1) (drop 1 (replace_altsep (a :: b :: t))))
    with [if Ascii.eqb b "/" then BACKSLASH else b].
  change ((a :: b :: t) !! 1%nat) with (Some b).
  rewrite bool_decide_eq_false_2.
  2:{ intros [= Ha _]. destruct (Ascii.eqb_spec a "/") as [->|_]; [by apply Hs|].
      subst a. by apply Hb. }
  destruct (Ascii.eqb_spec b "/") as [->|Hb'].
  - by rewrite !bool_decide_eq_false_2 by discriminate.
  - case_bool_decide as E1; case_bool_decide as E2; try done.
    + injection E1 as ->. done.
    + injection E2 as ->. done.
Qed.

(** The body of the loop of [ntpath.join], for a path that does not end
    with a separator and a component without drive that does not start with
    one. *)
Lemma ntpath_join_step_plain (result_drive result_path p : pystr) :
  ends_without_sep result_path = true →
  starts_with_sep p = false →
  p !! 1%nat ≠ Some ":"%char →
  ntpath_join_step (result_drive, result_path) p
  = (result_drive, result_path ++ [BACKSLASH] ++ p).
Proof.
  intros Hends Hstart Hcolon. unfold ntpath_join_step.
  rewrite (ntpath_splitdrive_letter p Hstart), bool_decide_eq_false_2 by done.
  rewrite Hstart, Hends.
  rewrite (bool_decide_eq_false_2 ([] ≠ [])) by (intros H; by apply H).
  cbn [andb]. by rewrite <- app_assoc.
Qed.

Lemma get_backup_file_path_run (env : Env) hostname timestamp w :
  let directory := os_path_join env BACKUP_DIR_PATH [hostname] in
  let path := os_path_join env BACKUP_DIR_PATH
                [hostname; hostname ++ py "-" ++ timestamp ++ py ".txt"] in
  get_backup_file_path env hostname timestamp w
  = if bool_decide (directory ∈ paths w) then (Ok path, w)
    else match env (trace w) (Makedirs directory) with
         | Returns v =>
             (Ok path,
              mkWorld (trace w ++ [(Makedirs directory, Returns v)])
                      ({[directory]} ∪ paths w) (files w))
         | Raises e => (Exc e, log (Makedirs directory, Raises e) w)
         end.
Proof.
  intros directory path. unfold get_backup_file_path.
  unfold mbind, M_bind, bind, os_path_exists. fold directory.
  case_bool_decide as Hd; cbn [negb].
  - reflexivity.
  - unfold os_makedirs. rewrite bool_decide_eq_false_2 by done.
    by destruct (env (trace w) (Makedirs directory)).
Qed.

(** [posixpath.join] of the root, the hostname and the file name. *)
Lemma backup_path_posixpath (hostname timestamp : pystr) :
  hostname ≠ [] → head hostname ≠ Some "/"%char → last hostname ≠ Some "/"%char →
  posixpath_join BACKUP_DIR_PATH [hostname] = BACKUP_DIR_PATH ++ py "/" ++ hostname
  ∧ posixpath_join BACKUP_DIR_PATH
      [hostname; hostname ++ py "-" ++ timestamp ++ py ".txt"]
    = BACKUP_DIR_PATH ++ py "/" ++ hostname ++ py "/" ++ hostname
      ++ py "-" ++ timestamp ++ py ".txt".
Proof.
  intros Hne Hhead Hlast. unfold posixpath_join. cbn [foldl].
  rewrite (posixpath_join_step_plain BACKUP_DIR_PATH hostname) by done.
  split; [done|].
  rewrite posixpath_join_step_plain.
  - by rewrite <- !app_assoc.
  - by destruct BACKUP_DIR_PATH.
  - destruct hostname as [|x l _] using rev_ind; [done|].
    rewrite last_snoc in Hlast. rewrite !app_assoc, last_snoc. done.
  - by destruct hostname.
Qed.

(** [ntpath.join] of the root, the hostname and the file name: the drive of
    the root is kept, and the components follow it after backslashes. *)
Lemma backup_path_ntpath (hostname timestamp : pystr) :
  starts_with_sep hostname = false →
  ends_without_sep hostname = true →
  hostname !! 1%nat ≠ Some ":"%char →
  ntpath_join BACKUP_DIR_PATH [hostname]
  = BACKUP_DIR_PATH ++ [BACKSLASH] ++ hostname
  ∧ ntpath_join BACKUP_DIR_PATH
      [hostname; hostname ++ py "-" ++ timestamp ++ py ".txt"]
    = BACKUP_DIR_PATH ++ [BACKSLASH] ++ hostname ++ [BACKSLASH] ++ hostname
      ++ py "-" ++ timestamp ++ py ".txt".
Proof.
  intros Hstart Hends Hcolon.
  pose proof Hends as (Hne & _ & _)%ends_without_sep_true.
  unfold ntpath_join. cbn [foldl].
  change (ntpath_splitdrive BACKUP_DIR_PATH)
    with (py "C:", py "/Temp/_CiscoDevNet/backup").
  rewrite (ntpath_join_step_plain _ _ hostname) by done.
  assert (∀ rest, starts_with_sep (py "/Temp/_CiscoDevNet/backup" ++ rest) = true)
    as Habs by done.
  split.
  - rewrite Habs, andb_false_r. cbn [andb]. by rewrite app_assoc.
  - rewrite ntpath_join_step_plain.
    + rewrite <- app_assoc, Habs, andb_false_r. cbn [andb].
      by rewrite (app_assoc (py "C:")), <- !app_assoc.
    + apply ends_without_sep_true. apply ends_without_sep_true in Hends.
      destruct Hends as (_ & H1 & H2).
      destruct hostname as [|x l _] using rev_ind; [done|].
      rewrite last_snoc in H1, H2. rewrite !app_assoc, last_snoc.
      split_and!; [by destruct (_ ++ l) | done..].
    + apply starts_with_sep_false. apply starts_with_sep_false in Hstart.
      by destruct hostname.
    + destruct hostname as [|a [|b t]]; [done | discriminate | exact Hcolon].
Qed.

(** C8, as amended.  For a hostname that is not empty, neither starts nor
    ends with a separator of [os.path] and has no drive, and for every
    timestamp, the backup path is the root, the hostname and the file name
    [<hostname>-<timestamp>.txt] with [os.sep] between them: a slash where
    [os.path] is [posixpath], a backslash where it is [ntpath].  The call
    fails only when the directory is absent and its creation is refused;
    and of two successive calls for the same device at most one creates the
    directory (exactly one when it was absent and its creation succeeds),
    the second none once the first has returned. *)
Theorem C8_backup_path (env : Env) (existing : gset pystr)
    (hostname timestamp : pystr) :
  hostname ≠ [] →
  Forall (λ c, head hostname ≠ Some c ∧ last hostname ≠ Some c)
         (seps (os_path env)) →
  (splitdrive (os_path env) hostname).1 = [] →
  let sep := [os_sep (os_path env)] in
  let directory := BACKUP_DIR_PATH ++ sep ++ hostname in
  let path := BACKUP_DIR_PATH ++ sep ++ hostname ++ sep ++ hostname
              ++ py "-" ++ timestamp ++ py ".txt" in
  let first := get_backup_file_path env hostname timestamp (init_world existing) in
  let second := get_backup_file_path env hostname timestamp first.2 in
  (first.1 = Ok path
   ∨ (∃ e, (directory ∉ existing) ∧ env [] (Makedirs directory) = Raises e
           ∧ first.1 = Exc e))
  ∧ (first.1 = Ok path → second.1 = Ok path ∧ trace second.2 = trace first.2)
  ∧ (creations directory (trace second.2) ≤ 1)%nat
  ∧ (directory ∉ existing → (∃ v, env [] (Makedirs directory) = Returns v) →
     creations directory (trace second.2) = 1%nat).
Proof.
  intros Hne Hseps Hdrive sep directory path first second.
  assert (os_path_join env BACKUP_DIR_PATH [hostname] = directory
          ∧ os_path_join env BACKUP_DIR_PATH
              [hostname; hostname ++ py "-" ++ timestamp ++ py ".txt"] = path)
    as [Hd Hp].
  { subst sep directory path. unfold os_path_join, join.
    destruct (os_path env); cbn [seps os_sep splitdrive] in *.
    - apply Forall_singleton in Hseps as [Hhead Hlast].
      by apply backup_path_posixpath.
    - apply Forall_cons in Hseps as [[Hh1 Hl1] [Hh2 Hl2]%Forall_singleton].
      assert (starts_with_sep hostname = false) as Hstart
        by by apply starts_with_sep_false.
      apply backup_path_ntpath; [done | by apply ends_without_sep_true |].
      rewrite (ntpath_splitdrive_letter _ Hstart) in Hdrive.
      case_bool_decide as Hc; [|done].
      destruct hostname as [|a [|b t]]; done. }
  subst first second. rewrite !get_backup_file_path_run. rewrite Hd, Hp.
  clearbody directory path. cbn [init_world paths trace].
  case_bool_decide as Hin.
  - cbn [fst snd paths trace]. rewrite bool_decide_eq_true_2 by done.
    split_and!; [by left | done | cbn; lia | done].
  - destruct (env [] (Makedirs directory)) as [v|e] eqn:Hmk.
    + cbn [fst snd paths trace]. rewrite bool_decide_eq_true_2 by set_solver.
      cbn [app].
      match goal with
      | |- context [creations directory ?tr] =>
          assert (creations directory tr = 1%nat) as Hone
            by (unfold creations; cbn; by rewrite bool_decide_eq_true_2)
      end.
      split_and!; [by left | done | rewrite Hone; lia | intros _ _; exact Hone].
    + cbn [fst snd paths trace log]. rewrite bool_decide_eq_false_2 by done.
      split_and!; [right; by exists e | done | | by intros _ [v Hv]].
      unfold creations. cbn.
      match goal with
      | |- context [match ?o with Returns _ => _ | Raises _ => _ end] =>
          destruct o
      end; cbn.
      * rewrite bool_decide_eq_true_2 by done. cbn. lia.
      * lia.
Qed.

Lemma C8_backup_path_witness :
  (get_backup_file_path lab (py "R1") (py "2024_01_01-00_00_00") (init_world ∅)).1
  = Ok (py "C:/Temp/_CiscoDevNet/backup/R1/R1-2024_01_01-00_00_00.txt")
  ∧ (get_backup_file_path (on_windows lab) (py "R1") (py "2024_01_01-00_00_00")
       (init_world ∅)).1
    = Ok (py "C:/Temp/_CiscoDevNet/backup" ++ [BACKSLASH] ++ py "R1"
          ++ [BACKSLASH] ++ py "R1-2024_01_01-00_00_00.txt")
  ∧ (creations (py "C:/Temp/_CiscoDevNet/backup/R1")
       (trace (get_backup_file_path lab (py "R1") (py "2024_01_01-00_00_00")
                 (get_backup_file_path lab (py "R1") (py "2024_01_01-00_00_00")
                    (init_world ∅)).2).2) ≤ 1)%nat.
Proof.
  destruct (C8_backup_path lab ∅ (py "R1") (py "2024_01_01-00_00_00"))
    as (Hpath & _ & Honce & _);
    [discriminate | apply (bool_decide_unpack _); vm_compute; exact I
     | reflexivity |].
  destruct (C8_backup_path (on_windows lab) ∅ (py "R1") (py "2024_01_01-00_00_00"))
    as (Hwin & _);
    [discriminate | apply (bool_decide_unpack _); vm_compute; exact I
     | reflexivity |].
  split_and!; [| | exact Honce].
  - destruct Hpath as [Hpath | (e & _ & He & _)]; [exact Hpath | discriminate He].
  - destruct Hwin as [Hwin | (e & _ & He & _)]; [exact Hwin | discriminate He].
Defined.

(** C8, as stated, fails for the empty hostname, after which no separator
    is added, and, where [os.path] is [ntpath], for a hostname that starts
    with a drive letter and a colon, at which the path starts anew. *)
Lemma C8_counterexample :
  (get_backup_file_path lab [] (py "2024_01_01-00_00_00") (init_world ∅)).1
  = Ok (py "C:/Temp/_CiscoDevNet/backup/-2024_01_01-00_00_00.txt")
  ∧ py "C:/Temp/_CiscoDevNet/backup/-2024_01_01-00_00_00.txt"
    ≠ BACKUP_DIR_PATH ++ py "/" ++ [] ++ py "/" ++ []
      ++ py "-" ++ py "2024_01_01-00_00_00" ++ py ".txt"
  ∧ (get_backup_file_path (on_windows lab) (py "D:x") (py "2024_01_01-00_00_00")
       (init_world ∅)).1
    = Ok (py "D:x" ++ [BACKSLASH] ++ py "x-2024_01_01-00_00_00.txt")
  ∧ ∀ sep, py "D:x" ++ [BACKSLASH] ++ py "x-2024_01_01-00_00_00.txt"
           ≠ BACKUP_DIR_PATH ++ sep ++ py "D:x" ++ sep ++ py "D:x"
             ++ py "-" ++ py "2024_01_01-00_00_00" ++ py ".txt".
Proof.
  split_and!; [reflexivity | vm_compute; discriminate | reflexivity |].
  intros sep. vm_compute. discriminate.
Qed.

(** ** Device registry *)

Lemma print_run line w : print line w = (Ok (), log (Print line, Returns []) w).
Proof. reflexivity. Qed.

Lemma getitem_Some (d : gmap pystr pystr) k v w :
  d !! k = Some v → getitem d k w = (Ok v, w).
Proof. intros H. unfold getitem. by rewrite H. Qed.

Lemma hostname_of_Some (r : gmap pystr pystr) h :
  r !! py "hostname" = Some h → hostname_of r = h.
Proof. intros H. unfold hostname_of. by rewrite H. Qed.

(** Over accepted records with distinct hostnames, the inner loop prints
    one notice when the hostname of the row is among them and none
    otherwise. *)
Lemma scan_device_list_run (device_list : list (gmap pystr pystr))
    (row : gmap pystr pystr) (h : pystr) (dup : bool) (w : World) :
  row !! py "hostname" = Some h →
  Forall (λ r, is_Some (r !! py "hostname")) device_list →
  NoDup (map hostname_of device_list) →
  scan_device_list device_list row dup w
  = (Ok (dup || bool_decide (h ∈ map hostname_of device_list)),
     if decide (h ∈ map hostname_of device_list)
     then log (duplicate_notice h, Returns []) w else w).
Proof.
  intros Hrow. revert dup w.
  induction device_list as [|dev rest IH]; intros dup w Hall Hnd.
  - cbn. rewrite orb_false_r. rewrite decide_False by apply not_elem_of_nil. done.
  - apply Forall_cons in Hall as [[a Ha] Hall].
    cbn [map] in Hnd. apply NoDup_cons in Hnd as [Hnotin Hnd].
    rewrite (hostname_of_Some _ _ Ha) in Hnotin.
    cbn [scan_device_list map]. rewrite (hostname_of_Some _ _ Ha).
    rewrite (bind_ok _ _ _ _ _ (getitem_Some _ _ _ _ Ha)).
    rewrite (bind_ok _ _ _ _ _ (getitem_Some _ _ _ _ Hrow)).
    destruct (decide (a = h)) as [Heq|Heq].
    + rewrite (bool_decide_eq_true_2 (a = h)) by done. subst a.
      rewrite (bind_ok _ _ _ _ _ (getitem_Some _ _ _ _ Hrow)).
      rewrite (bind_ok _ _ _ _ _ (print_run _ _)).
      rewrite IH by done.
      rewrite (decide_False (P := h ∈ map hostname_of rest)) by done.
      rewrite (decide_True (P := h ∈ h :: map hostname_of rest))
        by apply list_elem_of_here.
      rewrite (bool_decide_eq_false_2 (h ∈ map hostname_of rest)) by done.
      rewrite (bool_decide_eq_true_2 (h ∈ h :: map hostname_of rest))
        by apply list_elem_of_here.
      by rewrite orb_true_r.
    + rewrite (bool_decide_eq_false_2 (a = h)) by done.
      rewrite IH by done.
      destruct (decide (h ∈ map hostname_of rest)) as [Hin|Hin].
      * rewrite (decide_True (P := h ∈ a :: map hostname_of rest))
          by by apply list_elem_of_further.
        rewrite (bool_decide_eq_true_2 (h ∈ map hostname_of rest)) by done.
        by rewrite (bool_decide_eq_true_2 (h ∈ a :: map hostname_of rest))
          by by apply list_elem_of_further.
      * assert (h ∉ a :: map hostname_of rest) as Hout
          by (intros [?|?]%elem_of_cons; done).
        rewrite (decide_False (P := h ∈ a :: map hostname_of rest)) by done.
        rewrite (bool_decide_eq_false_2 (h ∈ map hostname_of rest)) by done.
        by rewrite (bool_decide_eq_false_2 (h ∈ a :: map hostname_of rest)) by done.
Qed.

Lemma notices_app h tr tr' : notices h (tr ++ tr') = (notices h tr + notices h tr')%nat.
Proof. unfold notices. by rewrite filter_app, length_app. Qed.

Lemma notices_duplicate h h' :
  notices h [(duplicate_notice h', Returns [])] = if decide (h = h') then 1%nat else 0%nat.
Proof.
  unfold notices. destruct (decide (h = h')) as [->|Hne].
  - by rewrite filter_cons_True.
  - rewrite filter_cons_False; [done|].
    cbn. unfold duplicate_notice. intros [= H%app_inv_tail]. congruence.
Qed.

Lemma notices_added h h' :
  notices h [(Print (py "Add unique device '" ++ h' ++ py "' to device list"), Returns [])]
  = 0%nat.
Proof. unfold notices. by rewrite filter_cons_False. Qed.

Lemma filter_none {A} (P : A → Prop) `{∀ x, Decision (P x)} (l : list A) :
  (∀ x, ¬ P x) → filter P l = [].
Proof.
  intros HP. induction l as [|x l IH]; [done|].
  rewrite filter_cons_False by apply HP. exact IH.
Qed.

Lemma filter_hostname_comm (h h' : pystr) (l : list (gmap pystr pystr)) :
  filter (λ r, hostname_of r ≠ h) (filter (λ r, hostname_of r ≠ h') l)
  = filter (λ r, hostname_of r ≠ h') (filter (λ r, hostname_of r ≠ h) l).
Proof. rewrite !list_filter_filter. apply list_filter_iff. intros x. tauto. Qed.

Lemma first_seen_filter (h : pystr) (l : list (gmap pystr pystr)) :
  filter (λ r, hostname_of r ≠ h) (first_seen l)
  = first_seen (filter (λ r, hostname_of r ≠ h) l).
Proof.
  induction l as [|r rest IH]; [done|]. cbn [first_seen].
  destruct (decide (hostname_of r = h)) as [Heq|Hne].
  - rewrite !filter_cons_False by tauto. rewrite <- IH, Heq.
    rewrite list_filter_filter. apply list_filter_iff. intros x. tauto.
  - rewrite !filter_cons_True by done. cbn [first_seen]. f_equal.
    rewrite <- IH. apply filter_hostname_comm.
Qed.

(** Of the rows with a given hostname, first-seen order keeps the first. *)
Lemma first_seen_hostname (h : pystr) (l : list (gmap pystr pystr)) :
  filter (λ r, hostname_of r = h) (first_seen l)
  = take 1 (filter (λ r, hostname_of r = h) l).
Proof.
  induction l as [|r rest IH]; [done|]. cbn [first_seen].
  destruct (decide (hostname_of r = h)) as [Heq|Hne].
  - rewrite !filter_cons_True by done. cbn [take]. f_equal.
    rewrite list_filter_filter. rewrite take_0. apply filter_none.
    intros x. rewrite Heq. tauto.
  - rewrite !filter_cons_False by done. rewrite <- IH.
    rewrite list_filter_filter. apply list_filter_iff. intros x.
    split; [tauto|]. intros Hx. split; [done|]. congruence.
Qed.

Lemma notices_log h ev w :
  notices h (trace (log ev w)) = (notices h (trace w) + notices h [ev])%nat.
Proof. cbn [log trace]. apply notices_app. Qed.

Lemma count_hostname_cons (h : pystr) (r : gmap pystr pystr) rest :
  length (filter (λ r, hostname_of r = h) (r :: rest))
  = ((if decide (hostname_of r = h) then 1 else 0)
     + length (filter (λ r, hostname_of r = h) rest))%nat.
Proof.
  destruct (decide (hostname_of r = h)).
  - by rewrite filter_cons_True.
  - by rewrite filter_cons_False.
Qed.

(** The outer loop: the accepted records grow by the first-seen rows whose
    hostname is new, and every other row costs one notice. *)
Lemma read_rows_run (reader : list (gmap pystr pystr)) :
  ∀ (accepted : list (gmap pystr pystr)) (w : World),
    Forall (λ r, is_Some (r !! py "hostname")) reader →
    Forall (λ r, is_Some (r !! py "hostname")) accepted →
    NoDup (map hostname_of accepted) →
    ∃ w',
      read_rows reader accepted w
      = (Ok (accepted
             ++ first_seen (filter (λ r, hostname_of r ∉ map hostname_of accepted)
                              reader)), w')
      ∧ ∀ h, notices h (trace w')
             = (notices h (trace w) + notices_due h accepted reader)%nat.
Proof.
  induction reader as [|r rest IH]; intros accepted w Hreader Hacc Hnd.
  - exists w. split; [cbn; by rewrite app_nil_r|].
    intros h. unfold notices_due. rewrite filter_nil. cbn. destruct (decide _); lia.
  - apply Forall_cons in Hreader as [[hr Hr] Hrest].
    pose proof (hostname_of_Some _ _ Hr) as Hhr.
    cbn [read_rows].
    rewrite (bind_ok _ _ _ _ _ (scan_device_list_run _ _ _ _ _ Hr Hacc Hnd)).
    cbn [orb].
    destruct (decide (hr ∈ map hostname_of accepted)) as [Hin|Hout].
    + rewrite bool_decide_eq_true_2 by done. cbn [negb].
      destruct (IH accepted (log (duplicate_notice hr, Returns []) w) Hrest Hacc Hnd)
        as (w' & Hrun & Hnot).
      exists w'. split.
      * rewrite Hrun. rewrite filter_cons_False; [done|]. rewrite Hhr. tauto.
      * intros h. rewrite Hnot, notices_log, notices_duplicate.
        unfold notices_due. rewrite count_hostname_cons, Hhr.
        destruct (decide (h ∈ map hostname_of accepted)) as [Hh|Hh].
        -- destruct (decide (h = hr)) as [->|Hne].
           ++ rewrite decide_True by done. lia.
           ++ rewrite decide_False by congruence. lia.
        -- assert (h ≠ hr) as Hne by congruence.
           rewrite (decide_False (P := h = hr)) by done.
           rewrite (decide_False (P := hr = h)) by congruence. lia.
    + rewrite bool_decide_eq_false_2 by done. cbn [negb].
      rewrite (bind_ok _ _ _ _ _ (getitem_Some _ _ _ _ Hr)).
      rewrite (bind_ok _ _ _ _ _ (print_run _ _)).
      assert (Forall (λ r, is_Some (r !! py "hostname")) (accepted ++ [r])) as Hacc'.
      { apply Forall_app. split; [done|]. apply Forall_singleton. eauto. }
      assert (NoDup (map hostname_of (accepted ++ [r]))) as Hnd'.
      { rewrite map_app. apply NoDup_app. split_and!; [done| |apply NoDup_singleton].
        intros x Hx Hin. cbn [map] in Hin.
        apply list_elem_of_singleton in Hin as ->. by rewrite Hhr in Hx. }
      destruct (IH (accepted ++ [r])
                  (log (Print (py "Add unique device '" ++ hr
                               ++ py "' to device list"), Returns []) w)
                  Hrest Hacc' Hnd') as (w' & Hrun & Hnot).
      exists w'. split.
      * rewrite Hrun. rewrite filter_cons_True by by rewrite Hhr.
        cbn [first_seen]. rewrite first_seen_filter, list_filter_filter.
        rewrite <- app_assoc. cbn [app].
        rewrite (list_filter_iff
                   (λ r0, hostname_of r0 ∉ map hostname_of (accepted ++ [r]))
                   (λ a, hostname_of a ≠ hostname_of r
                         ∧ hostname_of a ∉ map hostname_of accepted)); [done|].
        intros x. rewrite map_app, elem_of_app. cbn [map].
        rewrite list_elem_of_singleton. tauto.
      * intros h. rewrite Hnot, notices_log, notices_added.
        unfold notices_due. rewrite count_hostname_cons, Hhr.
        rewrite map_app. cbn [map]. rewrite Hhr.
        destruct (decide (h = hr)) as [->|Hne].
        -- rewrite (decide_True (P := hr ∈ map hostname_of accepted ++ [hr]))
             by (apply elem_of_app; right; apply list_elem_of_here).
           rewrite (decide_False (P := hr ∈ map hostname_of accepted)) by done.
           rewrite decide_True by done. lia.
        -- rewrite (decide_False (P := hr = h)) by congruence.
           destruct (decide (h ∈ map hostname_of accepted)) as [Hh|Hh].
           ++ rewrite decide_True by (apply elem_of_app; by left). lia.
           ++ rewrite decide_False; [lia|].
              intros [?|?%list_elem_of_singleton]%elem_of_app; done.
Qed.

(** C4.  When [k + 1] rows share a hostname, the registry holds exactly one
    record with that hostname, the first such row, and prints [k] duplicate
    notices for it; the records are in first-seen order. *)
Theorem C4_registry_dedup (reader : list (gmap pystr pystr)) (existing : gset pystr) :
  Forall (λ r, is_Some (r !! py "hostname")) reader →
  ∃ device_list w',
    get_devices_from_file reader (init_world existing) = (Ok device_list, w')
    ∧ device_list = first_seen reader
    ∧ ∀ h k,
        length (filter (λ r, hostname_of r = h) reader) = S k →
        (∃ r, filter (λ r, hostname_of r = h) device_list = [r]
              ∧ head (filter (λ r, hostname_of r = h) reader) = Some r)
        ∧ notices h (trace w') = k.
Proof.
  intros Hreader.
  destruct (read_rows_run reader [] (init_world existing) Hreader)
    as (w' & Hrun & Hnot); [constructor | constructor |].
  assert (filter (λ r, hostname_of r ∉ map hostname_of []) reader = reader) as Hall.
  { clear. induction reader as [|r rest IH]; [done|].
    rewrite filter_cons_True by apply not_elem_of_nil. by f_equal. }
  eexists _, w'. split; [exact Hrun|]. rewrite Hall. cbn [app].
  split; [done|]. intros h k Hk. split.
  - rewrite first_seen_hostname.
    destruct (filter (λ r, hostname_of r = h) reader) as [|r l]; [done|].
    by exists r.
  - rewrite Hnot. cbn [init_world trace]. unfold notices_due.
    rewrite decide_False by apply not_elem_of_nil. rewrite Hk. cbn. lia.
Qed.

Lemma C4_registry_dedup_witness :
  ∃ device_list w',
    get_devices_from_file [R1; R2; R1_again; R1] (init_world ∅) = (Ok device_list, w')
    ∧ device_list = first_seen [R1; R2; R1_again; R1]
    ∧ ∀ h k,
        length (filter (λ r, hostname_of r = h) [R1; R2; R1_again; R1]) = S k →
        (∃ r, filter (λ r, hostname_of r = h) device_list = [r]
              ∧ head (filter (λ r, hostname_of r = h) [R1; R2; R1_again; R1]) = Some r)
        ∧ notices h (trace w') = k.
Proof.
  apply (C4_registry_dedup [R1; R2; R1_again; R1] ∅).
  repeat (apply Forall_cons; split; [eexists; vm_compute; reflexivity|]).
  apply Forall_nil_2.
Defined.

(** The registry on four rows, three of which share the hostname [R1]. *)
Example registry_example :
  (get_devices_from_file [R1; R2; R1_again; R1] (init_world ∅)).1 = Ok [R1; R2]
  ∧ notices (py "R1")
      (trace (get_devices_from_file [R1; R2; R1_again; R1] (init_world ∅)).2) = 2%nat
  ∧ notices (py "R2")
      (trace (get_devices_from_file [R1; R2; R1_again; R1] (init_world ∅)).2) = 0%nat.
Proof. split_and!; vm_compute; reflexivity. Qed.

(** ** Device processor *)

Lemma disconnects_app tr tr' :
  disconnects (tr ++ tr') = (disconnects tr + disconnects tr')%nat.
Proof. unfold disconnects. by rewrite List.filter_app, length_app. Qed.

Section Processor.

Context (env : Env).

Lemma quiet_ret {A} (a : A) : quiet (mret a : M A).
Proof. intros w r w' [= <- <-]. exists []. by rewrite app_nil_r. Qed.

Lemma quiet_raise {A} e : quiet (raise e : M A).
Proof. intros w r w' [= <- <-]. exists []. by rewrite app_nil_r. Qed.

Lemma quiet_bind {A B} (m : M A) (k : A → M B) :
  quiet m → (∀ a, quiet (k a)) → quiet (m ≫= k).
Proof.
  intros Hm Hk w r w'. unfold mbind, M_bind, bind.
  destruct (m w) as [[a|e] w1] eqn:E.
  - intros Hrun. destruct (Hm _ _ _ E) as (evs1 & H1 & D1).
    destruct (Hk a _ _ _ Hrun) as (evs2 & H2 & D2).
    exists (evs1 ++ evs2). rewrite H2, H1, disconnects_app, D1, D2.
    by rewrite app_assoc.
  - intros [= <- <-]. apply (Hm _ _ _ E).
Qed.

Lemma quiet_try_except {A} cls (body handler : M A) :
  quiet body → quiet handler → quiet (try_except cls body handler).
Proof.
  intros Hb Hh w r w'. unfold try_except.
  destruct (body w) as [[a|e] w1] eqn:E.
  - intros [= <- <-]. apply (Hb _ _ _ E).
  - destruct (Hb _ _ _ E) as (evs1 & H1 & D1).
    destruct (lookup_global cls) as [| |catches].
    + intros [= <- <-]. eauto.
    + intros [= <- <-]. eauto.
    + destruct (catches e).
      * intros Hrun. destruct (Hh _ _ _ Hrun) as (evs2 & H2 & D2).
        exists (evs1 ++ evs2). rewrite H2, H1, disconnects_app, D1, D2.
        by rewrite app_assoc.
      * intros [= <- <-]. eauto.
Qed.

Lemma quiet_call c : c ≠ Disconnect → quiet (call env c).
Proof.
  intros Hc w r w'. unfold call.
  destruct (env (trace w) c) as [v|e]; intros [= <- <-];
    (eexists [_]; split; [reflexivity|]); by destruct c.
Qed.

Lemma quiet_print line : quiet (print line).
Proof. intros w r w' [= <- <-]. by eexists [_]. Qed.

Lemma quiet_getitem d k : quiet (getitem d k).
Proof. unfold getitem. destruct (d !! k); [apply quiet_ret | apply quiet_raise]. Qed.

Lemma quiet_load_global name : quiet (load_global name).
Proof.
  unfold load_global.
  destruct (lookup_global name); (apply quiet_ret || apply quiet_raise).
Qed.

Lemma quiet_os_path_exists p : quiet (os_path_exists p).
Proof. intros w r w' [= <- <-]. exists []. by rewrite app_nil_r. Qed.

Lemma quiet_os_makedirs p : quiet (os_makedirs env p).
Proof.
  intros w r w'. unfold os_makedirs. case_bool_decide.
  - intros [= <- <-]. by eexists [_].
  - destruct (env (trace w) (Makedirs p)); intros [= <- <-]; by eexists [_].
Qed.

Lemma quiet_write_file p content : quiet (write_file env p content).
Proof.
  intros w r w'. unfold write_file.
  destruct (env (trace w) (WriteFile p content)); intros [= <- <-]; by eexists [_].
Qed.

Ltac quiet_step :=
  first
    [ apply quiet_ret | apply quiet_raise | apply quiet_print
    | apply quiet_getitem | apply quiet_load_global
    | apply quiet_os_path_exists | apply quiet_os_makedirs
    | apply quiet_write_file
    | apply quiet_call; discriminate
    | apply quiet_try_except
    | apply quiet_bind; [|intros ?]
    | match goal with
      | |- quiet (if ?b then _ else _) => destruct b
      | |- quiet (match ?x with _ => _ end) => destruct x
      end ].

Ltac quiet_auto := repeat quiet_step.

Lemma quiet_sleep n : quiet (sleep env n).
Proof. unfold sleep. quiet_auto. Qed.

Lemma quiet_get_current_date_and_time : quiet (get_current_date_and_time env).
Proof. unfold get_current_date_and_time. quiet_auto. Qed.

Lemma quiet_connect_to_device device : quiet (connect_to_device env device).
Proof. unfold connect_to_device. quiet_auto. Qed.

Lemma quiet_get_backup_file_path hostname timestamp :
  quiet (get_backup_file_path env hostname timestamp).
Proof. unfold get_backup_file_path. quiet_auto. Qed.

Lemma quiet_create_backup backup_file_path hostname :
  quiet (create_backup env backup_file_path hostname).
Proof. unfold create_backup. quiet_auto. Qed.

Lemma quiet_get_device_inv_info : quiet (get_device_inv_info env).
Proof. unfold get_device_inv_info. quiet_auto. Qed.

Lemma quiet_get_device_ver_info : quiet (get_device_ver_info env).
Proof. unfold get_device_ver_info. quiet_auto. Qed.

Lemma quiet_get_device_cdp_info : quiet (get_device_cdp_info env).
Proof. unfold get_device_cdp_info. quiet_auto. Qed.

Lemma quiet_getset_device_ntp_info ntpserver :
  quiet (getset_device_ntp_info env ntpserver).
Proof. unfold getset_device_ntp_info. quiet_auto. Qed.

Ltac quiet_fun :=
  first
    [ apply quiet_sleep | apply quiet_get_current_date_and_time
    | apply quiet_connect_to_device | apply quiet_get_backup_file_path
    | apply quiet_create_backup | apply quiet_get_device_inv_info
    | apply quiet_get_device_ver_info | apply quiet_get_device_cdp_info
    | apply quiet_getset_device_ntp_info | quiet_step ].

Lemma closes_bind {A B} (m : M A) (k : A → M B) :
  quiet m → (∀ a, closes (k a)) → closes (m ≫= k).
Proof.
  intros Hm Hk w r w'. unfold mbind, M_bind, bind.
  destruct (m w) as [[a|e] w1] eqn:E.
  - intros Hrun. destruct (Hm _ _ _ E) as (evs1 & H1 & D1).
    destruct (Hk a _ _ _ Hrun) as (evs2 & H2 & Hle & Hok).
    exists (evs1 ++ evs2). rewrite H2, H1, disconnects_app, D1.
    split_and!; [by rewrite app_assoc | lia |].
    intros u Hu. destruct (Hok u Hu) as (Hone & o & Hlast).
    split; [lia|]. exists o. rewrite last_app, Hlast. done.
  - intros [= <- <-]. destruct (Hm _ _ _ E) as (evs1 & H1 & D1).
    exists evs1. split_and!; [done | lia | done].
Qed.

Lemma closes_disconnect_from_device hostname :
  closes (disconnect_from_device env hostname).
Proof.
  intros w r w'. unfold disconnect_from_device, mbind, M_bind, bind, call.
  destruct (env (trace w) Disconnect) as [v|e]; intros [= <- <-].
  - exists [(Disconnect, Returns v)]. split_and!; [done | cbn; lia |].
    intros _ _. split; [done|]. by exists (Returns v).
  - exists [(Disconnect, Raises e)]. split_and!; [done | cbn; lia | done].
Qed.

(** Every step before the last is quiet, and the last is [disconnect]. *)
Lemma closes_process_target device : closes (process_target env device).
Proof.
  unfold process_target.
  repeat (apply closes_bind; [quiet_fun | intros ?]).
  apply closes_disconnect_from_device.
Qed.

(** When nothing raises, every function returns. *)
Lemma returns_ret {A} (a : A) : returns (mret a : M A).
Proof. intros w. by exists a, w. Qed.

Lemma returns_bind {A B} (m : M A) (k : A → M B) :
  returns m → (∀ a, returns (k a)) → returns (m ≫= k).
Proof.
  intros Hm Hk w. destruct (Hm w) as (a & w1 & E).
  destruct (Hk a w1) as (b & w2 & E2). exists b, w2.
  by rewrite (bind_ok _ _ _ _ _ E).
Qed.

Lemma returns_try_except {A} cls (body handler : M A) :
  returns body → returns (try_except cls body handler).
Proof.
  intros Hb w. destruct (Hb w) as (a & w1 & E). exists a, w1.
  by apply try_except_ok.
Qed.

Lemma returns_call c : never_raises env → returns (call env c).
Proof.
  intros Hnr w. destruct (Hnr (trace w) c) as [v Hv].
  eexists _, _. by apply call_returns.
Qed.

Lemma returns_print line : returns (print line).
Proof. intros w. by eexists _, _. Qed.

Lemma returns_getitem (d : gmap pystr pystr) k : is_Some (d !! k) → returns (getitem d k).
Proof. intros [v Hv] w. exists v, w. by apply getitem_Some. Qed.

Lemma returns_write_file p content :
  never_raises env → returns (write_file env p content).
Proof.
  intros Hnr w. unfold write_file.
  destruct (Hnr (trace w) (WriteFile p content)) as [v ->]. by eexists _, _.
Qed.

Lemma returns_get_backup_file_path hostname timestamp :
  never_raises env → returns (get_backup_file_path env hostname timestamp).
Proof.
  intros Hnr w. rewrite get_backup_file_path_run.
  case_bool_decide; [by eexists _, _|].
  destruct (Hnr (trace w) (Makedirs (os_path_join env BACKUP_DIR_PATH [hostname])))
    as [v ->].
  by eexists _, _.
Qed.

Ltac returns_step Hnr :=
  first
    [ apply returns_ret | apply returns_print
    | apply returns_call; exact Hnr
    | apply returns_write_file; exact Hnr
    | apply returns_get_backup_file_path; exact Hnr
    | apply returns_try_except
    | apply returns_bind; [|intros ?]
    | match goal with
      | |- returns (if ?b then _ else _) => destruct b
      | |- returns (match ?x with _ => _ end) => destruct x
      end ].

Lemma returns_process_target device :
  never_raises env →
  (∀ k, k ∈ device_fields → is_Some (device !! k)) →
  returns (process_target env device).
Proof.
  intros Hnr Hfields.
  assert (∀ k, k ∈ device_fields → returns (getitem device k)) as Hget
    by (intros k Hk; by apply returns_getitem, Hfields).
  unfold process_target, get_current_date_and_time, connect_to_device, sleep,
    create_backup, get_device_inv_info, get_device_ver_info, get_device_cdp_info,
    getset_device_ntp_info, disconnect_from_device.
  repeat first
    [ apply Hget; unfold device_fields;
      repeat first [apply list_elem_of_here | apply list_elem_of_further]
    | returns_step Hnr ].
Qed.

(** C2, as amended.  A run of the device processor in which no step raises
    calls [disconnect] exactly once, as its last call; such runs are those
    in which the environment raises nothing, for a row that has every
    column.  No run calls [disconnect] more than once. *)
Theorem C2_session_closed_on_success (device : gmap pystr pystr)
    (existing : gset pystr) :
  let run := process_target env device (init_world existing) in
  (run.1 = Ok () →
   disconnects (trace run.2) = 1%nat
   ∧ ∃ o, last (trace run.2) = Some (Disconnect, o))
  ∧ (disconnects (trace run.2) ≤ 1)%nat
  ∧ (never_raises env →
     (∀ k, k ∈ device_fields → is_Some (device !! k)) →
     run.1 = Ok ()).
Proof.
  intros run.
  destruct (closes_process_target device (init_world existing) run.1 run.2)
    as (evs & Htrace & Hle & Hok); [apply surjective_pairing|].
  cbn [init_world trace app] in Htrace. rewrite Htrace.
  split_and!; [intros Hrun; by apply (Hok ()) | done |].
  intros Hnr Hfields.
  destruct (returns_process_target device Hnr Hfields (init_world existing))
    as ([] & w' & E).
  subst run. by rewrite E.
Qed.

End Processor.

Lemma C2_session_closed_on_success_witness :
  disconnects (trace (process_target lab R1 (init_world ∅)).2) = 1%nat
  ∧ ∃ o, last (trace (process_target lab R1 (init_world ∅)).2) = Some (Disconnect, o).
Proof.
  destruct (C2_session_closed_on_success lab R1 ∅) as (Hok & _ & _).
  apply Hok. vm_compute. reflexivity.
Defined.

(** C2, as stated, fails when privilege elevation fails: the run ends with
    the exception of [enable] and [disconnect] is never called. *)
Lemma C2_counterexample :
  (process_target enable_failing R1 (init_world ∅)).1
  = Exc (Raised (py "ValueError") (py "Failed to enter enable mode."))
  ∧ disconnects (trace (process_target enable_failing R1 (init_world ∅)).2) = 0%nat.
Proof. split; vm_compute; reflexivity. Qed.

(** ** Failures inside the extractors and the backup writer *)

Lemma get_device_ver_info_raises (env : Env) w e :
  env (trace w) (SendCommand (py "sh ver")) = Raises e →
  get_device_ver_info env w
  = (Exc (NameError (py "Error")), log (SendCommand (py "sh ver"), Raises e) w).
Proof.
  intros H. unfold get_device_ver_info. apply (try_except_Error_raises _ _ _ e).
  by rewrite (bind_exc _ _ _ _ _ (call_raises _ _ _ _ H)).
Qed.

Lemma get_device_inv_info_raises (env : Env) w e :
  env (trace w) (SendCommand (py "sh inv")) = Raises e →
  get_device_inv_info env w
  = (Exc (NameError (py "Error")), log (SendCommand (py "sh inv"), Raises e) w).
Proof.
  intros H. unfold get_device_inv_info. apply (try_except_Error_raises _ _ _ e).
  by rewrite (bind_exc _ _ _ _ _ (call_raises _ _ _ _ H)).
Qed.

Lemma get_device_cdp_info_raises (env : Env) w e :
  env (trace w) (SendCommand (py "sh cdp")) = Raises e →
  get_device_cdp_info env w
  = (Exc (NameError (py "Error")), log (SendCommand (py "sh cdp"), Raises e) w).
Proof.
  intros H. unfold get_device_cdp_info. apply bind_exc.
  apply (try_except_Error_raises _ _ _ e).
  by rewrite (bind_exc _ _ _ _ _ (call_raises _ _ _ _ H)).
Qed.

Lemma getset_device_ntp_info_raises (env : Env) w ntpserver e :
  env (trace w) (SendCommand (py "ping " ++ ntpserver)) = Raises e →
  getset_device_ntp_info env ntpserver w
  = (Exc (NameError (py "Error")),
     log (SendCommand (py "ping " ++ ntpserver), Raises e) w).
Proof.
  intros H. unfold getset_device_ntp_info. apply (try_except_Error_raises _ _ _ e).
  by rewrite (bind_exc _ _ _ _ _ (call_raises _ _ _ _ H)).
Qed.

Lemma create_backup_raises (env : Env) w backup_file_path hostname e :
  env (trace w) (SendCommand (py "sh run")) = Raises e →
  create_backup env backup_file_path hostname w
  = (Exc (NameError (py "Error")), log (SendCommand (py "sh run"), Raises e) w).
Proof.
  intros H. unfold create_backup. apply (try_except_Error_raises _ _ _ e).
  by rewrite (bind_exc _ _ _ _ _ (call_raises _ _ _ _ H)).
Qed.

(** C1, on a session whose [sh ver] command times out.  The version
    extractor does not return [DEVICE VERSION FAILED]: evaluating
    [except Error] raises [NameError], which ends the run of the device
    processor right after [sh ver], before the CDP and NTP extractors, the
    report line and [disconnect]. *)
Theorem C1_version_failure_propagates :
  (get_device_ver_info sh_ver_failing (init_world ∅)).1
  = Exc (NameError (py "Error"))
  ∧ (process_target sh_ver_failing R1 (init_world ∅)).1
    = Exc (NameError (py "Error"))
  ∧ calls (process_target sh_ver_failing R1) ∅
    = [Now;
       ConnectHandler (py "10.0.0.1") (py "admin") (py "secret1")
         (py "cisco_ios") (py "secret2");
       Enable;
       SendCommand (py "terminal len 0"); Sleep 1;
       SendCommand (py "terminal width 511"); Sleep 1;
       Makedirs (py "C:/Temp/_CiscoDevNet/backup/R1");
       SendCommand (py "sh run");
       WriteFile (py "C:/Temp/_CiscoDevNet/backup/R1/R1-2024_01_01-00_00_00.txt")
         (py "hostname R1" ++ [LF] ++ py "end");
       SendCommand (py "sh inv");
       SendCommand (py "sh ver")].
Proof. split_and!; vm_compute; reflexivity. Qed.

(** The same row on a session in which nothing fails. *)
Example process_target_lab :
  (process_target lab R1 (init_world ∅)).1 = Ok ()
  ∧ last (calls (process_target lab R1) ∅) = Some Disconnect
  ∧ Print (py "R1 | WS-C3850-24T | cat3k_caa-universalk9.SPA.16.06.04 | PE  | CDP is ON, 3 peers | Clock is Sync")
    ∈ calls (process_target lab R1) ∅.
Proof.
  split_and!; [vm_compute; reflexivity..|].
  apply (bool_decide_unpack _). vm_compute. exact I.
Qed.

(** * Further properties *)

(** ** Inventory extractor: the value after the marker *)

Lemma drop_app_length_add {A} (l k : list A) n : drop (length l + n) (l ++ k) = drop n k.
Proof. by rewrite <- drop_drop, drop_app_length. Qed.

(** With the marker first found after [pre], the text the inventory rule
    works on is what follows the marker. *)
Lemma inv_parse_marker (pre tail : pystr) :
  first_at (pre ++ py "PID:" ++ tail) (py "PID:") (length pre) →
  inv_parse (pre ++ py "PID:" ++ tail)
  = strip (slice tail 0 (find tail (py ","))).
Proof.
  intros H. unfold inv_parse. rewrite (find_first_at _ _ _ H).
  replace (Z.of_nat (length pre) + 4) with (Z.of_nat (length pre + 4)) by lia.
  rewrite slice_from_nat, drop_app_length_add.
  by change (drop 4 (py "PID:" ++ tail)) with tail.
Qed.

(** X1.  When the [sh inv] output has its first [PID:] followed by a value
    and a comma, the inventory extractor returns the value without its
    surrounding white space; when no comma follows the marker, it returns
    what follows the marker without its last character. *)
Theorem X1_inventory_value (env : Env) (w : World) (pre tail : pystr) :
  env (trace w) (SendCommand (py "sh inv")) = Returns (pre ++ py "PID:" ++ tail) →
  first_at (pre ++ py "PID:" ++ tail) (py "PID:") (length pre) →
  (∀ value rest, tail = value ++ py "," ++ rest → ","%char ∉ value →
     (get_device_inv_info env w).1 = Ok (strip value))
  ∧ (","%char ∉ tail →
     (get_device_inv_info env w).1 = Ok (strip (take (length tail - 1) tail))).
Proof.
  intros Hout Hfirst.
  rewrite (get_device_inv_info_returns _ _ _ Hout). cbn [fst].
  rewrite (inv_parse_marker _ _ Hfirst). split.
  - intros value rest -> Hv.
    rewrite (find_first_at _ _ (length value)) by by apply first_at_char.
    by rewrite slice_prefix, take_app_length.
  - intros Hc. rewrite find_absent by by apply not_contains_char.
    by rewrite slice_drop_last.
Qed.

Lemma X1_inventory_value_witness :
  (get_device_inv_info lab (init_world ∅)).1 = Ok (py "WS-C3850-24T").
Proof.
  destruct (X1_inventory_value lab (init_world ∅)
              (py "NAME: Switch 1, DESCR: WS-C3850-24T" ++ [LF])
              (py " WS-C3850-24T, VID: V04, SN: FOC00000000")) as [Hvalue _].
  - reflexivity.
  - apply find_nat_first_at. vm_compute. reflexivity.
  - apply (Hvalue (py " WS-C3850-24T") (py " VID: V04, SN: FOC00000000"));
      [reflexivity|].
    apply (bool_decide_unpack _). vm_compute. exact I.
Defined.

(** ** What the parsed values never contain *)

Lemma lstrip_head s c : head (lstrip s) = Some c → isspace c = false.
Proof.
  induction s as [|x t IH]; [done|]. cbn [lstrip].
  destruct (isspace x) eqn:E; [done|]. by intros [= <-].
Qed.

Lemma last_rev {A} (l : list A) : last (rev l) = head l.
Proof. destruct l as [|a l]; [done|]. cbn [rev]. by rewrite last_snoc. Qed.

Lemma rstrip_last s c : last (rstrip s) = Some c → isspace c = false.
Proof. unfold rstrip. rewrite last_rev. apply lstrip_head. Qed.

Lemma rstrip_prefix s : ∃ post, s = rstrip s ++ post.
Proof.
  unfold rstrip. destruct (lstrip_suffix (rev s)) as [p Hp].
  exists (rev p). rewrite <- rev_app_distr, <- Hp. by rewrite rev_involutive.
Qed.

(** A stripped text neither starts nor ends with white space. *)
Lemma strip_ends s c :
  (head (strip s) = Some c → isspace c = false)
  ∧ (last (strip s) = Some c → isspace c = false).
Proof.
  unfold strip. split; [|apply rstrip_last].
  destruct (rstrip_prefix (lstrip s)) as [post Hpost].
  destruct (rstrip (lstrip s)) as [|x t] eqn:E; [done|].
  intros [= <-]. apply (lstrip_head s). by rewrite Hpost.
Qed.

Lemma elem_of_contains (s t : pystr) c : contains s t → c ∈ t → c ∈ s.
Proof. intros (pre & post & ->) Hc. set_solver. Qed.

Lemma take_first_at_char (s : pystr) c j : first_at s [c] j → c ∉ take j s.
Proof.
  intros (pre & post & -> & Hlen & Hmin) Hin. subst j.
  rewrite take_app_length in Hin.
  apply list_elem_of_split in Hin as (l1 & l2 & ->).
  specialize (Hmin l1 (l2 ++ [c] ++ post)).
  rewrite <- !app_assoc in Hmin. specialize (Hmin eq_refl).
  rewrite length_app in Hmin. cbn in Hmin. lia.
Qed.

(** X2.  Whatever the [sh inv] output, the inventory value contains no
    comma and neither starts nor ends with white space. *)
Theorem X2_inventory_value_shape (output : pystr) :
  (","%char ∉ inv_parse output)
  ∧ (∀ c, head (inv_parse output) = Some c → isspace c = false)
  ∧ (∀ c, last (inv_parse output) = Some c → isspace c = false).
Proof.
  unfold inv_parse. split; [|split; intros c; apply strip_ends].
  set (tail := slice_from output (find output (py "PID:") + 4)).
  intros Hin. apply (elem_of_contains _ _ _ (contains_strip _)) in Hin.
  unfold find in Hin. destruct (find_nat tail (py ",")) as [j|] eqn:F.
  - rewrite slice_prefix in Hin.
    eapply take_first_at_char; [|exact Hin]. by apply find_nat_first_at.
  - rewrite slice_drop_last in Hin.
    apply find_nat_None in F. apply not_contains_char in F.
    apply F. by eapply elem_of_contains; [apply contains_take|].
Qed.

Lemma endswith_true (s suf : pystr) : endswith s suf = true → ∃ pre, s = pre ++ suf.
Proof.
  unfold endswith. intros [post H]%startswith_true. exists (rev post).
  by rewrite <- (rev_involutive s), H, rev_app_distr, rev_involutive.
Qed.

Lemma re_sub_bin_end_elem (s : pystr) c : c ∈ re_sub_bin_end s → c ∈ s.
Proof.
  unfold re_sub_bin_end.
  destruct (endswith s (py ".bin")) eqn:E1.
  { intros H. by eapply elem_of_contains; [apply contains_take|]. }
  destruct (endswith s (py ".bin" ++ [LF])) eqn:E2; [|done].
  intros [H|H]%elem_of_app.
  - by eapply elem_of_contains; [apply contains_take|].
  - apply list_elem_of_singleton in H as ->.
    apply endswith_true in E2 as [pre ->]. set_solver.
Qed.

Lemma split_segments (s : pystr) sep :
  Forall (λ l : pystr, (sep ∉ l) ∧ ∀ c, c ∈ l → c ∈ s) (split s sep).
Proof.
  induction s as [|x t IH]; cbn [split].
  - apply Forall_singleton. split; [apply not_elem_of_nil | done].
  - destruct (Ascii.eqb x sep) eqn:E.
    + constructor; [split; [apply not_elem_of_nil | by intros c ?%elem_of_nil]|].
      eapply Forall_impl; [exact IH|]. intros l [? Hl]. split; [done|].
      intros c Hc. by apply list_elem_of_further, Hl.
    + apply Ascii.eqb_neq in E.
      destruct (split t sep) as [|l ls]; [|apply Forall_cons in IH as [[Hl1 Hl2] IH]].
      * apply Forall_singleton.
        split; [by intros ->%list_elem_of_singleton|].
        intros c ->%list_elem_of_singleton. apply list_elem_of_here.
      * constructor.
        -- split; [by intros [->|?]%elem_of_cons|].
           intros c [->|Hc]%elem_of_cons;
             [apply list_elem_of_here | by apply list_elem_of_further, Hl2].
        -- eapply Forall_impl; [exact IH|]. intros l' [? Hl]. split; [done|].
           intros c Hc. by apply list_elem_of_further, Hl.
Qed.

Lemma ver_filename_elem (s : pystr) :
  ("/"%char ∉ ver_filename s) ∧ ∀ c, c ∈ ver_filename s → c ∈ s.
Proof.
  unfold ver_filename.
  pose proof (split_segments s "/") as Hall.
  pose proof (split_nonempty s "/") as Hne.
  rewrite Forall_forall in Hall. apply Hall.
  apply list_elem_of_In, nth_In. destruct (split s "/"); [done|]. cbn. lia.
Qed.

(** X3.  Whatever the [sh ver] output, the image name in the result
    contains neither a path separator nor a double quote, and the result is
    that name followed by [ | NPE] or by [ | PE ]. *)
Theorem X3_version_name_shape (output : pystr) :
  ("/"%char ∉ ver_name output)
  ∧ (DQUOTE ∉ ver_name output)
  ∧ (ver_parse output = ver_name output ++ py " | NPE"
     ∨ ver_parse output = ver_name output ++ py " | PE ").
Proof.
  unfold ver_name. split_and!.
  - apply ver_filename_elem.
  - intros H. apply ver_filename_elem in H.
    unfold ver_after_colon, slice_from in H.
    apply (elem_of_contains _ _ _ (contains_drop _ _)) in H.
    unfold ver_image_text in H. apply re_sub_bin_end_elem in H.
    unfold remove_char in H. apply list_elem_of_filter in H as [H _]. done.
  - unfold ver_parse, ver_pe_npe. case_bool_decide; [by left | by right].
Qed.

(** X4.  An [sh ver] output of at most 19 characters (the empty output
    among them) gives the result [ | PE ]: an empty image name, and no
    failure. *)
Theorem X4_version_short_output (env : Env) (w : World) (output : pystr) :
  env (trace w) (SendCommand (py "sh ver")) = Returns output →
  (length output ≤ 19)%nat →
  (get_device_ver_info env w).1 = Ok (py " | PE ").
Proof.
  intros Hout Hlen. rewrite (get_device_ver_info_returns _ _ _ Hout). cbn [fst].
  assert (¬ contains output (py "System image file is")) as Hm.
  { intros (pre & post & ->). rewrite !length_app in Hlen. cbn in Hlen. lia. }
  assert (ver_image_text output = []) as Himg.
  { unfold ver_image_text. rewrite (find_absent _ _ Hm).
    change (-1 + Z.of_nat (length (py "System image file is"))) with 19.
    replace (slice output _ _) with (@nil ascii); [reflexivity|].
    unfold slice. rewrite drop_ge; [by rewrite take_nil|].
    unfold slice_bound. change (19 <? 0) with false. cbn beta iota. lia. }
  unfold ver_parse. rewrite Himg. reflexivity.
Qed.

Lemma X4_version_short_output_witness :
  (get_device_ver_info (cli (λ _, [])) (init_world ∅)).1 = Ok (py " | PE ").
Proof.
  apply (X4_version_short_output (cli (λ _, [])) (init_world ∅) []);
    [reflexivity | cbn; lia].
Defined.

(** ** CDP extractor: bounds of the peer count *)

(** X5.  The peer count is never below -1, and it is never negative when
    the neighbour output contains the [Device ID] header. *)
Theorem X5_cdp_count_bounds (output : pystr) :
  -1 ≤ cdp_count output
  ∧ (contains output (py "Device ID") → 0 ≤ cdp_count output).
Proof.
  split.
  - unfold cdp_count. rewrite count_lines_filter. lia.
  - intros [i Hi]%find_nat_contains. apply find_nat_first_at in Hi.
    rewrite (cdp_count_header _ _ Hi).
    destruct Hi as (pre & post & -> & <- & _). rewrite drop_app_length.
    change (py "Device ID" ++ post)
      with ("D"%char :: (py "evice ID" ++ post)).
    rewrite splitlines_cons_plain by reflexivity.
    destruct (splitlines (py "evice ID" ++ post)) as [|l ls];
      rewrite filter_cons_True by (unfold indented, SP; cbn; discriminate);
      cbn [length]; lia.
Qed.

Lemma X5_cdp_count_bounds_witness :
  -1 ≤ cdp_count neighbours_output ∧ 0 ≤ cdp_count neighbours_output.
Proof.
  destruct (X5_cdp_count_bounds neighbours_output) as [Hlow Hhead].
  split; [exact Hlow|]. apply Hhead. apply find_contains. vm_compute. discriminate.
Defined.

(** ** Device registry: invariants of the result *)

Lemma map_sublist {A B} (f : A → B) (l1 l2 : list A) :
  l1 `sublist_of` l2 → map f l1 `sublist_of` map f l2.
Proof. induction 1; cbn [map]; by constructor. Qed.

Lemma first_seen_sublist (l : list (gmap pystr pystr)) : first_seen l `sublist_of` l.
Proof.
  induction l as [|r rest IH]; [constructor|]. cbn [first_seen].
  apply sublist_skip. etrans; [apply sublist_filter | exact IH].
Qed.

Lemma first_seen_NoDup (l : list (gmap pystr pystr)) :
  NoDup (map hostname_of (first_seen l)).
Proof.
  induction l as [|r rest IH]; [constructor|]. cbn [first_seen map].
  apply NoDup_cons. split.
  - intros Hin. apply list_elem_of_In, in_map_iff in Hin as (x & Hx & Hin).
    apply list_elem_of_In, list_elem_of_filter in Hin as [Hne _]. done.
  - eapply sublist_NoDup; [exact IH|]. apply map_sublist, sublist_filter.
Qed.

Lemma first_seen_covers (l : list (gmap pystr pystr)) r :
  r ∈ l → hostname_of r ∈ map hostname_of (first_seen l).
Proof.
  induction l as [|x rest IH]; [by intros ?%elem_of_nil|].
  cbn [first_seen map]. intros [->|Hin]%elem_of_cons; [apply list_elem_of_here|].
  destruct (decide (hostname_of r = hostname_of x)) as [->|Hne];
    [apply list_elem_of_here|].
  apply list_elem_of_further.
  specialize (IH Hin). apply list_elem_of_In, in_map_iff in IH as (y & Hy & Hyin).
  apply list_elem_of_In, in_map_iff. exists y. split; [done|].
  apply list_elem_of_In, list_elem_of_filter. split; [congruence|].
  by apply list_elem_of_In.
Qed.

(** First-seen order leaves a list with distinct hostnames as it is. *)
Lemma first_seen_distinct (l : list (gmap pystr pystr)) :
  NoDup (map hostname_of l) → first_seen l = l.
Proof.
  induction l as [|r rest IH]; [done|]. cbn [map first_seen].
  intros [Hnotin Hnd]%NoDup_cons. rewrite (IH Hnd). f_equal.
  clear IH Hnd. induction rest as [|x xs IHx]; [done|].
  cbn [map] in Hnotin. apply not_elem_of_cons in Hnotin as [Hne Hnotin].
  rewrite filter_cons_True by congruence. f_equal. by apply IHx.
Qed.

Lemma get_devices_from_file_run (reader : list (gmap pystr pystr)) (w : World) :
  Forall (λ r, is_Some (r !! py "hostname")) reader →
  ∃ w',
    get_devices_from_file reader w = (Ok (first_seen reader), w')
    ∧ ∀ h, notices h (trace w')
           = (notices h (trace w) + notices_due h [] reader)%nat.
Proof.
  intros Hreader.
  destruct (read_rows_run reader [] w Hreader) as (w' & Hrun & Hnot);
    [constructor | constructor |].
  exists w'. split; [|exact Hnot]. unfold get_devices_from_file.
  rewrite Hrun. cbn [app].
  assert (filter (λ r, hostname_of r ∉ map hostname_of []) reader = reader) as ->;
    [|done].
  clear. induction reader as [|r rest IH]; [done|].
  rewrite filter_cons_True by apply not_elem_of_nil. by f_equal.
Qed.

(** X6.  The registry invents and reorders nothing: its result is a
    subsequence of the rows read, its hostnames are pairwise distinct, and
    every hostname read is the hostname of some record of the result. *)
Theorem X6_registry_invariants (reader : list (gmap pystr pystr)) (w : World) :
  Forall (λ r, is_Some (r !! py "hostname")) reader →
  ∃ device_list w',
    get_devices_from_file reader w = (Ok device_list, w')
    ∧ device_list `sublist_of` reader
    ∧ NoDup (map hostname_of device_list)
    ∧ ∀ r, r ∈ reader → hostname_of r ∈ map hostname_of device_list.
Proof.
  intros Hreader.
  destruct (get_devices_from_file_run reader w Hreader) as (w' & Hrun & _).
  exists (first_seen reader), w'. split_and!.
  - exact Hrun.
  - apply first_seen_sublist.
  - apply first_seen_NoDup.
  - apply first_seen_covers.
Qed.

Lemma X6_registry_invariants_witness :
  ∃ device_list w',
    get_devices_from_file [R1; R2; R1_again; R1] (init_world ∅) = (Ok device_list, w')
    ∧ device_list `sublist_of` [R1; R2; R1_again; R1]
    ∧ NoDup (map hostname_of device_list)
    ∧ ∀ r, r ∈ [R1; R2; R1_again; R1] →
           hostname_of r ∈ map hostname_of device_list.
Proof.
  apply (X6_registry_invariants [R1; R2; R1_again; R1] (init_world ∅)).
  repeat (apply Forall_cons; split; [eexists; vm_compute; reflexivity|]).
  apply Forall_nil_2.
Defined.

Lemma Forall_sublist {A} (P : A → Prop) (l1 l2 : list A) :
  l1 `sublist_of` l2 → Forall P l2 → Forall P l1.
Proof.
  intros Hsub Hall. rewrite Forall_forall in Hall. apply Forall_forall.
  intros x Hx. apply Hall. by eapply elem_of_sublist.
Qed.

(** X7.  The registry is idempotent: read again from its own result, it
    returns that result unchanged and prints no duplicate notice. *)
Theorem X7_registry_idempotent (reader : list (gmap pystr pystr)) (w w0 : World) :
  Forall (λ r, is_Some (r !! py "hostname")) reader →
  ∃ device_list w1 w2,
    get_devices_from_file reader w = (Ok device_list, w1)
    ∧ get_devices_from_file device_list w0 = (Ok device_list, w2)
    ∧ ∀ h, notices h (trace w2) = notices h (trace w0).
Proof.
  intros Hreader.
  destruct (get_devices_from_file_run reader w Hreader) as (w1 & Hrun & _).
  assert (Forall (λ r, is_Some (r !! py "hostname")) (first_seen reader)) as Hfs
    by (eapply Forall_sublist; [apply first_seen_sublist | done]).
  destruct (get_devices_from_file_run (first_seen reader) w0 Hfs)
    as (w2 & Hrun2 & Hnot).
  rewrite (first_seen_distinct _ (first_seen_NoDup reader)) in Hrun2.
  exists (first_seen reader), w1, w2. split_and!; [exact Hrun | exact Hrun2 |].
  intros h. rewrite Hnot. unfold notices_due.
  rewrite decide_False by apply not_elem_of_nil.
  rewrite first_seen_hostname, length_take. lia.
Qed.

Lemma X7_registry_idempotent_witness :
  ∃ device_list w1 w2,
    get_devices_from_file [R1; R2; R1_again; R1] (init_world ∅) = (Ok device_list, w1)
    ∧ get_devices_from_file device_list (init_world ∅) = (Ok device_list, w2)
    ∧ ∀ h, notices h (trace w2) = notices h (trace (init_world ∅)).
Proof.
  apply (X7_registry_idempotent [R1; R2; R1_again; R1] (init_world ∅) (init_world ∅)).
  repeat (apply Forall_cons; split; [eexists; vm_compute; reflexivity|]).
  apply Forall_nil_2.
Defined.

(** ** Device registry: a row without hostname, and the lines printed *)

Lemma read_rows_app (l1 l2 accepted : list (gmap pystr pystr)) (w : World) :
  read_rows (l1 ++ l2) accepted w
  = match read_rows l1 accepted w with
    | (Ok accepted', w') => read_rows l2 accepted' w'
    | (Exc e, w') => (Exc e, w')
    end.
Proof.
  revert accepted w. induction l1 as [|r l1 IH]; intros accepted w; [done|].
  cbn [app read_rows]. unfold mbind, M_bind, bind.
  destruct (scan_device_list accepted r false w) as [[dup|e] w1]; [|done].
  destruct dup; cbn [negb]; [apply IH|].
  destruct (getitem r (py "hostname") w1) as [[h|e] w2]; [|done].
  cbn. apply IH.
Qed.

Lemma read_rows_nameless (row : gmap pystr pystr) rest accepted (w : World) :
  row !! py "hostname" = None →
  Forall (λ r, is_Some (r !! py "hostname")) accepted →
  read_rows (row :: rest) accepted w = (Exc (KeyError (py "hostname")), w).
Proof.
  intros Hrow Hacc.
  assert (∀ w', getitem row (py "hostname") w' = (Exc (KeyError (py "hostname")), w'))
    as Hget by (intros w'; unfold getitem; by rewrite Hrow).
  cbn [read_rows]. destruct accepted as [|dev accepted]; cbn [scan_device_list].
  - erewrite bind_ok; [|reflexivity]. cbn [negb]. by apply bind_exc.
  - apply Forall_cons in Hacc as [[a Ha] _].
    apply bind_exc. rewrite (bind_ok _ _ _ _ _ (getitem_Some _ _ _ _ Ha)).
    by apply bind_exc.
Qed.

(** X8.  A row that lacks the hostname column ends the registry with
    [KeyError('hostname')]: the rows after it are not examined, and the
    trace is the one of the rows before it. *)
Theorem X8_registry_missing_hostname
    (good rest : list (gmap pystr pystr)) (bad : gmap pystr pystr) (w : World) :
  Forall (λ r, is_Some (r !! py "hostname")) good →
  bad !! py "hostname" = None →
  (get_devices_from_file (good ++ bad :: rest) w).1 = Exc (KeyError (py "hostname"))
  ∧ (get_devices_from_file (good ++ bad :: rest) w).2
    = (get_devices_from_file good w).2.
Proof.
  intros Hgood Hbad.
  destruct (get_devices_from_file_run good w Hgood) as (w' & Hrun & _).
  unfold get_devices_from_file in *. rewrite read_rows_app, Hrun.
  rewrite read_rows_nameless; [done | done |].
  eapply Forall_sublist; [apply first_seen_sublist | done].
Qed.

Lemma X8_registry_missing_hostname_witness :
  (get_devices_from_file ([R1; R2] ++ nameless_row :: [R1]) (init_world ∅)).1
  = Exc (KeyError (py "hostname"))
  ∧ (get_devices_from_file ([R1; R2] ++ nameless_row :: [R1]) (init_world ∅)).2
    = (get_devices_from_file [R1; R2] (init_world ∅)).2.
Proof.
  apply (X8_registry_missing_hostname [R1; R2] [R1] nameless_row (init_world ∅)).
  - repeat (apply Forall_cons; split; [eexists; vm_compute; reflexivity|]).
    apply Forall_nil_2.
  - vm_compute. reflexivity.
Defined.

Lemma read_rows_lines (reader : list (gmap pystr pystr)) :
  ∀ (accepted : list (gmap pystr pystr)) (w : World),
    Forall (λ r, is_Some (r !! py "hostname")) reader →
    Forall (λ r, is_Some (r !! py "hostname")) accepted →
    NoDup (map hostname_of accepted) →
    ∃ lines,
      (read_rows reader accepted w).2
      = mkWorld (trace w ++ map (λ line, (Print line, Returns [])) lines)
                (paths w) (files w)
      ∧ Forall2 (λ r line, line = added_line (hostname_of r)
                           ∨ line = skipped_line (hostname_of r)) reader lines.
Proof.
  induction reader as [|r rest IH]; intros accepted w Hreader Hacc Hnd.
  - exists []. split; [|constructor]. cbn. rewrite app_nil_r. by destruct w.
  - apply Forall_cons in Hreader as [[hr Hr] Hrest].
    pose proof (hostname_of_Some _ _ Hr) as Hhr.
    cbn [read_rows].
    rewrite (bind_ok _ _ _ _ _ (scan_device_list_run _ _ _ _ _ Hr Hacc Hnd)).
    cbn [orb].
    destruct (decide (hr ∈ map hostname_of accepted)) as [Hin|Hout].
    + rewrite bool_decide_eq_true_2 by done. cbn [negb].
      destruct (IH accepted (log (duplicate_notice hr, Returns []) w) Hrest Hacc Hnd)
        as (lines & Hw & Hlines).
      exists (skipped_line hr :: lines). split.
      * rewrite Hw. cbn [log trace paths files map]. by rewrite <- app_assoc.
      * constructor; [right; by rewrite Hhr | done].
    + rewrite bool_decide_eq_false_2 by done. cbn [negb].
      rewrite (bind_ok _ _ _ _ _ (getitem_Some _ _ _ _ Hr)).
      rewrite (bind_ok _ _ _ _ _ (print_run _ _)).
      assert (Forall (λ r, is_Some (r !! py "hostname")) (accepted ++ [r])) as Hacc'.
      { apply Forall_app. split; [done|]. apply Forall_singleton. eauto. }
      assert (NoDup (map hostname_of (accepted ++ [r]))) as Hnd'.
      { rewrite map_app. apply NoDup_app. split_and!; [done| |apply NoDup_singleton].
        intros x Hx Hin. cbn [map] in Hin.
        apply list_elem_of_singleton in Hin as ->. by rewrite Hhr in Hx. }
      destruct (IH (accepted ++ [r])
                  (log (Print (py "Add unique device '" ++ hr
                               ++ py "' to device list"), Returns []) w)
                  Hrest Hacc' Hnd') as (lines & Hw & Hlines).
      exists (added_line hr :: lines). split.
      * rewrite Hw. cbn [log trace paths files map]. by rewrite <- app_assoc.
      * constructor; [left; by rewrite Hhr | done].
Qed.

(** X9.  The registry does nothing but print: it leaves the files and
    paths as they are and adds to the trace one printed line per row, in
    the order of the rows, each the added or the skipped line of that row's
    hostname. *)
Theorem X9_registry_lines (reader : list (gmap pystr pystr)) (w : World) :
  Forall (λ r, is_Some (r !! py "hostname")) reader →
  ∃ lines,
    (get_devices_from_file reader w).2
    = mkWorld (trace w ++ map (λ line, (Print line, Returns [])) lines)
              (paths w) (files w)
    ∧ Forall2 (λ r line, line = added_line (hostname_of r)
                         ∨ line = skipped_line (hostname_of r)) reader lines.
Proof.
  intros Hreader. apply read_rows_lines; [done | constructor | constructor].
Qed.

Lemma X9_registry_lines_witness :
  ∃ lines,
    (get_devices_from_file [R1; R2; R1_again; R1] (init_world ∅)).2
    = mkWorld (trace (init_world ∅) ++ map (λ line, (Print line, Returns [])) lines)
              (paths (init_world ∅)) (files (init_world ∅))
    ∧ Forall2 (λ r line, line = added_line (hostname_of r)
                         ∨ line = skipped_line (hostname_of r))
        [R1; R2; R1_again; R1] lines.
Proof.
  apply (X9_registry_lines [R1; R2; R1_again; R1] (init_world ∅)).
  repeat (apply Forall_cons; split; [eexists; vm_compute; reflexivity|]).
  apply Forall_nil_2.
Defined.

(** ** Connecting *)

(** X10.  [connect_to_device] reads the columns [ip], [username],
    [password], [device_type] and [secret] in this order: the first one
    that is missing raises [KeyError] before any connection is attempted;
    with all five present, exactly one connection is attempted, to the
    address in [ip] with the other four as credentials and dialect, and its
    outcome is the outcome of the function. *)
Theorem X10_connect_to_device (env : Env) (device : gmap pystr pystr) (w : World) :
  (∀ pre k post,
     connection_keys = pre ++ k :: post →
     Forall (λ x, is_Some (device !! x)) pre →
     device !! k = None →
     connect_to_device env device w = (Exc (KeyError k), w))
  ∧ (∀ ip username password device_type secret,
       device !! py "ip" = Some ip →
       device !! py "username" = Some username →
       device !! py "password" = Some password →
       device !! py "device_type" = Some device_type →
       device !! py "secret" = Some secret →
       let c := ConnectHandler ip username password device_type secret in
       connect_to_device env device w
       = (match env (trace w) c with Returns _ => Ok () | Raises e => Exc e end,
          log (c, env (trace w) c) w)).
Proof.
  split.
  - intros pre k post Heq Hall Hk.
    assert (getitem device k w = (Exc (KeyError k), w)) as Hget
      by (unfold getitem; by rewrite Hk).
    unfold connection_keys in Heq. unfold connect_to_device.
    repeat (destruct pre as [|? pre];
            [ injection Heq as <- <-
            | injection Heq as <- Heq;
              apply Forall_cons in Hall as [[? ?] Hall];
              (erewrite bind_ok; [|by apply getitem_Some]) ]);
      try (by apply bind_exc).
    by destruct pre.
  - intros ip username password device_type secret H1 H2 H3 H4 H5 c.
    unfold connect_to_device.
    rewrite (bind_ok _ _ _ _ _ (getitem_Some _ _ _ _ H1)).
    rewrite (bind_ok _ _ _ _ _ (getitem_Some _ _ _ _ H2)).
    rewrite (bind_ok _ _ _ _ _ (getitem_Some _ _ _ _ H3)).
    rewrite (bind_ok _ _ _ _ _ (getitem_Some _ _ _ _ H4)).
    rewrite (bind_ok _ _ _ _ _ (getitem_Some _ _ _ _ H5)).
    unfold mbind, M_bind, bind, call. fold c.
    by destruct (env (trace w) c).
Qed.

Lemma X10_connect_to_device_witness :
  connect_to_device lab (delete (py "password") R1) (init_world ∅)
  = (Exc (KeyError (py "password")), init_world ∅)
  ∧ (trace (connect_to_device lab R1 (init_world ∅)).2).*1
    = [ConnectHandler (py "10.0.0.1") (py "admin") (py "secret1")
         (py "cisco_ios") (py "secret2")].
Proof.
  split.
  - destruct (X10_connect_to_device lab (delete (py "password") R1) (init_world ∅))
      as [Hmissing _].
    apply (Hmissing [py "ip"; py "username"] (py "password")
             [py "device_type"; py "secret"]); [reflexivity | | vm_compute; reflexivity].
    repeat (apply Forall_cons; split; [eexists; vm_compute; reflexivity|]).
    apply Forall_nil_2.
  - destruct (X10_connect_to_device lab R1 (init_world ∅)) as [_ Hall].
    rewrite (Hall (py "10.0.0.1") (py "admin") (py "secret1") (py "cisco_ios")
               (py "secret2")) by (vm_compute; reflexivity).
    reflexivity.
Defined.

(** ** Backup writer *)

Lemma write_file_returns (env : Env) p content w v :
  env (trace w) (WriteFile p content) = Returns v →
  write_file env p content w
  = (Ok (), mkWorld (trace w ++ [(WriteFile p content, Returns v)])
                    ({[p]} ∪ paths w) (<[p := content]> (files w))).
Proof. intros H. unfold write_file. by rewrite H. Qed.

(** X11.  When [sh run] and the write both succeed, [create_backup]
    returns [True], the file at the backup path holds the [sh run] output
    unchanged, and no other file is touched. *)
Theorem X11_create_backup_verbatim (env : Env) (w : World)
    (backup_file_path hostname output v : pystr) :
  env (trace w) (SendCommand (py "sh run")) = Returns output →
  env (trace w ++ [(SendCommand (py "sh run"), Returns output)])
      (WriteFile backup_file_path output) = Returns v →
  let run := create_backup env backup_file_path hostname w in
  run.1 = Ok true
  ∧ files run.2 !! backup_file_path = Some output
  ∧ (∀ p, p ≠ backup_file_path → files run.2 !! p = files w !! p)
  ∧ trace run.2
    = trace w ++ [(SendCommand (py "sh run"), Returns output);
                  (WriteFile backup_file_path output, Returns v)].
Proof.
  intros Hrun Hwrite run.
  assert (run
          = (Ok true,
             mkWorld (trace w ++ [(SendCommand (py "sh run"), Returns output);
                                  (WriteFile backup_file_path output, Returns v)])
                     ({[backup_file_path]} ∪ paths w)
                     (<[backup_file_path := output]> (files w)))) as ->.
  { unfold run, create_backup. apply try_except_ok.
    rewrite (bind_ok _ _ _ _ _ (call_returns _ _ _ _ Hrun)).
    erewrite bind_ok; [|apply write_file_returns; exact Hwrite].
    cbn [log trace paths files]. by rewrite <- app_assoc. }
  cbn [fst snd files trace]. split_and!; [done | | | done].
  - apply lookup_insert_eq.
  - intros p Hp. by rewrite lookup_insert_ne.
Qed.

Lemma X11_create_backup_verbatim_witness :
  files (create_backup lab (py "C:/Temp/_CiscoDevNet/backup/R1/R1-2024.txt")
           (py "R1") (init_world ∅)).2
    !! py "C:/Temp/_CiscoDevNet/backup/R1/R1-2024.txt"
  = Some (py "hostname R1" ++ [LF] ++ py "end").
Proof.
  destruct (X11_create_backup_verbatim lab (init_world ∅)
              (py "C:/Temp/_CiscoDevNet/backup/R1/R1-2024.txt") (py "R1")
              (py "hostname R1" ++ [LF] ++ py "end") [] eq_refl eq_refl)
    as (_ & Hfile & _).
  exact Hfile.
Defined.

(** ** What the handlers let through *)

Lemma try_except_Error_masks {A} (body handler : M A) w e :
  (try_except (py "Error") body handler w).1 = Exc e → e = NameError (py "Error").
Proof.
  unfold try_except. destruct (body w) as [[a|e'] w']; [done|].
  rewrite Error_unbound. by intros [= <-].
Qed.

Lemma try_except_Error_value {A} (body handler : M A) w a :
  (try_except (py "Error") body handler w).1 = Ok a → ∃ w', body w = (Ok a, w').
Proof.
  unfold try_except. destruct (body w) as [[a'|e'] w'].
  - intros [= <-]. eauto.
  - by rewrite Error_unbound.
Qed.

(** X12.  Whatever the environment does, the only exception that the backup
    writer, the four extractors and [set_timezone_gmt0] raise is
    [NameError('Error')]: an exception of the session or of the file system
    never reaches the caller as itself, and no handler runs, so
    [create_backup] and [set_timezone_gmt0] never return [False]. *)
Theorem X12_exceptions_masked (env : Env) (w : World) (e : exn) :
  (∀ path hostname, (create_backup env path hostname w).1 = Exc e →
                    e = NameError (py "Error"))
  ∧ ((get_device_inv_info env w).1 = Exc e → e = NameError (py "Error"))
  ∧ ((get_device_ver_info env w).1 = Exc e → e = NameError (py "Error"))
  ∧ ((get_device_cdp_info env w).1 = Exc e → e = NameError (py "Error"))
  ∧ (∀ ntpserver, (getset_device_ntp_info env ntpserver w).1 = Exc e →
                  e = NameError (py "Error"))
  ∧ ((set_timezone_gmt0 env w).1 = Exc e → e = NameError (py "Error"))
  ∧ (∀ path hostname, (create_backup env path hostname w).1 ≠ Ok false)
  ∧ (set_timezone_gmt0 env w).1 ≠ Ok false.
Proof.
  split_and!; try (intros; by eapply try_except_Error_masks).
  - unfold get_device_cdp_info, mbind, M_bind, bind.
    destruct (try_except _ _ _ w) as [[[cdp_run|s]|e1] w1] eqn:E1.
    + case_bool_decide.
      * destruct (try_except _ _ _ w1) as [[[n|s]|e2] w2] eqn:E2; [done..|].
        intros [= <-]. apply (f_equal fst) in E2.
        eapply try_except_Error_masks. exact E2.
      * done.
    + done.
    + intros [= <-]. apply (f_equal fst) in E1.
      eapply try_except_Error_masks. exact E1.
  - intros path hostname [w' H]%try_except_Error_value.
    unfold mbind, M_bind, bind in H.
    destruct (call env _ w) as [[o|?] w1]; [|done].
    destruct (write_file env path o w1) as [[?|?] w2]; done.
  - intros [w' H]%try_except_Error_value.
    unfold mbind, M_bind, bind in H.
    destruct (call env _ w) as [[o|?] w1]; done.
Qed.

Lemma X12_exceptions_masked_witness :
  (create_backup write_failing (py "C:/Temp/_CiscoDevNet/backup/R1/R1-2024.txt")
     (py "R1") (init_world ∅)).1
  = Exc (NameError (py "Error")).
Proof.
  destruct (create_backup write_failing
              (py "C:/Temp/_CiscoDevNet/backup/R1/R1-2024.txt")
              (py "R1") (init_world ∅)).1 as [b|e] eqn:E.
  - vm_compute in E. discriminate E.
  - f_equal.
    destruct (X12_exceptions_masked write_failing (init_world ∅) e) as [Hb _].
    by apply (Hb (py "C:/Temp/_CiscoDevNet/backup/R1/R1-2024.txt") (py "R1")).
Defined.

(** ** The calls that processing a device may make *)

Section Allowed.

Context (env : Env) (P : Call → Prop).












End Allowed.







(** ** A run of the device processor in which nothing raises *)

Section NeverRaises.

Context (env : Env) (Hnr : never_raises env).

Lemma call_never_raises c w : ∃ v, call env c w = (Ok v, log (c, Returns v) w).
Proof. destruct (Hnr (trace w) c) as [v Hv]. exists v. by apply call_returns. Qed.

Lemma sleep_never_raises n w :
  ∃ v, sleep env n w = (Ok (), log (Sleep n, Returns v) w).
Proof.
  destruct (call_never_raises (Sleep n) w) as [v Hv]. exists v.
  unfold sleep. by rewrite (bind_ok _ _ _ _ _ Hv).
Qed.

Lemma disconnect_never_raises hostname w :
  ∃ v, disconnect_from_device env hostname w = (Ok (), log (Disconnect, Returns v) w).
Proof.
  destruct (call_never_raises Disconnect w) as [v Hv]. exists v.
  unfold disconnect_from_device. by rewrite (bind_ok _ _ _ _ _ Hv).
Qed.

Lemma connect_never_raises (device : gmap pystr pystr) w
    ip username password device_type secret :
  device !! py "ip" = Some ip →
  device !! py "username" = Some username →
  device !! py "password" = Some password →
  device !! py "device_type" = Some device_type →
  device !! py "secret" = Some secret →
  ∃ v, connect_to_device env device w
       = (Ok (), log (ConnectHandler ip username password device_type secret,
                      Returns v) w).
Proof.
  intros H1 H2 H3 H4 H5.
  destruct (call_never_raises
              (ConnectHandler ip username password device_type secret) w) as [v Hv].
  exists v. unfold connect_to_device.
  rewrite (bind_ok _ _ _ _ _ (getitem_Some _ _ _ _ H1)).
  rewrite (bind_ok _ _ _ _ _ (getitem_Some _ _ _ _ H2)).
  rewrite (bind_ok _ _ _ _ _ (getitem_Some _ _ _ _ H3)).
  rewrite (bind_ok _ _ _ _ _ (getitem_Some _ _ _ _ H4)).
  rewrite (bind_ok _ _ _ _ _ (getitem_Some _ _ _ _ H5)).
  by rewrite (bind_ok _ _ _ _ _ Hv).
Qed.

Lemma backup_path_never_raises hostname timestamp w :
  ∃ created v w',
    get_backup_file_path env hostname timestamp w
    = (Ok (os_path_join env BACKUP_DIR_PATH
             [hostname; hostname ++ py "-" ++ timestamp ++ py ".txt"]), w')
    ∧ trace w'
      = trace w
        ++ optional created
             (Makedirs (os_path_join env BACKUP_DIR_PATH [hostname]), Returns v)
    ∧ (created = true ↔ os_path_join env BACKUP_DIR_PATH [hostname] ∉ paths w).
Proof.
  rewrite get_backup_file_path_run. case_bool_decide as Hin.
  - exists false, [], w. split_and!; [done | by rewrite app_nil_r |].
    split; [done | by intros []].
  - destruct (Hnr (trace w) (Makedirs (os_path_join env BACKUP_DIR_PATH [hostname])))
      as [v ->].
    eexists true, v, _. split_and!; [done | done | done].
Qed.

Lemma create_backup_never_raises backup_file_path hostname w :
  ∃ output v w',
    create_backup env backup_file_path hostname w = (Ok true, w')
    ∧ trace w'
      = trace w ++ [(SendCommand (py "sh run"), Returns output);
                    (WriteFile backup_file_path output, Returns v)].
Proof.
  destruct (call_never_raises (SendCommand (py "sh run")) w) as [output Hout].
  destruct (Hnr (trace (log (SendCommand (py "sh run"), Returns output) w))
              (WriteFile backup_file_path output)) as [v Hv].
  eexists output, v, _. split.
  - unfold create_backup. apply try_except_ok.
    rewrite (bind_ok _ _ _ _ _ Hout).
    erewrite bind_ok; [|by apply write_file_returns]. reflexivity.
  - cbn [trace log]. by rewrite <- app_assoc.
Qed.

Lemma inv_never_raises w :
  ∃ output,
    get_device_inv_info env w
    = (Ok (inv_parse output), log (SendCommand (py "sh inv"), Returns output) w).
Proof.
  destruct (Hnr (trace w) (SendCommand (py "sh inv"))) as [output Hout].
  exists output. by apply get_device_inv_info_returns.
Qed.

Lemma ver_never_raises w :
  ∃ output,
    get_device_ver_info env w
    = (Ok (ver_parse output), log (SendCommand (py "sh ver"), Returns output) w).
Proof.
  destruct (Hnr (trace w) (SendCommand (py "sh ver"))) as [output Hout].
  exists output. by apply get_device_ver_info_returns.
Qed.

Lemma cdp_never_raises w :
  ∃ output nei on text w',
    get_device_cdp_info env w = (Ok text, w')
    ∧ trace w'
      = trace w ++ (SendCommand (py "sh cdp"), Returns output)
                   :: optional on (SendCommand (py "sh cdp nei"), Returns nei)
    ∧ (on = true ↔ ¬ contains output (py "CDP is not enabled")).
Proof.
  destruct (Hnr (trace w) (SendCommand (py "sh cdp"))) as [output Hout].
  destruct (find_nat output (py "CDP is not enabled")) as [i|] eqn:F.
  - assert (contains output (py "CDP is not enabled")) as Hc
      by (apply find_nat_contains; eauto).
    eexists output, [], false, _, _. split_and!.
    + by apply get_device_cdp_info_off.
    + done.
    + split; [done | by intros []].
  - apply find_nat_None in F.
    destruct (Hnr (trace w ++ [(SendCommand (py "sh cdp"), Returns output)])
                (SendCommand (py "sh cdp nei"))) as [nei Hnei].
    eexists output, nei, true, _, _. split_and!.
    + by apply get_device_cdp_info_on.
    + cbn [trace log optional]. by rewrite <- app_assoc.
    + done.
Qed.

Lemma ntp_never_raises ntpserver w :
  ∃ ping answer status configured text w',
    getset_device_ntp_info env ntpserver w = (Ok text, w')
    ∧ trace w'
      = trace w ++ (SendCommand (py "ping " ++ ntpserver), Returns ping)
                   :: optional configured
                        (SendConfigSet (py "ntp server " ++ ntpserver), Returns answer)
                   ++ [(SendCommand (py "sh ntp status | i Clock is"), Returns status)]
    ∧ (configured = true ↔ ¬ contains ping (py "Success rate is 0")).
Proof.
  destruct (call_never_raises (SendCommand (py "ping " ++ ntpserver)) w)
    as [ping Hping].
  set (w1 := log (SendCommand (py "ping " ++ ntpserver), Returns ping) w) in *.
  destruct (find_nat ping (py "Success rate is 0")) as [i|] eqn:F.
  - assert (contains ping (py "Success rate is 0")) as Hc
      by (apply find_nat_contains; eauto).
    destruct (call_never_raises (SendCommand (py "sh ntp status | i Clock is")) w1)
      as [status Hstatus].
    destruct (ntp_clock_text status (py "NTP server not reachable, "))
      as (clock & Hclock & _).
    eexists ping, [], status, false, _, _. split_and!.
    + unfold getset_device_ntp_info. apply try_except_ok.
      rewrite (bind_ok _ _ _ _ _ Hping).
      rewrite bool_decide_eq_true_2 by by apply find_contains.
      erewrite bind_ok; [|reflexivity].
      rewrite (bind_ok _ _ _ _ _ Hstatus). rewrite Hclock. reflexivity.
    + subst w1. cbn [trace log optional app]. by rewrite <- app_assoc.
    + split; [done | by intros []].
  - apply find_nat_None in F.
    destruct (call_never_raises (SendConfigSet (py "ntp server " ++ ntpserver)) w1)
      as [answer Hanswer].
    set (w2 := log (SendConfigSet (py "ntp server " ++ ntpserver), Returns answer) w1)
      in *.
    destruct (call_never_raises (SendCommand (py "sh ntp status | i Clock is")) w2)
      as [status Hstatus].
    destruct (ntp_clock_text status []) as (clock & Hclock & _).
    eexists ping, answer, status, true, _, _. split_and!.
    + unfold getset_device_ntp_info. apply try_except_ok.
      rewrite (bind_ok _ _ _ _ _ Hping).
      rewrite bool_decide_eq_false_2 by by rewrite find_contains.
      erewrite bind_ok; last first.
      { rewrite (bind_ok _ _ _ _ _ Hanswer). reflexivity. }
      rewrite (bind_ok _ _ _ _ _ Hstatus). rewrite Hclock. reflexivity.
    + subst w1 w2. cbn [trace log optional app]. by rewrite <- !app_assoc.
    + done.
Qed.

End NeverRaises.

Lemma fmap_optional {A B} (f : A → B) (b : bool) (x : A) :
  f <$> optional b x = optional b (f x).
Proof. by destruct b. Qed.

(** The run of [process_target] when nothing raises: the events it adds. *)
Lemma process_target_run (env : Env) (device : gmap pystr pystr) (w : World)
    (hostname ip username password secret device_type ntp : pystr) :
  never_raises env →
  device !! py "hostname" = Some hostname →
  device !! py "ip" = Some ip →
  device !! py "username" = Some username →
  device !! py "password" = Some password →
  device !! py "secret" = Some secret →
  device !! py "device_type" = Some device_type →
  device !! py "ntp" = Some ntp →
  ∃ timestamp sh_run sh_inv sh_ver sh_cdp ping cdp_text ntp_text
      (created on configured : bool) evs w',
    process_target env device w = (Ok (), w')
    ∧ trace w' = trace w ++ evs
    ∧ evs.*1
      = [Now; ConnectHandler ip username password device_type secret; Enable;
         SendCommand (py "terminal len 0"); Sleep 1;
         SendCommand (py "terminal width 511"); Sleep 1]
        ++ optional created (Makedirs (os_path_join env BACKUP_DIR_PATH [hostname]))
        ++ [SendCommand (py "sh run");
            WriteFile (os_path_join env BACKUP_DIR_PATH
                         [hostname; hostname ++ py "-" ++ timestamp ++ py ".txt"])
                      sh_run;
            SendCommand (py "sh inv"); SendCommand (py "sh ver");
            SendCommand (py "sh cdp")]
        ++ optional on (SendCommand (py "sh cdp nei"))
        ++ [SendCommand (py "ping " ++ ntp)]
        ++ optional configured (SendConfigSet (py "ntp server " ++ ntp))
        ++ [SendCommand (py "sh ntp status | i Clock is");
            Print (report_line hostname (inv_parse sh_inv) (ver_parse sh_ver)
                     cdp_text ntp_text);
            Disconnect]
    ∧ (created = true ↔ os_path_join env BACKUP_DIR_PATH [hostname] ∉ paths w)
    ∧ (on = true ↔ ¬ contains sh_cdp (py "CDP is not enabled"))
    ∧ (configured = true ↔ ¬ contains ping (py "Success rate is 0"))
    ∧ Forall (λ ev, ev ∈ evs)
        [(Now, Returns timestamp);
         (SendCommand (py "sh run"), Returns sh_run);
         (SendCommand (py "sh inv"), Returns sh_inv);
         (SendCommand (py "sh ver"), Returns sh_ver);
         (SendCommand (py "sh cdp"), Returns sh_cdp);
         (SendCommand (py "ping " ++ ntp), Returns ping)].
Proof.
  intros Hnr Hhn Hip Hus Hpw Hse Hdt Hntp.
  destruct (call_never_raises env Hnr Now w) as [timestamp H1].
  set (w1 := log (Now, Returns timestamp) w) in *.
  destruct (connect_never_raises env Hnr device w1 _ _ _ _ _ Hip Hus Hpw Hdt Hse)
    as [c2 H2].
  set (w2 := log (ConnectHandler ip username password device_type secret,
                  Returns c2) w1) in *.
  destruct (call_never_raises env Hnr Enable w2) as [c3 H3].
  set (w3 := log (Enable, Returns c3) w2) in *.
  destruct (call_never_raises env Hnr (SendCommand (py "terminal len 0")) w3)
    as [c4 H4].
  set (w4 := log (SendCommand (py "terminal len 0"), Returns c4) w3) in *.
  destruct (sleep_never_raises env Hnr 1 w4) as [c5 H5].
  set (w5 := log (Sleep 1, Returns c5) w4) in *.
  destruct (call_never_raises env Hnr (SendCommand (py "terminal width 511")) w5)
    as [c6 H6].
  set (w6 := log (SendCommand (py "terminal width 511"), Returns c6) w5) in *.
  destruct (sleep_never_raises env Hnr 1 w6) as [c7 H7].
  set (w7 := log (Sleep 1, Returns c7) w6) in *.
  destruct (backup_path_never_raises env Hnr hostname timestamp w7)
    as (created & c8 & w8 & H8 & T8 & C8).
  destruct (create_backup_never_raises env Hnr
              (os_path_join env BACKUP_DIR_PATH
                 [hostname; hostname ++ py "-" ++ timestamp ++ py ".txt"])
              hostname w8) as (sh_run & c9 & w9 & H9 & T9).
  destruct (inv_never_raises env Hnr w9) as [sh_inv H10].
  set (w10 := log (SendCommand (py "sh inv"), Returns sh_inv) w9) in *.
  destruct (ver_never_raises env Hnr w10) as [sh_ver H11].
  set (w11 := log (SendCommand (py "sh ver"), Returns sh_ver) w10) in *.
  destruct (cdp_never_raises env Hnr w11)
    as (sh_cdp & nei & on & cdp_text & w12 & H12 & T12 & C12).
  destruct (ntp_never_raises env Hnr ntp w12)
    as (ping & answer & status & configured & ntp_text & w13 & H13 & T13 & C13).
  set (line := report_line hostname (inv_parse sh_inv) (ver_parse sh_ver)
                 cdp_text ntp_text).
  set (w14 := log (Print line, Returns []) w13).
  destruct (disconnect_never_raises env Hnr hostname w14) as [c15 H15].
  exists timestamp, sh_run, sh_inv, sh_ver, sh_cdp, ping, cdp_text, ntp_text,
    created, on, configured.
  exists ([(Now, Returns timestamp);
           (ConnectHandler ip username password device_type secret, Returns c2);
           (Enable, Returns c3);
           (SendCommand (py "terminal len 0"), Returns c4); (Sleep 1, Returns c5);
           (SendCommand (py "terminal width 511"), Returns c6); (Sleep 1, Returns c7)]
          ++ optional created
               (Makedirs (os_path_join env BACKUP_DIR_PATH [hostname]), Returns c8)
          ++ [(SendCommand (py "sh run"), Returns sh_run);
              (WriteFile (os_path_join env BACKUP_DIR_PATH
                            [hostname; hostname ++ py "-" ++ timestamp ++ py ".txt"])
                         sh_run, Returns c9);
              (SendCommand (py "sh inv"), Returns sh_inv);
              (SendCommand (py "sh ver"), Returns sh_ver);
              (SendCommand (py "sh cdp"), Returns sh_cdp)]
          ++ optional on (SendCommand (py "sh cdp nei"), Returns nei)
          ++ [(SendCommand (py "ping " ++ ntp), Returns ping)]
          ++ optional configured
               (SendConfigSet (py "ntp server " ++ ntp), Returns answer)
          ++ [(SendCommand (py "sh ntp status | i Clock is"), Returns status);
              (Print line, Returns []);
              (Disconnect, Returns c15)]).
  exists (log (Disconnect, Returns c15) w14).
  split_and!.
  - unfold process_target, get_current_date_and_time.
    rewrite (bind_ok _ _ _ _ _ H1), (bind_ok _ _ _ _ _ H2), (bind_ok _ _ _ _ _ H3),
      (bind_ok _ _ _ _ _ H4), (bind_ok _ _ _ _ _ H5), (bind_ok _ _ _ _ _ H6),
      (bind_ok _ _ _ _ _ H7).
    rewrite (bind_ok _ _ _ _ _ (getitem_Some _ _ _ _ Hhn)).
    rewrite (bind_ok _ _ _ _ _ H8).
    rewrite (bind_ok _ _ _ _ _ (getitem_Some _ _ _ _ Hhn)).
    rewrite (bind_ok _ _ _ _ _ H9), (bind_ok _ _ _ _ _ H10),
      (bind_ok _ _ _ _ _ H11), (bind_ok _ _ _ _ _ H12).
    rewrite (bind_ok _ _ _ _ _ (getitem_Some _ _ _ _ Hntp)).
    rewrite (bind_ok _ _ _ _ _ H13).
    rewrite (bind_ok _ _ _ _ _ (getitem_Some _ _ _ _ Hhn)).
    rewrite (bind_ok _ _ _ _ _ (print_run _ _)).
    rewrite (bind_ok _ _ _ _ _ (getitem_Some _ _ _ _ Hhn)).
    exact H15.
  - subst w14. cbn [trace log]. rewrite T13, T12. subst w11 w10. cbn [trace log].
    rewrite T9, T8. subst w7 w6 w5 w4 w3 w2 w1. cbn [trace log].
    repeat (rewrite <- ?app_assoc; cbn [app]). reflexivity.
  - rewrite !fmap_app, !fmap_optional. reflexivity.
  - exact C8.
  - exact C12.
  - exact C13.
  - repeat (apply Forall_cons; split;
            [repeat first [apply list_elem_of_here
                          | apply list_elem_of_further
                          | apply elem_of_app; right] |]).
    apply Forall_nil_2.
Qed.


Lemma lab_never_raises : never_raises lab.
Proof. intros history c. unfold lab, cli. destruct c; eauto. Qed.


(** ** The session protocol, whatever fails *)

Lemma session_run_app s (a b : list Event) :
  session_run s (a ++ b)
  = match session_run s a with Some t => session_run t b | None => None end.
Proof.
  revert s. induction a as [|ev a IH]; intros s; [done|]. cbn [app session_run].
  destruct (session_step s ev); [apply IH | done].
Qed.

Section Drives.

Context (env : Env).

Lemma drives_ret {A} s (a : A) : drives s (mret a : M A) s.
Proof.
  intros w r w' [= <- <-]. exists [], s. by rewrite app_nil_r.
Qed.

Lemma drives_raise {A} s s' e : drives s (raise e : M A) s'.
Proof.
  intros w r w' [= <- <-]. exists [], s. by rewrite app_nil_r.
Qed.

Lemma drives_bind {A B} a b c (m : M A) (k : A → M B) :
  drives a m b → (∀ x, drives b (k x) c) → drives a (m ≫= k) c.
Proof.
  intros Hm Hk w r w'. unfold mbind, M_bind, bind.
  destruct (m w) as [[x|e] w1] eqn:E.
  - intros Hrun. destruct (Hm _ _ _ E) as (evs1 & t1 & H1 & R1 & P1).
    rewrite (P1 x eq_refl) in R1.
    destruct (Hk x _ _ _ Hrun) as (evs2 & t2 & H2 & R2 & P2).
    exists (evs1 ++ evs2), t2. rewrite H2, H1, app_assoc, session_run_app, R1.
    done.
  - intros [= <- <-]. destruct (Hm _ _ _ E) as (evs1 & t1 & H1 & R1 & P1).
    by exists evs1, t1.
Qed.

Lemma drives_try_except_Error {A} a b (body handler : M A) :
  drives a body b → drives a (try_except (py "Error") body handler) b.
Proof.
  intros Hb w r w'. unfold try_except. rewrite Error_unbound.
  destruct (body w) as [[x|e] w1] eqn:E.
  - intros [= <- <-]. apply (Hb _ _ _ E).
  - intros [= <- <-]. destruct (Hb _ _ _ E) as (evs1 & t1 & H1 & R1 & P1).
    by exists evs1, t1.
Qed.

Lemma drives_call s s' c : session_target s c = Some s' → drives s (call env c) s'.
Proof.
  intros Hc w r w'. unfold call.
  destruct (env (trace w) c) as [v|e]; intros [= <- <-].
  - exists [(c, Returns v)], s'. split_and!; [done| |done].
    cbn. unfold session_step. cbn. by rewrite Hc.
  - exists [(c, Raises e)], s. split_and!; [done| |done].
    cbn. unfold session_step. cbn. by rewrite Hc.
Qed.

Lemma drives_print s line : drives s (print line) s.
Proof. intros w r w' [= <- <-]. by exists [(Print line, Returns [])], s. Qed.

Lemma drives_getitem s d k : drives s (getitem d k) s.
Proof. unfold getitem. destruct (d !! k); [apply drives_ret | apply drives_raise]. Qed.

Lemma drives_load_global s name : drives s (load_global name) s.
Proof.
  unfold load_global.
  destruct (lookup_global name); (apply drives_ret || apply drives_raise).
Qed.

Lemma drives_os_path_exists s p : drives s (os_path_exists p) s.
Proof. intros w r w' [= <- <-]. exists [], s. by rewrite app_nil_r. Qed.

Lemma drives_os_makedirs s p : drives s (os_makedirs env p) s.
Proof.
  intros w r w'. unfold os_makedirs. case_bool_decide.
  - intros [= <- <-]. by eexists [_], s.
  - destruct (env (trace w) (Makedirs p)); intros [= <- <-]; by eexists [_], s.
Qed.

Lemma drives_write_file s p content : drives s (write_file env p content) s.
Proof.
  intros w r w'. unfold write_file.
  destruct (env (trace w) (WriteFile p content)); intros [= <- <-];
    by eexists [_], s.
Qed.

Ltac drives_step :=
  first
    [ apply drives_ret | apply drives_print | apply drives_getitem
    | apply drives_load_global | apply drives_os_path_exists
    | apply drives_os_makedirs | apply drives_write_file
    | eapply drives_call; reflexivity
    | apply drives_try_except_Error
    | eapply drives_bind; [|intros ?]
    | match goal with
      | |- drives _ (if ?b then _ else _) _ => destruct b
      | |- drives _ (match ?x with _ => _ end) _ => destruct x
      end ].

(** A device is processed from a closed session to a closed session. *)
Lemma drives_process_target device : drives Closed (process_target env device) Closed.
Proof.
  unfold process_target, get_current_date_and_time, connect_to_device, sleep,
    get_backup_file_path, create_backup, get_device_inv_info, get_device_ver_info,
    get_device_cdp_info, getset_device_ntp_info, disconnect_from_device.
  repeat drives_step.
Qed.

Lemma drives_scan_device_list s device_list row dup :
  drives s (scan_device_list device_list row dup) s.
Proof.
  revert dup. induction device_list as [|dev rest IH]; intros dup; cbn [scan_device_list].
  - apply drives_ret.
  - repeat first [apply IH | drives_step].
Qed.

Lemma drives_read_rows s reader accepted : drives s (read_rows reader accepted) s.
Proof.
  revert accepted. induction reader as [|row rest IH]; intros accepted; cbn [read_rows].
  - apply drives_ret.
  - repeat first [apply IH | apply drives_scan_device_list | drives_step].
Qed.

Lemma drives_process_all device_list :
  drives Closed (process_all env device_list) Closed.
Proof.
  induction device_list as [|dev rest IH]; cbn [process_all].
  - apply drives_ret.
  - eapply drives_bind; [apply drives_process_target | intros _; apply IH].
Qed.

Lemma drives_main reader : drives Closed (main env reader) Closed.
Proof.
  unfold main, get_devices_from_file.
  eapply drives_bind; [apply drives_read_rows | intros ?; apply drives_process_all].
Qed.

End Drives.

(** X15.  Whatever the environment does and wherever a run stops, the calls
    of [process_target] and of [main] follow the session protocol from a
    closed session: no command or configuration line is sent before a
    connection and [enable], no second connection is opened while one is
    open, and nothing is sent after [disconnect]; a run that returns leaves
    the session closed. *)
Theorem X15_session_protocol (env : Env) (w : World) :
  (∀ device,
     ∃ evs t,
       trace (process_target env device w).2 = trace w ++ evs
       ∧ session_run Closed evs = Some t
       ∧ ((process_target env device w).1 = Ok () → t = Closed))
  ∧ (∀ reader,
       ∃ evs t,
         trace (main env reader w).2 = trace w ++ evs
         ∧ session_run Closed evs = Some t
         ∧ ((main env reader w).1 = Ok () → t = Closed)).
Proof.
  split.
  - intros device.
    destruct (drives_process_target env device w _ _ (surjective_pairing _))
      as (evs & t & Htrace & Hrun & Hok).
    exists evs, t. split_and!; [done..|]. intros H. by apply (Hok ()).
  - intros reader.
    destruct (drives_main env reader w _ _ (surjective_pairing _))
      as (evs & t & Htrace & Hrun & Hok).
    exists evs, t. split_and!; [done..|]. intros H. by apply (Hok ()).
Qed.

Lemma X15_session_protocol_witness :
  ∃ evs,
    trace (main lab [R1; R2; R1_again] (init_world ∅)).2 = trace (init_world ∅) ++ evs
    ∧ session_run Closed evs = Some Closed.
Proof.
  destruct (X15_session_protocol lab (init_world ∅)) as [_ Hmain].
  destruct (Hmain [R1; R2; R1_again]) as (evs & t & Htrace & Hrun & Hok).
  exists evs. split; [exact Htrace|]. rewrite Hrun. f_equal. apply Hok.
  vm_compute. reflexivity.
Defined.

(** ** The batch *)

Lemma complete_lookup (device : gmap pystr pystr) k :
  complete device → k ∈ device_fields → ∃ v, device !! k = Some v.
Proof. intros Hc Hk. exact (Hc k Hk). Qed.

Ltac field_in :=
  unfold device_fields;
  repeat first [apply list_elem_of_here | apply list_elem_of_further].

Lemma printed_lines_quiet (lines : list pystr) :
  connected_hosts (map (λ line, (Print line, Returns [])) lines).*1 = []
  ∧ disconnects (map (λ line, (Print line, Returns [])) lines) = 0%nat.
Proof. induction lines as [|l ls [IH1 IH2]]; [done|]. split; [exact IH1 | exact IH2]. Qed.

Lemma process_target_session (env : Env) (device : gmap pystr pystr) (w : World) :
  never_raises env → complete device →
  ∃ evs w',
    process_target env device w = (Ok (), w')
    ∧ trace w' = trace w ++ evs
    ∧ connected_hosts evs.*1 = [ip_of device]
    ∧ disconnects evs = 1%nat.
Proof.
  intros Hnr Hc.
  destruct (complete_lookup device (py "hostname") Hc) as [hostname Hhn]; [field_in|].
  destruct (complete_lookup device (py "ip") Hc) as [ip Hip]; [field_in|].
  destruct (complete_lookup device (py "username") Hc) as [username Hus]; [field_in|].
  destruct (complete_lookup device (py "password") Hc) as [password Hpw]; [field_in|].
  destruct (complete_lookup device (py "secret") Hc) as [secret Hse]; [field_in|].
  destruct (complete_lookup device (py "device_type") Hc) as [device_type Hdt];
    [field_in|].
  destruct (complete_lookup device (py "ntp") Hc) as [ntp Hntp]; [field_in|].
  destruct (process_target_run env device w _ _ _ _ _ _ _ Hnr Hhn Hip Hus Hpw Hse Hdt Hntp)
    as (timestamp & sh_run & sh_inv & sh_ver & sh_cdp & ping & cdp_text & ntp_text
        & created & on & configured & evs & w' & Hrun & Htrace & Hcalls & _).
  exists evs, w'. split_and!; [done | done | |].
  - rewrite Hcalls. unfold ip_of. rewrite Hip.
    by destruct created, on, configured.
  - destruct (closes_process_target env device w (Ok ()) w' Hrun)
      as (evs' & Htrace' & _ & Hone).
    rewrite Htrace in Htrace'. apply app_inv_head in Htrace' as ->.
    by destruct (Hone () eq_refl).
Qed.

Lemma process_all_sessions (env : Env) (device_list : list (gmap pystr pystr)) :
  never_raises env → Forall complete device_list →
  ∀ w, ∃ evs w',
    process_all env device_list w = (Ok (), w')
    ∧ trace w' = trace w ++ evs
    ∧ connected_hosts evs.*1 = map ip_of device_list
    ∧ disconnects evs = length device_list.
Proof.
  intros Hnr. induction device_list as [|dev rest IH]; intros Hall w.
  - exists [], w. split_and!; [done | by rewrite app_nil_r | done | done].
  - apply Forall_cons in Hall as [Hdev Hrest].
    destruct (process_target_session env dev w Hnr Hdev)
      as (evs1 & w1 & Hrun1 & Ht1 & Hh1 & Hd1).
    destruct (IH Hrest w1) as (evs2 & w2 & Hrun2 & Ht2 & Hh2 & Hd2).
    exists (evs1 ++ evs2), w2. split_and!.
    + cbn [process_all]. by rewrite (bind_ok _ _ _ _ _ Hrun1).
    + by rewrite Ht2, Ht1, app_assoc.
    + unfold connected_hosts in *. by rewrite fmap_app, omap_app, Hh1, Hh2.
    + rewrite disconnects_app, Hd1, Hd2. done.
Qed.

(** X16.  When nothing raises and every row has its seven columns, [main]
    returns, and it opens one session per distinct hostname, in first-seen
    order, to the address of the first row with that hostname, and calls
    [disconnect] as many times. *)
Theorem X16_main_sessions (env : Env) (reader : list (gmap pystr pystr)) (w : World) :
  never_raises env → Forall complete reader →
  ∃ evs w',
    main env reader w = (Ok (), w')
    ∧ trace w' = trace w ++ evs
    ∧ connected_hosts evs.*1 = map ip_of (first_seen reader)
    ∧ disconnects evs = length (first_seen reader).
Proof.
  intros Hnr Hall.
  assert (Forall (λ r, is_Some (r !! py "hostname")) reader) as Hnames.
  { eapply Forall_impl; [exact Hall|]. intros r Hr. apply Hr. field_in. }
  destruct (get_devices_from_file_run reader w Hnames) as (w1 & Hreg & _).
  destruct (read_rows_lines reader [] w Hnames) as (lines & Hw1 & _);
    [constructor | constructor |].
  fold (get_devices_from_file reader) in Hw1. rewrite Hreg in Hw1. cbn [snd] in Hw1.
  assert (Forall complete (first_seen reader)) as Hfs
    by (eapply Forall_sublist; [apply first_seen_sublist | done]).
  destruct (process_all_sessions env (first_seen reader) Hnr Hfs w1)
    as (evs2 & w2 & Hrun2 & Ht2 & Hh2 & Hd2).
  destruct (printed_lines_quiet lines) as [Hq1 Hq2].
  exists (map (λ line, (Print line, Returns [])) lines ++ evs2), w2. split_and!.
  - unfold main. by rewrite (bind_ok _ _ _ _ _ Hreg).
  - rewrite Ht2, Hw1. cbn [trace]. by rewrite app_assoc.
  - unfold connected_hosts in *. by rewrite fmap_app, omap_app, Hq1, Hh2.
  - by rewrite disconnects_app, Hq2, Hd2.
Qed.

Lemma R1_complete : complete R1.
Proof.
  intros k Hk. unfold device_fields in Hk.
  repeat (apply elem_of_cons in Hk as [->|Hk]; [eexists; vm_compute; reflexivity|]).
  by apply elem_of_nil in Hk.
Qed.

Lemma R3_complete : complete R3.
Proof.
  intros k Hk. unfold device_fields in Hk.
  repeat (apply elem_of_cons in Hk as [->|Hk]; [eexists; vm_compute; reflexivity|]).
  by apply elem_of_nil in Hk.
Qed.

Lemma X16_main_sessions_witness :
  ∃ evs w',
    main lab [R1; R3; R1] (init_world ∅) = (Ok (), w')
    ∧ trace w' = trace (init_world ∅) ++ evs
    ∧ connected_hosts evs.*1 = map ip_of (first_seen [R1; R3; R1])
    ∧ disconnects evs = length (first_seen [R1; R3; R1]).
Proof.
  apply (X16_main_sessions lab [R1; R3; R1] (init_world ∅) lab_never_raises).
  repeat (apply Forall_cons; split; [first [apply R1_complete | apply R3_complete]|]).
  apply Forall_nil_2.
Defined.

Lemma process_all_app (env : Env) (l1 l2 : list (gmap pystr pystr)) (w : World) :
  process_all env (l1 ++ l2) w
  = match process_all env l1 w with
    | (Ok _, w') => process_all env l2 w'
    | (Exc e, w') => (Exc e, w')
    end.
Proof.
  revert w. induction l1 as [|dev l1 IH]; intros w; [done|].
  cbn [app process_all]. unfold mbind, M_bind, bind.
  destruct (process_target env dev w) as [[[]|e] w1]; [apply IH | done].
Qed.

(** X17.  The batch stops at the first device whose processing raises:
    [main] ends with that exception, in the world that this device's
    processing left, and the devices after it are not contacted. *)
Theorem X17_main_stops_at_failure (env : Env) (reader : list (gmap pystr pystr))
    (w w1 w2 : World) (processed rest : list (gmap pystr pystr))
    (dev : gmap pystr pystr) (e : exn) :
  Forall (λ r, is_Some (r !! py "hostname")) reader →
  first_seen reader = processed ++ dev :: rest →
  process_all env processed (get_devices_from_file reader w).2 = (Ok (), w1) →
  process_target env dev w1 = (Exc e, w2) →
  main env reader w = (Exc e, w2).
Proof.
  intros Hnames Hsplit Hdone Hfail.
  destruct (get_devices_from_file_run reader w Hnames) as (w0 & Hreg & _).
  rewrite Hreg in Hdone. cbn [snd] in Hdone.
  unfold main. rewrite (bind_ok _ _ _ _ _ Hreg), Hsplit, process_all_app, Hdone.
  cbn [process_all]. by apply bind_exc.
Qed.

Lemma X17_main_stops_at_failure_witness :
  main enable_failing [R1; R3] (init_world ∅)
  = (Exc (Raised (py "ValueError") (py "Failed to enter enable mode.")),
     (process_target enable_failing R1
        (get_devices_from_file [R1; R3] (init_world ∅)).2).2).
Proof.
  apply (X17_main_stops_at_failure enable_failing [R1; R3] (init_world ∅)
           (get_devices_from_file [R1; R3] (init_world ∅)).2 _ [] [R3] R1).
  - repeat (apply Forall_cons; split; [eexists; vm_compute; reflexivity|]).
    apply Forall_nil_2.
  - vm_compute. reflexivity.
  - reflexivity.
  - vm_compute. reflexivity.
Defined.


(** ** A row without the NTP column *)

(** X18.  When nothing raises and the row has every column but [ntp],
    [process_target] raises [KeyError('ntp')] after the backup and the
    inventory, version and CDP facts: nothing is printed, [disconnect] is
    not called, and the session is left open in privileged mode. *)
Theorem X18_missing_ntp_leaves_session_open (env : Env)
    (device : gmap pystr pystr) (w : World)
    (hostname ip username password secret device_type : pystr) :
  never_raises env →
  device !! py "hostname" = Some hostname →
  device !! py "ip" = Some ip →
  device !! py "username" = Some username →
  device !! py "password" = Some password →
  device !! py "secret" = Some secret →
  device !! py "device_type" = Some device_type →
  device !! py "ntp" = None →
  ∃ evs w',
    process_target env device w = (Exc (KeyError (py "ntp")), w')
    ∧ trace w' = trace w ++ evs
    ∧ session_run Closed evs = Some Privileged
    ∧ disconnects evs = 0%nat
    ∧ ∀ line, Print line ∉ evs.*1.
Proof.
  intros Hnr Hhn Hip Hus Hpw Hse Hdt Hntp.
  destruct (call_never_raises env Hnr Now w) as [timestamp H1].
  set (w1 := log (Now, Returns timestamp) w) in *.
  destruct (connect_never_raises env Hnr device w1 _ _ _ _ _ Hip Hus Hpw Hdt Hse)
    as [c2 H2].
  set (w2 := log (ConnectHandler ip username password device_type secret,
                  Returns c2) w1) in *.
  destruct (call_never_raises env Hnr Enable w2) as [c3 H3].
  set (w3 := log (Enable, Returns c3) w2) in *.
  destruct (call_never_raises env Hnr (SendCommand (py "terminal len 0")) w3)
    as [c4 H4].
  set (w4 := log (SendCommand (py "terminal len 0"), Returns c4) w3) in *.
  destruct (sleep_never_raises env Hnr 1 w4) as [c5 H5].
  set (w5 := log (Sleep 1, Returns c5) w4) in *.
  destruct (call_never_raises env Hnr (SendCommand (py "terminal width 511")) w5)
    as [c6 H6].
  set (w6 := log (SendCommand (py "terminal width 511"), Returns c6) w5) in *.
  destruct (sleep_never_raises env Hnr 1 w6) as [c7 H7].
  set (w7 := log (Sleep 1, Returns c7) w6) in *.
  destruct (backup_path_never_raises env Hnr hostname timestamp w7)
    as (created & c8 & w8 & H8 & T8 & C8).
  destruct (create_backup_never_raises env Hnr
              (os_path_join env BACKUP_DIR_PATH
                 [hostname; hostname ++ py "-" ++ timestamp ++ py ".txt"])
              hostname w8) as (sh_run & c9 & w9 & H9 & T9).
  destruct (inv_never_raises env Hnr w9) as [sh_inv H10].
  set (w10 := log (SendCommand (py "sh inv"), Returns sh_inv) w9) in *.
  destruct (ver_never_raises env Hnr w10) as [sh_ver H11].
  set (w11 := log (SendCommand (py "sh ver"), Returns sh_ver) w10) in *.
  destruct (cdp_never_raises env Hnr w11)
    as (sh_cdp & nei & on & cdp_text & w12 & H12 & T12 & C12).
  exists ([(Now, Returns timestamp);
           (ConnectHandler ip username password device_type secret, Returns c2);
           (Enable, Returns c3);
           (SendCommand (py "terminal len 0"), Returns c4); (Sleep 1, Returns c5);
           (SendCommand (py "terminal width 511"), Returns c6); (Sleep 1, Returns c7)]
          ++ optional created
               (Makedirs (os_path_join env BACKUP_DIR_PATH [hostname]), Returns c8)
          ++ [(SendCommand (py "sh run"), Returns sh_run);
              (WriteFile (os_path_join env BACKUP_DIR_PATH
                            [hostname; hostname ++ py "-" ++ timestamp ++ py ".txt"])
                         sh_run, Returns c9);
              (SendCommand (py "sh inv"), Returns sh_inv);
              (SendCommand (py "sh ver"), Returns sh_ver);
              (SendCommand (py "sh cdp"), Returns sh_cdp)]
          ++ optional on (SendCommand (py "sh cdp nei"), Returns nei)), w12.
  split_and!.
  - unfold process_target, get_current_date_and_time.
    rewrite (bind_ok _ _ _ _ _ H1), (bind_ok _ _ _ _ _ H2), (bind_ok _ _ _ _ _ H3),
      (bind_ok _ _ _ _ _ H4), (bind_ok _ _ _ _ _ H5), (bind_ok _ _ _ _ _ H6),
      (bind_ok _ _ _ _ _ H7).
    rewrite (bind_ok _ _ _ _ _ (getitem_Some _ _ _ _ Hhn)).
    rewrite (bind_ok _ _ _ _ _ H8).
    rewrite (bind_ok _ _ _ _ _ (getitem_Some _ _ _ _ Hhn)).
    rewrite (bind_ok _ _ _ _ _ H9), (bind_ok _ _ _ _ _ H10),
      (bind_ok _ _ _ _ _ H11), (bind_ok _ _ _ _ _ H12).
    apply bind_exc. unfold getitem. by rewrite Hntp.
  - rewrite T12. subst w11 w10. cbn [trace log].
    rewrite T9, T8. subst w7 w6 w5 w4 w3 w2 w1. cbn [trace log].
    repeat (rewrite <- ?app_assoc; cbn [app]). reflexivity.
  - by destruct created, on.
  - by destruct created, on.
  - intros line Hin. rewrite !fmap_app, !fmap_optional in Hin.
    destruct created, on; cbn in Hin;
      repeat (apply elem_of_cons in Hin as [Hin|Hin]; [discriminate Hin|]);
      by apply elem_of_nil in Hin.
Qed.

Lemma X18_missing_ntp_leaves_session_open_witness :
  ∃ evs w',
    process_target lab R1_without_ntp (init_world ∅) = (Exc (KeyError (py "ntp")), w')
    ∧ trace w' = trace (init_world ∅) ++ evs
    ∧ session_run Closed evs = Some Privileged
    ∧ disconnects evs = 0%nat
    ∧ ∀ line, Print line ∉ evs.*1.
Proof.
  apply (X18_missing_ntp_leaves_session_open lab R1_without_ntp (init_world ∅)
           (py "R1") (py "10.0.0.1") (py "admin") (py "secret1") (py "secret2")
           (py "cisco_ios") lab_never_raises);
    vm_compute; reflexivity.
Defined.

Lemma X2_inventory_value_shape_witness :
  (","%char ∉ inv_parse no_marker_inventory_output)
  ∧ (∀ c, head (inv_parse no_marker_inventory_output) = Some c → isspace c = false)
  ∧ (∀ c, last (inv_parse no_marker_inventory_output) = Some c → isspace c = false).
Proof. apply (X2_inventory_value_shape no_marker_inventory_output). Defined.

Lemma X3_version_name_shape_witness :
  ("/"%char ∉ ver_name npe_version_output)
  ∧ (DQUOTE ∉ ver_name npe_version_output)
  ∧ (ver_parse npe_version_output = ver_name npe_version_output ++ py " | NPE"
     ∨ ver_parse npe_version_output = ver_name npe_version_output ++ py " | PE ").
Proof. apply (X3_version_name_shape npe_version_output). Defined.
